(** * dbus-rngbridge: the device-state synchronisation cycle

    A shallow embedding of [dbus-rngbridge.py]: the service object
    [DbusRngbridgeService], its timer callbacks [_update] and [_signOfLife],
    the HTTP fetch [_requestData] and the start-up code of [__init__] and
    [main], together with the fragment of Python's value semantics that the
    cycle exercises (subscripting, [*], [/], [+], [%], truthiness, the
    ['%s'] formatting done for the log).

    Python values decoded from JSON are the inductive [pyval]; floats are
    IEEE-754 binary64 numbers ([spec_float] at precision 53, [emax] 1024);
    the D-Bus property table is a finite map from object paths to items;
    statements run in a state-and-exception monad in which the writes made
    before a [raise] stay visible to the handler, as they do in Python. *)

From Stdlib Require Import ZArith String Ascii List Bool Lia.
From Stdlib Require Import Floats.SpecFloat DecimalString.
From stdpp Require Import base option gmap strings list.
Import ListNotations.

Local Open Scope Z_scope.
Set Warnings "-register-all".

(* ===================================================================== *)
(** ** Exceptions and results *)
(* ===================================================================== *)

(** The classes below are the subclasses of [Exception] that the program can
    meet. A constructor stands for the class and everything derived from it
    ([json.JSONDecodeError], for one, is a [ValueError]). *)
Inductive exn : Type :=
| ValueError (msg : string)
| RequestsConnectionError          (* requests.exceptions.ConnectionError *)
| RequestsTimeout                  (* requests.exceptions.Timeout *)
| ConnectionError (msg : string)   (* the builtin ConnectionError *)
| KeyError (key : string)
| TypeError
| IndexError
| OverflowError
| ZeroDivisionError
| DuplicatePath (path : string)
| OtherException (name : string).

Inductive result (A : Type) : Type :=
| Ok (a : A)
| Raise (e : exn).
Arguments Ok {A} a.
Arguments Raise {A} e.

Definition is_Ok {A} (r : result A) : bool :=
  match r with Ok _ => true | Raise _ => false end.

(** A few steps of the cycle are pure and fallible; they are chained with
    [let?]. *)
Definition rbind {A B} (r : result A) (k : A -> result B) : result B :=
  match r with Ok a => k a | Raise e => Raise e end.

Notation "'let?' x := r 'in' k" := (rbind r (fun x => k))
  (at level 10, x name, r at level 100, k at level 200).

(* ===================================================================== *)
(** ** Python values *)
(* ===================================================================== *)

(** What [response.json()] can return, and what the property table holds.
    A JSON object becomes a [dict] with string keys, kept here in insertion
    order; the decoder leaves no duplicate key behind. *)
Inductive pyval : Type :=
| PyNone
| PyBool (b : bool)
| PyInt (z : Z)
| PyFloat (f : spec_float)
| PyStr (s : string)
| PyList (l : list pyval)
| PyDict (d : list (string * pyval)).

(** *** binary64 arithmetic *)

Definition f64_prec : Z := 53.
Definition f64_emax : Z := 1024.

Definition f64_mul : spec_float -> spec_float -> spec_float := SFmul f64_prec f64_emax.
Definition f64_div : spec_float -> spec_float -> spec_float := SFdiv f64_prec f64_emax.
Definition f64_add : spec_float -> spec_float -> spec_float := SFadd f64_prec f64_emax.

(** The double nearest to an integer (ties to even, infinite past the range). *)
Definition f64_of_Z (z : Z) : spec_float := binary_normalize f64_prec f64_emax z 0 false.

Definition f64_is_zero (f : spec_float) : bool :=
  match f with S754_zero _ => true | _ => false end.

Definition f64_is_negative (f : spec_float) : bool :=
  SFltb f (S754_zero false).

(** [int -> float] as [PyLong_AsDouble] does it: an integer too large for a
    double raises [OverflowError]. *)
Definition float_of_int (z : Z) : result spec_float :=
  match f64_of_Z z with
  | S754_infinity _ => Raise OverflowError
  | f => Ok f
  end.

(** C's [fmod]: the remainder has the sign of the dividend and is exact. *)
Definition f64_fmod (x y : spec_float) : spec_float :=
  match x, y with
  | S754_nan, _ | _, S754_nan => S754_nan
  | S754_infinity _, _ => S754_nan
  | _, S754_zero _ => S754_nan
  | S754_zero _, _ => x
  | S754_finite _ _ _, S754_infinity _ => x
  | S754_finite sx mx ex, S754_finite _ my ey =>
      let e := Z.min ex ey in
      let r := Z.rem (Z.pos mx * 2 ^ (ex - e)) (Z.pos my * 2 ^ (ey - e)) in
      binary_normalize f64_prec f64_emax (cond_Zopp sx r) e sx
  end.

(** [float_rem] of CPython: the result takes the sign of the divisor. *)
Definition float_rem (x y : spec_float) : result spec_float :=
  if f64_is_zero y then Raise ZeroDivisionError
  else
    let m := f64_fmod x y in
    if f64_is_zero m then Ok (S754_zero (f64_is_negative y))
    else if xorb (f64_is_negative y) (f64_is_negative m) then Ok (f64_add m y)
    else Ok m.

(** The double nearest to the quotient of two integers, [b] not zero; it
    is also the value of a decimal literal such as [0.2] (2 over 10). *)
Definition f64_ratio (a b : Z) : spec_float :=
  match a with
  | Z0 => S754_zero (b <? 0)
  | _ =>
      let '(q, e, l) := SFdiv_core_binary f64_prec f64_emax (Z.abs a) 0 (Z.abs b) 0 in
      binary_round_aux f64_prec f64_emax (xorb (a <? 0) (b <? 0)) q e l
  end.

(** True division of two integers, correctly rounded whatever their size. *)
Definition int_true_divide (a b : Z) : result spec_float :=
  if b =? 0 then Raise ZeroDivisionError
  else match f64_ratio a b with
       | S754_infinity _ => Raise OverflowError
       | f => Ok f
       end.

(** *** Truthiness, [bool(v)] *)

Definition py_bool (v : pyval) : bool :=
  match v with
  | PyNone => false
  | PyBool b => b
  | PyInt z => negb (z =? 0)
  | PyFloat f => negb (f64_is_zero f)
  | PyStr s => negb (String.length s =? 0)%nat
  | PyList l => negb (List.length l =? 0)%nat
  | PyDict d => negb (List.length d =? 0)%nat
  end.

(** *** Subscripting, [v[k]] *)

Fixpoint assoc (k : string) (d : list (string * pyval)) : option pyval :=
  match d with
  | [] => None
  | (k', v) :: d' => if String.eqb k k' then Some v else assoc k d'
  end.

(** A sequence index: negative indices count from the end. *)
Definition seq_index {A} (l : list A) (i : Z) : result A :=
  let n := Z.of_nat (List.length l) in
  let j := if i <? 0 then i + n else i in
  if (j <? 0) || (n <=? j) then Raise IndexError
  else match nth_error l (Z.to_nat j) with
       | Some a => Ok a
       | None => Raise IndexError
       end.

Definition chars (s : string) : list string :=
  map (fun c => String c EmptyString) (list_ascii_of_string s).

(** [bool] is a subclass of [int]: [True] counts as 1 wherever an integer
    is wanted. *)
Definition int_of_bool (b : bool) : Z := if b then 1 else 0.

Definition py_getitem (v k : pyval) : result pyval :=
  match v with
  | PyDict d =>
      match k with
      | PyStr s => match assoc s d with
                   | Some x => Ok x
                   | None => Raise (KeyError s)
                   end
      | PyList _ | PyDict _ => Raise TypeError          (* unhashable key *)
      | _ => Raise (KeyError "")                        (* no such key *)
      end
  | PyList l =>
      match k with
      | PyInt i => seq_index l i
      | PyBool b => seq_index l (int_of_bool b)
      | _ => Raise TypeError
      end
  | PyStr s =>
      match k with
      | PyInt i => let? c := seq_index (chars s) i in Ok (PyStr c)
      | PyBool b => let? c := seq_index (chars s) (int_of_bool b) in Ok (PyStr c)
      | _ => Raise TypeError
      end
  | PyNone | PyBool _ | PyInt _ | PyFloat _ => Raise TypeError
  end.

(** *** Arithmetic operators *)

(** A number is an exact integer ([int], [bool]) or a double. *)
Inductive number : Type :=
| NInt (z : Z)
| NFloat (f : spec_float).

Definition as_number (v : pyval) : option number :=
  match v with
  | PyBool b => Some (NInt (int_of_bool b))
  | PyInt z => Some (NInt z)
  | PyFloat f => Some (NFloat f)
  | _ => None
  end.

Definition to_float (n : number) : result spec_float :=
  match n with
  | NInt z => float_of_int z
  | NFloat f => Ok f
  end.

(** Sequence repetition, [s * n]: empty for [n <= 0]. *)
Definition repeat_list {A} (l : list A) (n : Z) : list A :=
  List.concat (List.repeat l (Z.to_nat n)).

Definition repeat_string (s : string) (n : Z) : string :=
  string_of_list_ascii (repeat_list (list_ascii_of_string s) n).

(** [sys.maxsize], the largest sequence index, of a 64-bit interpreter. *)
Definition maxsize : Z := 2 ^ 63 - 1.

(** The count of a repetition is converted to an index first: one that does
    not fit raises [OverflowError], whatever the sequence. *)
Definition as_index (n : Z) : result Z :=
  if (n <? - maxsize - 1) || (maxsize <? n) then Raise OverflowError else Ok n.

(** A repetition longer than [sys.maxsize] is refused: [str] raises
    [OverflowError], [list] raises [MemoryError]. Below that length the
    result is taken to fit in memory. *)
Definition too_long (len n : Z) : bool := (0 <? n) && (maxsize <? len * n).

Definition repeat_sequence (seq : pyval) (n : Z) : result pyval :=
  match seq with
  | PyStr s =>
      let? count := as_index n in
      if too_long (Z.of_nat (String.length s)) count then Raise OverflowError
      else Ok (PyStr (repeat_string s count))
  | PyList l =>
      let? count := as_index n in
      if too_long (Z.of_nat (List.length l)) count
      then Raise (OtherException "MemoryError")
      else Ok (PyList (repeat_list l count))
  | _ => Raise TypeError
  end.

(** [a * b]: the product of two numbers, or a sequence repeated. *)
Definition py_mul (a b : pyval) : result pyval :=
  match as_number a, as_number b with
  | Some (NInt x), Some (NInt y) => Ok (PyInt (x * y))
  | Some x, Some y =>
      let? fx := to_float x in
      let? fy := to_float y in
      Ok (PyFloat (f64_mul fx fy))
  | Some (NInt n), None => repeat_sequence b n
  | None, Some (NInt n) => repeat_sequence a n
  | _, _ => Raise TypeError
  end.

(** [a / b], true division. *)
Definition py_truediv (a b : pyval) : result pyval :=
  match as_number a, as_number b with
  | Some (NInt x), Some (NInt y) =>
      let? q := int_true_divide x y in Ok (PyFloat q)
  | Some x, Some y =>
      let? fx := to_float x in
      let? fy := to_float y in
      if f64_is_zero fy then Raise ZeroDivisionError
      else Ok (PyFloat (f64_div fx fy))
  | _, _ => Raise TypeError
  end.

(** [a + b]. *)
Definition py_add (a b : pyval) : result pyval :=
  match as_number a, as_number b with
  | Some (NInt x), Some (NInt y) => Ok (PyInt (x + y))
  | Some x, Some y =>
      let? fx := to_float x in
      let? fy := to_float y in
      Ok (PyFloat (f64_add fx fy))
  | _, _ =>
      match a, b with
      | PyStr s, PyStr t => Ok (PyStr (s +:+ t))
      | PyList l, PyList m => Ok (PyList (l ++ m))
      | _, _ => Raise TypeError
      end
  end.

(** [a % b] on numbers. With a positive divisor Python's integer remainder
    is [Z.modulo]; in general it takes the sign of the divisor, as
    [Z.modulo] does. (A string on the left would mean printf-style
    formatting; the program only applies [%] to the result of [_ + 1],
    which is never a string.) *)
Definition py_mod (a b : pyval) : result pyval :=
  match as_number a, as_number b with
  | Some (NInt x), Some (NInt y) =>
      if y =? 0 then Raise ZeroDivisionError else Ok (PyInt (x mod y))
  | Some x, Some y =>
      let? fx := to_float x in
      let? fy := to_float y in
      let? r := float_rem fx fy in
      Ok (PyFloat r)
  | _, _ => Raise TypeError
  end.

(* ===================================================================== *)
(** ** The published properties *)
(* ===================================================================== *)

(** The text formatters that [main] hands to the service, by name. *)
Inductive textformat : Type := fmt_kwh | fmt_a | fmt_w | fmt_v | fmt_s.

(** One exported D-Bus item: its value, its text callback, and whether bus
    clients may write it. *)
Record item : Type := Item {
  value : pyval;
  gettextcallback : option textformat;
  writeable : bool
}.

Definition with_value (v : pyval) (it : item) : item :=
  {| value := v; gettextcallback := gettextcallback it; writeable := writeable it |}.

(** The callbacks given to [gobject.timeout_add]. *)
Inductive callback : Type := cb_update | cb_signOfLife.

(** The mutable state of the process: the attributes of the service object
    and the timeouts registered with the GLib main loop (interval in
    milliseconds, callback), oldest first. *)
Record process : Type := Process {
  _dbusservice : gmap string item;
  _lastUpdate : pyval;
  timeouts : list (Z * callback)
}.

Definition set_dbusservice (d : gmap string item) (s : process) : process :=
  {| _dbusservice := d; _lastUpdate := _lastUpdate s; timeouts := timeouts s |}.

Definition set_lastUpdate (v : pyval) (s : process) : process :=
  {| _dbusservice := _dbusservice s; _lastUpdate := v; timeouts := timeouts s |}.

Definition add_timeout (t : Z * callback) (s : process) : process :=
  {| _dbusservice := _dbusservice s; _lastUpdate := _lastUpdate s;
     timeouts := timeouts s ++ [t] |}.

(** Overwrite the value of an exported item, keeping its callback and flag. *)
Definition store (path : string) (v : pyval) (s : process) : process :=
  set_dbusservice (alter (with_value v) path (_dbusservice s)) s.

(** The value currently stored under a path, if the path is exported. *)
Definition dbus_value (s : process) (path : string) : option pyval :=
  value <$> (_dbusservice s !! path).

(* ===================================================================== *)
(** ** Statements: state and exceptions *)
(* ===================================================================== *)

(** A statement maps the state to the new state and either a value or the
    exception raised. The state returned with [Raise] holds every write made
    before the exception. *)
Definition M (A : Type) : Type := process -> process * result A.

Definition ret {A} (a : A) : M A := fun s => (s, Ok a).

Definition raise {A} (e : exn) : M A := fun s => (s, Raise e).

Definition bind {A B} (m : M A) (k : A -> M B) : M B :=
  fun s => match m s with
           | (s', Ok a) => k a s'
           | (s', Raise e) => (s', Raise e)
           end.

(** Evaluate a pure expression. *)
Definition eval {A} (r : result A) : M A := fun s => (s, r).

(** [try: body except Exception as e: handler e]. An exception raised by the
    handler leaves the statement. *)
Definition try_except {A} (body : M A) (handler : exn -> M A) : M A :=
  fun s => match body s with
           | (s', Ok a) => (s', Ok a)
           | (s', Raise e) => handler e s'
           end.

Declare Scope stmt_scope.
Delimit Scope stmt_scope with stmt.
Notation "x <- c ;; k" := (bind c (fun x => k))
  (at level 100, c at next level, right associativity) : stmt_scope.
Notation "c ;; k" := (bind c (fun _ => k))
  (at level 100, right associativity) : stmt_scope.
Local Open Scope stmt_scope.

(** *** VeDbusService *)

(** Modelled from the spec: the bus client library [vedbus] is imported
    from outside the repository. Its service object is the PropertyStore of
    the specification: [Register] fails with [DuplicatePath] for a path
    registered before, [Get] fails ([KeyError]) for a path never registered,
    [Set] overwrites the current value of a registered path and always
    succeeds there, and a bus client's write to a writable path is accepted
    when the change callback agrees. [add_path] is [Register] with the
    mutability flag given; what a path added without the flag gets is the
    library's choice, [default_writeable] below. *)
Definition add_path (path : string) (v : pyval)
    (fmt : option textformat) (w : bool) : M unit :=
  fun s => match _dbusservice s !! path with
           | Some _ => (s, Raise (DuplicatePath path))
           | None => (set_dbusservice (<[path := Item v fmt w]> (_dbusservice s)) s, Ok tt)
           end.

(** [self._dbusservice[path]] *)
Definition dbus_getitem (path : string) : M pyval :=
  fun s => match _dbusservice s !! path with
           | Some it => (s, Ok (value it))
           | None => (s, Raise (KeyError path))
           end.

(** [self._dbusservice[path] = v] *)
Definition dbus_setitem (path : string) (v : pyval) : M unit :=
  fun s => match _dbusservice s !! path with
           | Some _ => (store path v s, Ok tt)
           | None => (s, Raise (KeyError path))
           end.

(** [_handlechangedvalue]: log, and accept the change. The value comes
    over the bus, where an integer has 64 bits at most, so that its text
    can always be formed. *)
Definition _handlechangedvalue (path : string) (v : pyval) : bool := true.

(** A write requested by another bus client. The nine published paths are
    registered with [_handlechangedvalue] as their change callback. *)
Definition bus_SetValue (path : string) (v : pyval) (s : process) : process :=
  match _dbusservice s !! path with
  | Some it =>
      if writeable it && _handlechangedvalue path v then store path v s else s
  | None => s
  end.

(* ===================================================================== *)
(** ** The world outside the process *)
(* ===================================================================== *)

(** What [requests.get] hands back: the truth value of the response object
    (its [ok] flag) and the outcome of [response.json()]. *)
Record response : Type := Response {
  ok : bool;
  json : result pyval
}.

(** What one run of a callback sees of the outside: the parsed [config.ini]
    (the [DEFAULT] section and the named ones), the answer of the device to
    a GET on a URL (or the exception [requests.get] raises), the clock, the
    two strings the management paths show, and two choices of what is
    installed: [sys.get_int_max_str_digits()] of the interpreter (0 where it
    sets no limit, as before Python 3.11 and its security backports), and
    the [writeable] that [VeDbusService.add_path] gives a path added
    without the flag. *)
Record env : Type := Env {
  config_defaults : gmap string string;
  config_sections : gmap string (gmap string string);
  requests_get : string -> result response;
  time_time : spec_float;
  file_name : string;
  python_version : string;
  int_max_str_digits : Z;
  default_writeable : bool
}.

(** [config[section][key]] on the parsed file, keys as the program spells
    them: a missing section or key is a [KeyError]; a key missing from a
    named section falls back to [DEFAULT]. Values are handed back as they
    are stored, which is what [configparser] does with a value that holds
    no [%]. *)
Definition config_get (w : env) (section key : string) : result string :=
  if String.eqb section "DEFAULT" then
    match config_defaults w !! key with
    | Some v => Ok v
    | None => Raise (KeyError key)
    end
  else
    match config_sections w !! section with
    | None => Raise (KeyError section)
    | Some sec =>
        match sec !! key with
        | Some v => Ok v
        | None => match config_defaults w !! key with
                  | Some v => Ok v
                  | None => Raise (KeyError key)
                  end
        end
    end.

(* ===================================================================== *)
(** ** [int(...)] on configuration strings *)
(* ===================================================================== *)

Definition is_space (c : ascii) : bool :=
  let n := nat_of_ascii c in
  ((9 <=? n) && (n <=? 13) || (28 <=? n) && (n <=? 32))%nat.

Definition digit_of (c : ascii) : option Z :=
  let n := nat_of_ascii c in
  if ((48 <=? n) && (n <=? 57))%nat then Some (Z.of_nat n - 48) else None.

Fixpoint lstrip (cs : list ascii) : list ascii :=
  match cs with
  | c :: cs' => if is_space c then lstrip cs' else cs
  | [] => []
  end.

Definition strip (cs : list ascii) : list ascii :=
  rev (lstrip (rev (lstrip cs))).

(** Decimal digits, single underscores allowed between two digits. *)
Fixpoint parse_digits (cs : list ascii) (acc : Z) (after_digit : bool) : option Z :=
  match cs with
  | [] => if after_digit then Some acc else None
  | c :: cs' =>
      match digit_of c with
      | Some d => parse_digits cs' (10 * acc + d) true
      | None =>
          if Ascii.eqb c "_" && after_digit then parse_digits cs' acc false
          else None
      end
  end.

(** [repr] of a text, for the message of [int()]: between single quotes,
    or double ones when the text holds a single quote and no double one;
    the quote in use, the backslash and the control characters are
    escaped. *)
Definition single_quote : ascii := ascii_of_nat 39.
Definition double_quote : ascii := ascii_of_nat 34.
Definition backslash : ascii := ascii_of_nat 92.

Definition hex_digit (n : nat) : ascii :=
  nth n (list_ascii_of_string "0123456789abcdef") "0"%char.

Definition repr_char (quote c : ascii) : list ascii :=
  let n := nat_of_ascii c in
  if Ascii.eqb c quote || Ascii.eqb c backslash then [backslash; c]
  else if (n =? 9)%nat then [backslash; "t"%char]
  else if (n =? 10)%nat then [backslash; "n"%char]
  else if (n =? 13)%nat then [backslash; "r"%char]
  else if ((n <? 32) || (n =? 127))%nat then
    [backslash; "x"%char; hex_digit (n / 16); hex_digit (n mod 16)]
  else [c].

Definition repr_str (s : string) : string :=
  let cs := list_ascii_of_string s in
  let quote :=
    if existsb (Ascii.eqb single_quote) cs && negb (existsb (Ascii.eqb double_quote) cs)
    then double_quote else single_quote in
  string_of_list_ascii (quote :: flat_map (repr_char quote) cs ++ [quote]).

(** [int(s)] in base 10: blanks around the literal are dropped, a sign may
    lead, and the digits are the ASCII ones. The message shows the first
    200 characters of [repr(s)]. *)
Definition int_of_str (s : string) : result Z :=
  let body := strip (list_ascii_of_string s) in
  let parsed :=
    match body with
    | c :: cs =>
        if Ascii.eqb c "-" then Z.opp <$> parse_digits cs 0 false
        else if Ascii.eqb c "+" then parse_digits cs 0 false
        else parse_digits body 0 false
    | [] => None
    end in
  match parsed with
  | Some z => Ok z
  | None =>
      Raise (ValueError
               ("invalid literal for int() with base 10: "
                +:+ string_of_list_ascii
                      (firstn 200 (list_ascii_of_string (repr_str s)))))
  end.

(** [int(v)]: an integer as it is, a string parsed, a float truncated. *)
Definition py_int (v : pyval) : result Z :=
  match v with
  | PyInt z => Ok z
  | PyBool b => Ok (int_of_bool b)
  | PyStr s => int_of_str s
  | PyFloat (S754_zero _) => Ok 0
  | PyFloat (S754_finite sg m e) =>
      Ok (cond_Zopp sg (if 0 <=? e then Z.pos m * 2 ^ e else Z.pos m / 2 ^ (- e)))
  | PyFloat (S754_infinity _) => Raise OverflowError
  | PyFloat S754_nan => Raise (ValueError "cannot convert float NaN to integer")
  | PyNone | PyList _ | PyDict _ => Raise TypeError
  end.

(* ===================================================================== *)
(** ** ['%s' % v] *)
(* ===================================================================== *)

(** [str] of an integer: where the interpreter limits the conversion, an
    integer of more than [limit] decimal digits raises [ValueError] (the
    wording is that of Python 3.11). *)
Definition int_str (limit z : Z) : result unit :=
  if 0 <? limit then
    if 10 ^ limit <=? Z.abs z then
      Raise (ValueError ("Exceeds the limit ("
                         +:+ NilZero.string_of_int (Z.to_int limit)
                         +:+ " digits) for integer string conversion; "
                         +:+ "use sys.set_int_max_str_digits() to increase the limit"))
    else Ok tt
  else Ok tt.

(** [str(v)], as far as it can fail: the integers of [v], those inside a
    list or a dict included, are converted from left to right. The text
    itself is not kept. *)
Fixpoint py_str (limit : Z) (v : pyval) : result unit :=
  match v with
  | PyInt z => int_str limit z
  | PyList l =>
      (fix items (l : list pyval) : result unit :=
         match l with
         | [] => Ok tt
         | x :: l' => let? _ := py_str limit x in items l'
         end) l
  | PyDict d =>
      (fix items (d : list (string * pyval)) : result unit :=
         match d with
         | [] => Ok tt
         | (_, x) :: d' => let? _ := py_str limit x in items d'
         end) d
  | PyNone | PyBool _ | PyFloat _ | PyStr _ => Ok tt
  end.

(** ["... %s" % (v)]: the text is built before [logging] is called, whatever
    the log level; it goes to the log and nowhere else. *)
Definition percent_s (w : env) (v : pyval) : result unit :=
  py_str (int_max_str_digits w) v.

(* ===================================================================== *)
(** ** DbusRngbridgeService *)
(* ===================================================================== *)

(** [_getSignOfLifeInterval] *)
Definition _getSignOfLifeInterval (w : env) : result Z :=
  let? value := config_get w "DEFAULT" "SignOfLifeLog" in
  let value := if negb (py_bool (PyStr value)) then PyInt 0 else PyStr value in
  py_int value.

(** [_getStatusUrl] *)
Definition _getStatusUrl (w : env) : result string :=
  let? accessType := config_get w "DEFAULT" "AccessType" in
  if String.eqb accessType "OnPremise" then
    let? host := config_get w "ONPREMISE" "Host" in
    Ok ("http://" +:+ host +:+ "/api/")
  else
    let? a := config_get w "DEFAULT" "AccessType" in
    Raise (ValueError ("AccessType " +:+ a +:+ " is not supported")).

(** [_requestData] *)
Definition _requestData (w : env) (url : string) : result pyval :=
  let? response := requests_get w url in
  if negb (ok response) then
    Raise (ConnectionError ("No response from RNGBridge - " +:+ url))
  else
    let? json := json response in
    if negb (py_bool json) then
      Raise (ValueError "Converting response to JSON failed")
    else Ok json.

(** [_getRngBridgeConfig] *)
Definition _getRngBridgeConfig (w : env) : result pyval :=
  let? base := _getStatusUrl w in
  _requestData w (base +:+ "config").

(** [_getRngBridgeState] *)
Definition _getRngBridgeState (w : env) : result pyval :=
  let? base := _getStatusUrl w in
  _requestData w (base +:+ "state").

(** [self._lastUpdate] *)
Definition get_lastUpdate : M pyval := fun s => (s, Ok (_lastUpdate s)).

(** [_signOfLife]: the two values it logs are read and formatted, nothing
    is written. *)
Definition _signOfLife (w : env) : M bool :=
  last <- get_lastUpdate ;;
  eval (percent_s w last) ;;
  power <- dbus_getitem "/Yield/Power" ;;
  eval (percent_s w power) ;;
  ret true.

(** The table of [_update], indexed by the device's charge state:
    [#            0, 1, 2, 3, 4, 5, 6]. *)
Definition state_map : pyval :=
  PyList [PyInt 0; PyInt 0; PyInt 3; PyInt 7; PyInt 4; PyInt 5; PyInt 2].

(** [state[a][b]] *)
Definition sub2 (state : pyval) (a b : string) : result pyval :=
  let? inner := py_getitem state (PyStr a) in
  py_getitem inner (PyStr b).

(** The literal [1000.0]. *)
Definition f64_1000 : spec_float := f64_of_Z 1000.

(** [self._dbusservice["/UpdateIndex"] = (self._dbusservice["/UpdateIndex"] + 1) % 256];
    the statement closes both the [try] block and the first handler. *)
Definition increment_UpdateIndex : M unit :=
  index <- dbus_getitem "/UpdateIndex" ;;
  next <- eval (let? sum := py_add index (PyInt 1) in py_mod sum (PyInt 256)) ;;
  dbus_setitem "/UpdateIndex" next.

(** [self._lastUpdate = time.time()] *)
Definition record_lastUpdate (w : env) : M unit :=
  fun s => (set_lastUpdate (PyFloat (time_time w)) s, Ok tt).

(** The [try] block of [_update]. *)
Definition update_try (w : env) : M unit :=
  state <- eval (_getRngBridgeState w) ;;
  v <- eval (sub2 state "p" "vo") ;;
  dbus_setitem "/Pv/V" v ;;
  v <- eval (let? vo := sub2 state "p" "vo" in
             let? cu := sub2 state "p" "cu" in
             py_mul vo cu) ;;
  dbus_setitem "/Yield/Power" v ;;
  v <- eval (let? st := sub2 state "c" "st" in py_getitem state_map st) ;;
  dbus_setitem "/State" v ;;
  v <- eval (let? to := sub2 state "b" "to" in py_truediv to (PyFloat f64_1000)) ;;
  dbus_setitem "/Yield/System" v ;;
  v <- eval (let? ge := sub2 state "b" "ge" in py_truediv ge (PyFloat f64_1000)) ;;
  dbus_setitem "/Yield/User" v ;;
  v <- eval (sub2 state "b" "vo") ;;
  dbus_setitem "/Dc/0/Voltage" v ;;
  v <- eval (sub2 state "b" "cu") ;;
  dbus_setitem "/Dc/0/Current" v ;;
  v <- eval (sub2 state "o" "l") ;;
  dbus_setitem "/Load/State" v ;;
  v <- eval (sub2 state "l" "cu") ;;
  dbus_setitem "/Load/I" v ;;
  (* the three logging.debug calls read back and format what was written *)
  v <- dbus_getitem "/Yield/Power" ;;
  eval (percent_s w v) ;;
  v <- dbus_getitem "/Dc/0/Voltage" ;;
  eval (percent_s w v) ;;
  v <- dbus_getitem "/Dc/0/Current" ;;
  eval (percent_s w v) ;;
  increment_UpdateIndex ;;
  record_lastUpdate w.

(** The classes named by the first [except] clause: [ValueError],
    [requests.exceptions.ConnectionError], [requests.exceptions.Timeout],
    [ConnectionError]. *)
Definition recoverable (e : exn) : bool :=
  match e with
  | ValueError _ | RequestsConnectionError | RequestsTimeout | ConnectionError _ => true
  | _ => false
  end.

(** The body of the first [except] clause. *)
Definition update_zero : M unit :=
  dbus_setitem "/Pv/V" (PyInt 0) ;;
  dbus_setitem "/Yield/Power" (PyInt 0) ;;
  dbus_setitem "/Yield/System" (PyInt 0) ;;
  dbus_setitem "/Yield/User" (PyInt 0) ;;
  dbus_setitem "/State" (PyInt 0) ;;
  dbus_setitem "/Dc/0/Voltage" (PyInt 0) ;;
  dbus_setitem "/Dc/0/Current" (PyInt 0) ;;
  dbus_setitem "/Load/State" (PyBool false) ;;
  dbus_setitem "/Load/I" (PyInt 0) ;;
  increment_UpdateIndex.

(** The two [except] clauses, tried in order; the second, [except Exception],
    only logs. *)
Definition update_except (e : exn) : M unit :=
  if recoverable e then update_zero else ret tt.

(** [_update] *)
Definition _update (w : env) : M bool :=
  try_except (update_try w) update_except ;;
  ret true.

(** [gobject.timeout_add(interval, callback)]: the main loop keeps the pair. *)
Definition timeout_add (interval : Z) (cb : callback) : M unit :=
  fun s => (add_timeout (interval, cb) s, Ok tt).

(** The loop of [__init__] over [self._paths.items()]: every path is added
    with its initial value and text callback, writable. *)
Fixpoint add_paths (paths : list (string * (pyval * textformat))) : M unit :=
  match paths with
  | [] => ret tt
  | (path, (initial, fmt)) :: rest =>
      add_path path initial (Some fmt) true ;;
      add_paths rest
  end.

(** [self._dbusservice = VeDbusService(...)]: the service object starts
    with no path. The bus name built from the device instance is not part of
    the state kept here. *)
Definition new_service : M unit :=
  fun s => (set_dbusservice ∅ s, Ok tt).

(** [self._lastUpdate = 0] *)
Definition init_lastUpdate : M unit :=
  fun s => (set_lastUpdate (PyInt 0) s, Ok tt).

(** [__init__]. The fifteen paths added without [writeable] get the
    library's default. *)
Definition __init__ (w : env) (paths : list (string * (pyval * textformat)))
    (productname connection : string) : M unit :=
  deviceinstance <- eval (let? d := config_get w "DEFAULT" "DeviceInstance" in
                          py_int (PyStr d)) ;;
  customname <- eval (config_get w "DEFAULT" "CustomName") ;;
  let productid := 0 in
  new_service ;;
  add_path "/Mgmt/ProcessName" (PyStr (file_name w)) None (default_writeable w) ;;
  add_path "/Mgmt/ProcessVersion"
    (PyStr ("Version 1 running on Python " +:+ python_version w)) None (default_writeable w) ;;
  add_path "/Mgmt/Connection" (PyStr connection) None (default_writeable w) ;;
  add_path "/DeviceInstance" (PyInt deviceinstance) None (default_writeable w) ;;
  add_path "/ProductId" (PyInt productid) None (default_writeable w) ;;
  add_path "/ProductName" (PyStr productname) None (default_writeable w) ;;
  add_path "/CustomName" (PyStr customname) None (default_writeable w) ;;
  add_path "/Latency" PyNone None (default_writeable w) ;;
  add_path "/FirmwareVersion" (PyFloat (f64_ratio 2 10)) None (default_writeable w) ;;
  add_path "/HardwareVersion" (PyInt 0) None (default_writeable w) ;;
  add_path "/Connected" (PyInt 1) None (default_writeable w) ;;
  add_path "/Role" (PyStr "solarcharger") None (default_writeable w) ;;
  serial <- eval (config_get w "DEFAULT" "Serial") ;;
  add_path "/Serial" (PyStr serial) None (default_writeable w) ;;
  add_path "/UpdateIndex" (PyInt 0) None (default_writeable w) ;;
  add_path "/NrOfTrackers" (PyInt 1) None (default_writeable w) ;;
  add_paths paths ;;
  init_lastUpdate ;;
  timeout_add 2000 cb_update ;;
  interval <- eval (_getSignOfLifeInterval w) ;;
  timeout_add (interval * 60 * 1000) cb_signOfLife.

(** The [paths] dictionary that [main] passes to the service. *)
Definition main_paths : list (string * (pyval * textformat)) :=
  [ ("/Pv/V", (PyInt 0, fmt_v));
    ("/Yield/Power", (PyInt 0, fmt_w));
    ("/Yield/System", (PyInt 0, fmt_kwh));
    ("/Yield/User", (PyInt 0, fmt_kwh));
    ("/State", (PyInt 0, fmt_s));
    ("/Dc/0/Voltage", (PyInt 0, fmt_v));
    ("/Dc/0/Current", (PyInt 0, fmt_a));
    ("/Load/State", (PyInt 0, fmt_v));
    ("/Load/I", (PyInt 0, fmt_a)) ].

(** The process before the service object exists. *)
Definition boot : process :=
  {| _dbusservice := ∅; _lastUpdate := PyNone; timeouts := [] |}.

(** The [try] block of [main] up to the main loop: the service is built with
    [main_paths] and the default product and connection names; both
    [except] clauses only log. (What precedes the block, the logging set-up
    with [getLogLevel], builds nothing of the process; it needs the key
    [LogLevel] in [DEFAULT].) *)
Definition main (w : env) : process :=
  fst (try_except (__init__ w main_paths "RNGBridge" "RNGBridge HTTP JSON service")
                  (fun _ => ret tt) boot).

(** *** The text formatters of [main] *)

Section Formatters.
(** The builtins [round(v, ndigits)] and [str(v)]. *)
Variable builtin_round : pyval -> Z -> result pyval.
Variable builtin_str : pyval -> string.

Definition _kwh (p v : pyval) : result pyval :=
  let? r := builtin_round v 2 in py_add (PyStr (builtin_str r)) (PyStr " KWh").

Definition _a (p v : pyval) : result pyval :=
  let? r := builtin_round v 1 in py_add (PyStr (builtin_str r)) (PyStr " A").

Definition _w (p v : pyval) : result pyval :=
  let? r := builtin_round v 1 in py_add (PyStr (builtin_str r)) (PyStr " W").

Definition _v (p v : pyval) : result pyval :=
  let? r := builtin_round v 1 in py_add (PyStr (builtin_str r)) (PyStr " V").

Definition _s (p v : pyval) : result pyval :=
  Ok (PyStr (builtin_str v)).

Definition formatter (fmt : textformat) : pyval -> pyval -> result pyval :=
  match fmt with
  | fmt_kwh => _kwh
  | fmt_a => _a
  | fmt_w => _w
  | fmt_v => _v
  | fmt_s => _s
  end.

(** The text a bus client reads for a path: the item's text callback is
    applied to the path and the stored value ([str] of the value when the
    item has no callback). *)
Definition GetText (path : string) : M pyval :=
  fun s => match _dbusservice s !! path with
           | None => (s, Raise (KeyError path))
           | Some it =>
               match gettextcallback it with
               | Some fmt => (s, formatter fmt (PyStr path) (value it))
               | None => (s, Ok (PyStr (builtin_str (value it))))
               end
           end.
End Formatters.

(* ===================================================================== *)
(** ** Running the timers *)
(* ===================================================================== *)

(** One run of the [_update] timer, as the main loop sees it: the state it
    leaves behind. *)
Definition cycle (w : env) (s : process) : process := fst (_update w s).

(** What happens between the start of the main loop and an observation: a
    run of the [_update] timer in some state of the outside world, or a
    write by another bus client. *)
Inductive event : Type :=
| Tick (w : env)
| BusWrite (path : string) (v : pyval).

Definition step (s : process) (ev : event) : process :=
  match ev with
  | Tick w => cycle w s
  | BusWrite path v => bus_SetValue path v s
  end.

Definition run (evs : list event) (s : process) : process :=
  fold_left step evs s.

(** The outcome of one cycle, read off the [try] block. *)
Inductive outcome : Type :=
| Success
| RecoverableFault (e : exn)
| UnhandledFault (e : exn).

Definition classify (w : env) (s : process) : outcome :=
  match snd (update_try w s) with
  | Ok _ => Success
  | Raise e => if recoverable e then RecoverableFault e else UnhandledFault e
  end.

(* ===================================================================== *)
(** ** The nine published paths *)
(* ===================================================================== *)

Definition published : list string :=
  [ "/Pv/V"; "/Yield/Power"; "/State"; "/Yield/System"; "/Yield/User";
    "/Dc/0/Voltage"; "/Dc/0/Current"; "/Load/State"; "/Load/I" ]%string.

(** The zero/off value that the first handler writes to a published path. *)
Definition default_value (path : string) : pyval :=
  if String.eqb path "/Load/State" then PyBool false else PyInt 0.

(** Every path that [_update] touches is exported. *)
Definition registered (s : process) : Prop :=
  forall path, path ∈ "/UpdateIndex"%string :: published ->
               is_Some (_dbusservice s !! path).

(** [s'] differs from [s] at most in the values of the published paths. *)
Record frame (s s' : process) : Prop := Frame {
  frame_lastUpdate : _lastUpdate s' = _lastUpdate s;
  frame_timeouts : timeouts s' = timeouts s;
  frame_exported : forall path, is_Some (_dbusservice s' !! path) <->
                                is_Some (_dbusservice s !! path);
  frame_others : forall path, path ∉ published ->
                              _dbusservice s' !! path = _dbusservice s !! path
}.

(** The right-hand side that [_update] assigns to a published path, as an
    expression over the fetched state. *)
Definition device_value (state : pyval) (path : string) : result pyval :=
  if String.eqb path "/Pv/V" then sub2 state "p" "vo"
  else if String.eqb path "/Yield/Power" then
    let? vo := sub2 state "p" "vo" in
    let? cu := sub2 state "p" "cu" in
    py_mul vo cu
  else if String.eqb path "/State" then
    let? st := sub2 state "c" "st" in py_getitem state_map st
  else if String.eqb path "/Yield/System" then
    let? to := sub2 state "b" "to" in py_truediv to (PyFloat f64_1000)
  else if String.eqb path "/Yield/User" then
    let? ge := sub2 state "b" "ge" in py_truediv ge (PyFloat f64_1000)
  else if String.eqb path "/Dc/0/Voltage" then sub2 state "b" "vo"
  else if String.eqb path "/Dc/0/Current" then sub2 state "b" "cu"
  else if String.eqb path "/Load/State" then sub2 state "o" "l"
  else if String.eqb path "/Load/I" then sub2 state "l" "cu"
  else Raise (KeyError path).

(** [(index + 1) % 256] *)
Definition next_index (index : pyval) : result pyval :=
  let? sum := py_add index (PyInt 1) in py_mod sum (PyInt 256).

(** The nine assignments of the [try] block as a loop over the paths:
    [self._dbusservice[path] = <right-hand side>], in order, stopping at the
    first that raises. *)
Fixpoint assign_all (state : pyval) (paths : list string) : M unit :=
  match paths with
  | [] => ret tt
  | path :: rest =>
      v <- eval (device_value state path) ;;
      dbus_setitem path v ;;
      assign_all state rest
  end.

(** The three paths whose values the [try] block logs. *)
Definition logged : list string :=
  [ "/Yield/Power"; "/Dc/0/Voltage"; "/Dc/0/Current" ]%string.

(** The statements of the [try] block that follow the nine assignments. *)
Definition update_rest (w : env) : M unit :=
  v <- dbus_getitem "/Yield/Power" ;;
  eval (percent_s w v) ;;
  v <- dbus_getitem "/Dc/0/Voltage" ;;
  eval (percent_s w v) ;;
  v <- dbus_getitem "/Dc/0/Current" ;;
  eval (percent_s w v) ;;
  increment_UpdateIndex ;;
  record_lastUpdate w.

(** [assigned k state s s']: of the nine assignments, run over the fetched
    [state] from the table [s], the first [k] have been made and no other:
    [s'] holds the assigned value under each of the first [k] published
    paths (in the order of the [try] block) and what [s] held under the
    others. *)
Definition assigned (k : nat) (state : pyval) (s s' : process) : Prop :=
  (forall j path, published !! j = Some path -> (j < k)%nat ->
     exists v, device_value state path = Ok v /\ dbus_value s' path = Some v) /\
  (forall j path, published !! j = Some path -> (k <= j)%nat ->
     dbus_value s' path = dbus_value s path).

(** The assignment number [k] (counted from 0) raises [e]: its right-hand
    side does, or the right-hand side has a value and the path is not
    exported. *)
Definition assignment_raises (k : nat) (state : pyval) (s : process) (e : exn) : Prop :=
  exists path, published !! k = Some path /\
    (device_value state path = Raise e \/
     (exists v, device_value state path = Ok v) /\
     _dbusservice s !! path = None /\ e = KeyError path).

(** Formatting one of the three logged values raises [e]. *)
Definition logging_raises (w : env) (state : pyval) (e : exn) : Prop :=
  exists path v, path ∈ logged /\ device_value state path = Ok v /\
                 percent_s w v = Raise e.

(** The three logged values can be formatted. *)
Definition loggable (w : env) (state : pyval) : Prop :=
  forall path v, path ∈ logged -> device_value state path = Ok v ->
                 percent_s w v = Ok tt.

(** The increment of [/UpdateIndex] raises [e]: the path is not exported,
    or [(index + 1) % 256] raises. *)
Definition increment_raises (s : process) (e : exn) : Prop :=
  (_dbusservice s !! "/UpdateIndex"%string = None /\ e = KeyError "/UpdateIndex") \/
  exists index, dbus_value s "/UpdateIndex" = Some index /\ next_index index = Raise e.

(* ===================================================================== *)
(** ** Vocabulary of the statements *)
(* ===================================================================== *)

(** [harmless r]: whatever [r] raises is not caught by the first handler. *)
Definition harmless {A} (r : result A) : Prop :=
  forall e, r = Raise e -> recoverable e = false.

(** [keeps I m]: the statement [m] takes states satisfying [I] to states
    satisfying [I], whether it returns or raises. *)
Definition keeps {A} (I : process -> Prop) (m : M A) : Prop :=
  forall s, I s -> I (fst (m s)).

(** The exported paths and their [writeable] flags are those of [s]. *)
Definition same_flags (s s' : process) : Prop :=
  forall p, writeable <$> (_dbusservice s' !! p) = writeable <$> (_dbusservice s !! p).

(** What holds of the counter as long as no bus client writes it: the ten
    paths of [_update] are exported, and [/UpdateIndex] is an integer from 0
    to 255. *)
Definition counter_ok (s : process) : Prop :=
  registered s /\
  exists i, dbus_value s "/UpdateIndex" = Some (PyInt i) /\ 0 <= i <= 255.

(** The event is not a bus client's write to [/UpdateIndex]. *)
Definition spares_counter (ev : event) : bool :=
  match ev with
  | Tick _ => true
  | BusWrite path _ => negb (String.eqb path "/UpdateIndex")
  end.

(** In the world [w] the fetch raises an exception of the first [except]
    clause. *)
Definition fetch_faults (w : env) : Prop :=
  exists e, _getRngBridgeState w = Raise e /\ recoverable e = true.

(** No timeout of the process runs [_signOfLife]. *)
Definition heartbeat_disabled (s : process) : Prop :=
  forall interval, (interval, cb_signOfLife) ∉ timeouts s.

(** A JSON number that the float operations accept: a float, or an integer
    within the range of a double. *)
Definition is_number (v : pyval) : bool :=
  match v with
  | PyInt z => is_Ok (float_of_int z)
  | PyFloat _ => true
  | _ => false
  end.

(** The shape the device documents: the nine fields are there, the PV and
    yield readings are numbers, and the charge state is a code from 0 to 6. *)
Definition well_formed (state : pyval) : bool :=
  match sub2 state "p" "vo", sub2 state "p" "cu", sub2 state "c" "st",
        sub2 state "b" "to", sub2 state "b" "ge" with
  | Ok vo, Ok cu, Ok (PyInt d), Ok to, Ok ge =>
      is_number vo && is_number cu && (0 <=? d) && (d <=? 6)
      && is_number to && is_number ge
      && is_Ok (sub2 state "b" "vo") && is_Ok (sub2 state "b" "cu")
      && is_Ok (sub2 state "o" "l") && is_Ok (sub2 state "l" "cu")
  | _, _, _, _, _ => false
  end.

(** The double printed as [12.345]. *)
Definition f64_12_345 : spec_float := S754_finite false 6949617174986097 (-49).

(** [m * 2^(-k)] is a double nearest to the fraction [n / d]: the distance
    is at most half a unit in the last place. *)
Definition nearest_to_fraction (m k n d : Z) : Prop :=
  2 * Z.abs (n * 2 ^ k - d * m) <= d.

(* ===================================================================== *)
(** ** Sample worlds *)
(* ===================================================================== *)

(** The [DEFAULT] section and the [ONPREMISE] section of a [config.ini]. *)
Definition sample_defaults : gmap string string :=
  list_to_map
    [ ("AccessType", "OnPremise"); ("SignOfLifeLog", "5"); ("DeviceInstance", "40");
      ("CustomName", "RNGBridge"); ("Serial", "0001"); ("LogLevel", "INFO") ]%string.

Definition sample_sections : gmap string (gmap string string) :=
  {[ "ONPREMISE"%string := {[ "Host"%string := "192.168.2.13"%string ]} ]}.

(** A world whose device answers the GET on the state URL with [r]. *)
Definition world (r : result response) : env :=
  {| config_defaults := sample_defaults;
     config_sections := sample_sections;
     requests_get := fun url =>
       if String.eqb url "http://192.168.2.13/api/state" then r
       else Raise RequestsConnectionError;
     time_time := f64_of_Z 1700000000;
     file_name := "dbus-rngbridge.py";
     python_version := "3.8.13";
     int_max_str_digits := 0;
     default_writeable := true |}.

(** The device answers with a JSON body decoded to [state]. *)
Definition device_answers (state : pyval) : env :=
  world (Ok {| ok := true; json := Ok state |}).

(** A configuration like the sample one, with the given [SignOfLifeLog]. *)
Definition configured (sign_of_life : string) : env :=
  {| config_defaults := <["SignOfLifeLog"%string := sign_of_life]> sample_defaults;
     config_sections := sample_sections;
     requests_get := fun _ => Raise RequestsConnectionError;
     time_time := f64_of_Z 1700000000;
     file_name := "dbus-rngbridge.py";
     python_version := "3.8.13";
     int_max_str_digits := 0;
     default_writeable := true |}.

(** The state of Scenario A:
    [{"p":{"vo":40.0,"cu":5.0},"c":{"st":3},
      "b":{"to":123000,"ge":4500,"vo":26.0,"cu":4.8},"o":{"l":true},"l":{"cu":1.2}}]. *)
Definition scenario_state (st : pyval) : pyval :=
  PyDict
    [ ("p", PyDict [("vo", PyFloat (f64_of_Z 40)); ("cu", PyFloat (f64_of_Z 5))]);
      ("c", PyDict [("st", st)]);
      ("b", PyDict [("to", PyInt 123000); ("ge", PyInt 4500);
                    ("vo", PyFloat (f64_of_Z 26)); ("cu", PyFloat (f64_ratio 48 10))]);
      ("o", PyDict [("l", PyBool true)]);
      ("l", PyDict [("cu", PyFloat (f64_ratio 12 10))]) ]%string.

(** Scenario A: the device reports bulk charging, code 3. *)
Definition scenario_A : env := device_answers (scenario_state (PyInt 3)).

(** Scenario B: the GET times out. *)
Definition scenario_B : env := world (Raise RequestsTimeout).

(** Scenario C: the body is not JSON, [response.json()] raises. *)
Definition scenario_C : env :=
  world (Ok {| ok := true; json := Raise (ValueError "Expecting value") |}).

(** The fetched state of Scenario A with the object ["c"] left out. *)
Definition state_without_c : pyval :=
  PyDict
    [ ("p", PyDict [("vo", PyFloat (f64_of_Z 40)); ("cu", PyFloat (f64_of_Z 5))]);
      ("b", PyDict [("to", PyInt 123000); ("ge", PyInt 4500);
                    ("vo", PyFloat (f64_of_Z 26)); ("cu", PyFloat (f64_ratio 48 10))]);
      ("o", PyDict [("l", PyBool true)]);
      ("l", PyDict [("cu", PyFloat (f64_ratio 12 10))]) ]%string.

(** The fetched state of Scenario A with ["l"] holding no ["cu"]. *)
Definition state_without_load_current : pyval :=
  PyDict
    [ ("p", PyDict [("vo", PyFloat (f64_of_Z 40)); ("cu", PyFloat (f64_of_Z 5))]);
      ("c", PyDict [("st", PyInt 3)]);
      ("b", PyDict [("to", PyInt 123000); ("ge", PyInt 4500);
                    ("vo", PyFloat (f64_of_Z 26)); ("cu", PyFloat (f64_ratio 48 10))]);
      ("o", PyDict [("l", PyBool true)]);
      ("l", PyDict []) ]%string.

(** The process as [main] leaves it when the main loop starts. *)
Definition started : process := main scenario_A.

(* ===================================================================== *)
(** ** More worlds *)
(* ===================================================================== *)

(** The sample configuration with [AccessType] set to [access]. *)
Definition accessed (access : string) : env :=
  {| config_defaults := <["AccessType"%string := access]> sample_defaults;
     config_sections := sample_sections;
     requests_get := fun _ => Ok {| ok := true; json := Ok (scenario_state (PyInt 3)) |};
     time_time := f64_of_Z 1700000000;
     file_name := "dbus-rngbridge.py";
     python_version := "3.8.13";
     int_max_str_digits := 0;
     default_writeable := true |}.

(** The sample configuration without the key [key] in [DEFAULT]. *)
Definition lacking (key : string) : env :=
  {| config_defaults := delete key sample_defaults;
     config_sections := sample_sections;
     requests_get := fun _ => Ok {| ok := true; json := Ok (scenario_state (PyInt 3)) |};
     time_time := f64_of_Z 1700000000;
     file_name := "dbus-rngbridge.py";
     python_version := "3.8.13";
     int_max_str_digits := 0;
     default_writeable := true |}.

(** The device answers with an error status; the body is JSON all the same. *)
Definition error_status : env :=
  world (Ok {| ok := false; json := Ok (scenario_state (PyInt 3)) |}).

(* ===================================================================== *)
(** ** Completed cycles *)
(* ===================================================================== *)

(** The ten paths that [_update] assigns to. *)
Definition cycle_paths : list string := "/UpdateIndex"%string :: published.

(** How many of the events, run from [s], are cycles that completed: by
    success or through the first handler. *)
Fixpoint completed (evs : list event) (s : process) : Z :=
  match evs with
  | [] => 0
  | Tick w :: rest =>
      match classify w s with
      | Success | RecoverableFault _ => 1 + completed rest (cycle w s)
      | UnhandledFault _ => completed rest (cycle w s)
      end
  | BusWrite path v :: rest => completed rest (bus_SetValue path v s)
  end.

(** The clock reading of the last successful cycle among the events, run
    from [s]; [last] if none was successful. *)
Fixpoint last_success (evs : list event) (s : process) (last : pyval) : pyval :=
  match evs with
  | [] => last
  | Tick w :: rest =>
      last_success rest (cycle w s)
        match classify w s with
        | Success => PyFloat (time_time w)
        | RecoverableFault _ | UnhandledFault _ => last
        end
  | BusWrite path v :: rest => last_success rest (bus_SetValue path v s) last
  end.

(** A world whose interpreter has the limit set to 640 digits, the least
    that [sys.set_int_max_str_digits] accepts (the default is 4300). *)
Definition limited (r : result response) : env :=
  {| config_defaults := sample_defaults;
     config_sections := sample_sections;
     requests_get := fun _ => r;
     time_time := f64_of_Z 1700000000;
     file_name := "dbus-rngbridge.py";
     python_version := "3.11.4";
     int_max_str_digits := 640;
     default_writeable := true |}.

(** The state of Scenario A with a PV voltage and a PV current of 401
    digits each: their product has 801. *)
Definition state_with_long_power : pyval :=
  PyDict
    [ ("p", PyDict [("vo", PyInt (10 ^ 400)); ("cu", PyInt (10 ^ 400))]);
      ("c", PyDict [("st", PyInt 3)]);
      ("b", PyDict [("to", PyInt 123000); ("ge", PyInt 4500);
                    ("vo", PyFloat (f64_of_Z 26)); ("cu", PyFloat (f64_ratio 48 10))]);
      ("o", PyDict [("l", PyBool true)]);
      ("l", PyDict [("cu", PyFloat (f64_ratio 12 10))]) ]%string.

(** A configuration value that [configparser] hands back as it is written:
    it holds no [%]. *)
Definition plain (value : string) : bool :=
  forallb (fun c => negb (Ascii.eqb c "%")) (list_ascii_of_string value).

(* ===================================================================== *)
(** ** The process after start-up *)
(* ===================================================================== *)

(** The items that [__init__] exports when it is given [main_paths], in the
    order of the calls to [add_path]: fifteen with the library's default
    for [writeable], and the nine of [main_paths], writable. *)
Definition initial_items (w : env) (di : Z) (cn serial productname connection : string)
    : list (string * item) :=
  [ ("/Mgmt/ProcessName", Item (PyStr (file_name w)) None (default_writeable w));
    ("/Mgmt/ProcessVersion",
       Item (PyStr ("Version 1 running on Python " +:+ python_version w)) None (default_writeable w));
    ("/Mgmt/Connection", Item (PyStr connection) None (default_writeable w));
    ("/DeviceInstance", Item (PyInt di) None (default_writeable w));
    ("/ProductId", Item (PyInt 0) None (default_writeable w));
    ("/ProductName", Item (PyStr productname) None (default_writeable w));
    ("/CustomName", Item (PyStr cn) None (default_writeable w));
    ("/Latency", Item PyNone None (default_writeable w));
    ("/FirmwareVersion", Item (PyFloat (f64_ratio 2 10)) None (default_writeable w));
    ("/HardwareVersion", Item (PyInt 0) None (default_writeable w));
    ("/Connected", Item (PyInt 1) None (default_writeable w));
    ("/Role", Item (PyStr "solarcharger") None (default_writeable w));
    ("/Serial", Item (PyStr serial) None (default_writeable w));
    ("/UpdateIndex", Item (PyInt 0) None (default_writeable w));
    ("/NrOfTrackers", Item (PyInt 1) None (default_writeable w));
    ("/Pv/V", Item (PyInt 0) (Some fmt_v) true);
    ("/Yield/Power", Item (PyInt 0) (Some fmt_w) true);
    ("/Yield/System", Item (PyInt 0) (Some fmt_kwh) true);
    ("/Yield/User", Item (PyInt 0) (Some fmt_kwh) true);
    ("/State", Item (PyInt 0) (Some fmt_s) true);
    ("/Dc/0/Voltage", Item (PyInt 0) (Some fmt_v) true);
    ("/Dc/0/Current", Item (PyInt 0) (Some fmt_a) true);
    ("/Load/State", Item (PyInt 0) (Some fmt_v) true);
    ("/Load/I", Item (PyInt 0) (Some fmt_a) true) ]%string.

(** The process with these items, [_lastUpdate] at 0 and the given timeouts. *)
Definition initial_process (w : env) (di : Z) (cn serial productname connection : string)
    (timers : list (Z * callback)) : process :=
  {| _dbusservice := list_to_map (initial_items w di cn serial productname connection);
     _lastUpdate := PyInt 0;
     timeouts := timers |}.

(** The items that the loop of [__init__] exports for a [paths] dictionary:
    the initial value, the text callback, writable. *)
Definition exported_items (paths : list (string * (pyval * textformat)))
    : list (string * item) :=
  map (fun entry => (fst entry, Item (fst (snd entry)) (Some (snd (snd entry))) true)) paths.

(** A service built with an empty [paths] dictionary. *)
Definition bare_service : process :=
  fst (__init__ scenario_A [] "RNGBridge" "RNGBridge HTTP JSON service" boot).

(* ===================================================================== *)
(** ** Facts about the property table *)
(* ===================================================================== *)

Lemma lookup_store_ne (p q : string) (v : pyval) (s : process) :
  p ≠ q -> _dbusservice (store p v s) !! q = _dbusservice s !! q.
Proof. intros Hne. cbn. by rewrite lookup_alter_ne. Qed.

Lemma lookup_store_eq (p : string) (v : pyval) (s : process) :
  _dbusservice (store p v s) !! p = with_value v <$> _dbusservice s !! p.
Proof. cbn. by rewrite lookup_alter_eq. Qed.

Lemma dbus_value_store_eq (p : string) (v : pyval) (s : process) :
  is_Some (_dbusservice s !! p) -> dbus_value (store p v s) p = Some v.
Proof.
  intros [it Hit]. unfold dbus_value. rewrite lookup_store_eq, Hit. reflexivity.
Qed.

Lemma dbus_value_store_ne (p q : string) (v : pyval) (s : process) :
  p ≠ q -> dbus_value (store p v s) q = dbus_value s q.
Proof. intros Hne. unfold dbus_value. by rewrite lookup_store_ne. Qed.

Lemma exported_store (p q : string) (v : pyval) (s : process) :
  is_Some (_dbusservice (store p v s) !! q) <-> is_Some (_dbusservice s !! q).
Proof.
  destruct (decide (p = q)) as [->|Hne].
  - rewrite lookup_store_eq. apply fmap_is_Some.
  - by rewrite lookup_store_ne.
Qed.

Lemma registered_store (p : string) (v : pyval) (s : process) :
  registered s -> registered (store p v s).
Proof. intros Hr q Hq. apply exported_store, Hr, Hq. Qed.

Lemma frame_refl (s : process) : frame s s.
Proof. by split. Qed.

Lemma frame_trans (s1 s2 s3 : process) : frame s1 s2 -> frame s2 s3 -> frame s1 s3.
Proof.
  intros [A1 A2 A3 A4] [B1 B2 B3 B4]. split.
  - congruence.
  - congruence.
  - intros q. rewrite B3. apply A3.
  - intros q Hq. rewrite B4 by done. by apply A4.
Qed.

Lemma frame_store (p : string) (v : pyval) (s : process) :
  p ∈ published -> frame s (store p v s).
Proof.
  intros Hp. split; try reflexivity.
  - intros q. apply exported_store.
  - intros q Hq. apply lookup_store_ne. intros ->. by apply Hq.
Qed.

Lemma frame_registered (s s' : process) : frame s s' -> registered s -> registered s'.
Proof. intros Hf Hr q Hq. apply (frame_exported _ _ Hf), Hr, Hq. Qed.

Lemma UpdateIndex_not_published : "/UpdateIndex"%string ∉ published.
Proof. unfold published. rewrite !elem_of_cons, elem_of_nil. intros H. by repeat destruct H as [H|H]. Qed.

Lemma frame_UpdateIndex (s s' : process) :
  frame s s' -> dbus_value s' "/UpdateIndex" = dbus_value s "/UpdateIndex".
Proof.
  intros Hf. unfold dbus_value.
  by rewrite (frame_others _ _ Hf _ UpdateIndex_not_published).
Qed.

(* ===================================================================== *)
(** ** Which exceptions an expression can raise *)
(* ===================================================================== *)

Lemma harmless_Ok {A} (a : A) : harmless (Ok a).
Proof. intros e H. discriminate H. Qed.

Lemma harmless_rbind {A B} (r : result A) (k : A -> result B) :
  harmless r -> (forall a, harmless (k a)) -> harmless (rbind r k).
Proof.
  intros Hr Hk e. destruct r as [a|e']; cbn.
  - apply Hk.
  - intros [= ->]. by apply Hr.
Qed.

Lemma harmless_seq_index {A} (l : list A) (i : Z) : harmless (seq_index l i).
Proof.
  intros e. unfold seq_index.
  destruct (_ || _); [by intros [= <-]|].
  destruct (nth_error _ _); [discriminate|by intros [= <-]].
Qed.

Lemma harmless_py_getitem (v k : pyval) : harmless (py_getitem v k).
Proof.
  destruct v; cbn; try (intros e [= <-]; reflexivity);
    destruct k; cbn; try (intros e [= <-]; reflexivity);
    try apply harmless_seq_index;
    try (apply harmless_rbind; [apply harmless_seq_index|intros; apply harmless_Ok]).
  intros e. destruct (assoc s d); [discriminate|by intros [= <-]].
Qed.

Lemma harmless_sub2 (state : pyval) (a b : string) : harmless (sub2 state a b).
Proof.
  apply harmless_rbind; [|intros x]; apply harmless_py_getitem.
Qed.

Lemma harmless_float_of_int (z : Z) : harmless (float_of_int z).
Proof.
  intros e. unfold float_of_int.
  destruct (f64_of_Z z); try discriminate. by intros [= <-].
Qed.

Lemma harmless_to_float (n : number) : harmless (to_float n).
Proof. destruct n; [apply harmless_float_of_int|apply harmless_Ok]. Qed.

Lemma harmless_int_true_divide (a b : Z) : harmless (int_true_divide a b).
Proof.
  intros e. unfold int_true_divide.
  destruct (b =? 0); [by intros [= <-]|].
  destruct (f64_ratio a b); try discriminate. by intros [= <-].
Qed.

Lemma harmless_float_rem (x y : spec_float) : harmless (float_rem x y).
Proof.
  intros e. unfold float_rem.
  destruct (f64_is_zero y); [by intros [= <-]|].
  destruct (f64_is_zero _); [discriminate|].
  destruct (xorb _ _); discriminate.
Qed.

(** Two numbers combined through their float values. *)
Lemma harmless_float_op {A} (x y : number) (k : spec_float -> spec_float -> result A) :
  (forall fx fy, harmless (k fx fy)) ->
  harmless (let? fx := to_float x in let? fy := to_float y in k fx fy).
Proof.
  intros Hk. apply harmless_rbind; [apply harmless_to_float|intros fx].
  apply harmless_rbind; [apply harmless_to_float|intros fy]. apply Hk.
Qed.

Lemma harmless_repeat_sequence (seq : pyval) (n : Z) : harmless (repeat_sequence seq n).
Proof.
  intros e. unfold repeat_sequence, as_index.
  destruct seq; try (by intros [= <-]);
    (destruct (_ || _); cbn [rbind]; [by intros [= <-]|]);
    (destruct (too_long _ _); [by intros [= <-]|discriminate]).
Qed.

Lemma harmless_py_mul (a b : pyval) : harmless (py_mul a b).
Proof.
  unfold py_mul.
  destruct (as_number a) as [[x|fx]|] eqn:Ha, (as_number b) as [[y|fy]|] eqn:Hb;
    try apply harmless_Ok;
    try (apply harmless_float_op; intros; apply harmless_Ok);
    try apply harmless_repeat_sequence;
    intros e [= <-]; reflexivity.
Qed.

Lemma harmless_py_truediv (a b : pyval) : harmless (py_truediv a b).
Proof.
  unfold py_truediv.
  destruct (as_number a) as [[x|fx]|], (as_number b) as [[y|fy]|];
    try (intros e [= <-]; reflexivity);
    try (apply harmless_rbind; [apply harmless_int_true_divide|intros; apply harmless_Ok]);
    apply harmless_float_op; intros p q e; destruct (f64_is_zero q);
    try discriminate; by intros [= <-].
Qed.

Lemma harmless_py_add (a b : pyval) : harmless (py_add a b).
Proof.
  unfold py_add.
  destruct (as_number a) as [[x|fx]|], (as_number b) as [[y|fy]|];
    try apply harmless_Ok;
    try (apply harmless_float_op; intros; apply harmless_Ok);
    destruct a, b; try apply harmless_Ok; intros e [= <-]; reflexivity.
Qed.

Lemma harmless_py_mod (a b : pyval) : harmless (py_mod a b).
Proof.
  unfold py_mod.
  destruct (as_number a) as [[x|fx]|], (as_number b) as [[y|fy]|];
    try (intros e [= <-]; reflexivity);
    try (apply harmless_float_op; intros p q;
         apply harmless_rbind; [apply harmless_float_rem|intros; apply harmless_Ok]).
  intros e. destruct (y =? 0); [by intros [= <-]|discriminate].
Qed.

Lemma harmless_next_index (index : pyval) : harmless (next_index index).
Proof.
  apply harmless_rbind; [apply harmless_py_add|intros; apply harmless_py_mod].
Qed.

(** The right-hand sides of the nine assignments raise nothing that the
    first handler catches. *)
Lemma harmless_device_value (state : pyval) (path : string) :
  harmless (device_value state path).
Proof.
  unfold device_value.
  repeat (destruct (String.eqb path _);
          [repeat first [ apply harmless_sub2 | apply harmless_py_getitem
                        | apply harmless_py_mul | apply harmless_py_truediv
                        | apply harmless_rbind | intros ? ]|]).
  by intros e [= <-].
Qed.

(** Formatting raises [ValueError] and nothing else. *)
Lemma int_str_raises (limit z : Z) (e : exn) :
  int_str limit z = Raise e -> exists msg, e = ValueError msg.
Proof.
  unfold int_str. destruct (0 <? limit); [|discriminate].
  destruct (_ <=? _); [|discriminate]. intros [= <-]. eauto.
Qed.

Lemma py_str_raises (limit : Z) (v : pyval) (e : exn) :
  py_str limit v = Raise e -> exists msg, e = ValueError msg.
Proof.
  revert v. fix IH 1. intros [| b | z | f | s | l | d]; cbn [py_str]; try discriminate.
  - apply int_str_raises.
  - revert l. fix IHl 1. intros [|x l]; [discriminate|].
    destruct (py_str limit x) as [[]|e'] eqn:Hx; cbn [rbind]; [apply IHl|].
    intros [= He]. apply (IH x). by rewrite Hx, He.
  - revert d. fix IHd 1. intros [|[key x] d]; [discriminate|].
    destruct (py_str limit x) as [[]|e'] eqn:Hx; cbn [rbind]; [apply IHd|].
    intros [= He]. apply (IH x). by rewrite Hx, He.
Qed.

Lemma percent_s_raises (w : env) (v : pyval) (e : exn) :
  percent_s w v = Raise e -> recoverable e = true.
Proof. intros H. apply py_str_raises in H as [msg ->]. reflexivity. Qed.

(** Without a limit every value can be formatted. *)
Lemma py_str_no_limit (v : pyval) : py_str 0 v = Ok tt.
Proof.
  revert v. fix IH 1. intros [| b | z | f | s | l | d]; cbn [py_str]; try reflexivity.
  - revert l. fix IHl 1. intros [|x l]; [reflexivity|]. rewrite (IH x). apply IHl.
  - revert d. fix IHd 1. intros [|[key x] d]; [reflexivity|]. rewrite (IH x). apply IHd.
Qed.

Lemma no_limit_loggable (w : env) (state : pyval) :
  int_max_str_digits w = 0 -> loggable w state.
Proof. intros Hw path v _ _. unfold percent_s. rewrite Hw. apply py_str_no_limit. Qed.

(* ===================================================================== *)
(** ** Reasoning about statements *)
(* ===================================================================== *)

Lemma bind_eval {A B} (r : result A) (k : A -> M B) (s : process) :
  bind (eval r) k s = match r with Ok a => k a s | Raise e => (s, Raise e) end.
Proof. unfold bind, eval. by destruct r. Qed.

Lemma bind_setitem {B} (path : string) (v : pyval) (k : unit -> M B) (s : process) :
  bind (dbus_setitem path v) k s =
  match _dbusservice s !! path with
  | Some _ => k tt (store path v s)
  | None => (s, Raise (KeyError path))
  end.
Proof. unfold bind, dbus_setitem. by destruct (_dbusservice s !! path). Qed.

Lemma bind_getitem {B} (path : string) (k : pyval -> M B) (s : process) :
  bind (dbus_getitem path) k s =
  match _dbusservice s !! path with
  | Some it => k (value it) s
  | None => (s, Raise (KeyError path))
  end.
Proof. unfold bind, dbus_getitem. by destruct (_dbusservice s !! path). Qed.

Lemma bind_assoc {A B C} (m : M A) (k : A -> M B) (h : B -> M C) (s : process) :
  bind (bind m k) h s = bind m (fun a => bind (k a) h) s.
Proof. unfold bind. by destruct (m s) as [s1 [a|e]]. Qed.

Lemma eval_returned {A B} (r : result A) (k : A -> M B) (s s' : process) (b : B) :
  bind (eval r) k s = (s', Ok b) -> exists a, r = Ok a /\ k a s = (s', Ok b).
Proof. rewrite bind_eval. destruct r as [a|e]; [eauto|discriminate]. Qed.

Lemma setitem_returned {B} (path : string) (v : pyval) (k : unit -> M B)
    (s s' : process) (b : B) :
  bind (dbus_setitem path v) k s = (s', Ok b) ->
  is_Some (_dbusservice s !! path) /\ k tt (store path v s) = (s', Ok b).
Proof. rewrite bind_setitem. destruct (_ !! _); [eauto|discriminate]. Qed.

Lemma getitem_returned {B} (path : string) (k : pyval -> M B)
    (s s' : process) (b : B) :
  bind (dbus_getitem path) k s = (s', Ok b) ->
  exists it, _dbusservice s !! path = Some it /\ k (value it) s = (s', Ok b).
Proof. rewrite bind_getitem. destruct (_ !! _); [eauto|discriminate]. Qed.

Lemma dbus_setitem_exported (path : string) (v : pyval) (s : process) :
  is_Some (_dbusservice s !! path) -> dbus_setitem path v s = (store path v s, Ok tt).
Proof. intros [it Hit]. unfold dbus_setitem. by rewrite Hit. Qed.

Lemma in_published (p : string) :
  p ∈ published <->
  p = "/Pv/V"%string \/ p = "/Yield/Power"%string \/ p = "/State"%string \/
  p = "/Yield/System"%string \/ p = "/Yield/User"%string \/
  p = "/Dc/0/Voltage"%string \/ p = "/Dc/0/Current"%string \/
  p = "/Load/State"%string \/ p = "/Load/I"%string.
Proof. unfold published. rewrite !elem_of_cons, elem_of_nil. tauto. Qed.

(* ===================================================================== *)
(** ** The nine assignments *)
(* ===================================================================== *)

Lemma NoDup_published : NoDup published.
Proof. apply (bool_decide_unpack _). vm_compute. reflexivity. Qed.

Lemma logged_published (path : string) : path ∈ logged -> path ∈ published.
Proof.
  unfold logged. rewrite !elem_of_cons, elem_of_nil, in_published. tauto.
Qed.

Lemma published_not_UpdateIndex (path : string) :
  path ∈ published -> path ≠ "/UpdateIndex"%string.
Proof. intros Hp ->. by apply UpdateIndex_not_published. Qed.

Lemma assign_all_cons (state : pyval) (path : string) (rest : list string) (s : process) :
  assign_all state (path :: rest) s =
  match device_value state path with
  | Raise e => (s, Raise e)
  | Ok v => match _dbusservice s !! path with
            | None => (s, Raise (KeyError path))
            | Some _ => assign_all state rest (store path v s)
            end
  end.
Proof.
  cbn [assign_all]. rewrite bind_eval.
  destruct (device_value state path) as [v|e]; [|done].
  rewrite bind_setitem. by destruct (_dbusservice s !! path).
Qed.

(** One assignment of the [try] block is one turn of the loop. *)
Lemma bind_assignment {B} (state : pyval) (path : string) (rest : list string)
    (r : result pyval) (k1 k2 : M B) (s : process) :
  device_value state path = r ->
  (forall s1, k1 s1 = bind (assign_all state rest) (fun _ => k2) s1) ->
  bind (eval r) (fun v => bind (dbus_setitem path v) (fun _ => k1)) s
  = bind (assign_all state (path :: rest)) (fun _ => k2) s.
Proof.
  intros <- Hk. unfold bind at 3. rewrite assign_all_cons, bind_eval.
  destruct (device_value state path) as [v|e]; [|reflexivity].
  rewrite bind_setitem.
  destruct (_dbusservice s !! path); [|reflexivity].
  rewrite Hk. reflexivity.
Qed.

(** The [try] block is the fetch, the nine assignments, and the rest. *)
Lemma update_try_unfold (w : env) (s : process) :
  update_try w s =
  match _getRngBridgeState w with
  | Ok state => bind (assign_all state published) (fun _ => update_rest w) s
  | Raise e => (s, Raise e)
  end.
Proof.
  unfold update_try. rewrite bind_eval.
  destruct (_getRngBridgeState w) as [state|e]; [|reflexivity].
  unfold published.
  do 9 (apply bind_assignment; [reflexivity|intros ?]).
  reflexivity.
Qed.

(** What the loop leaves: the first [k] paths assigned, the others and
    everything else as they were, and the reason why it stopped. *)
Lemma assign_all_spec (state : pyval) (paths : list string) (s : process) :
  NoDup paths ->
  exists k : nat,
    (forall j path, paths !! j = Some path -> (j < k)%nat ->
       exists v, device_value state path = Ok v /\
                 dbus_value (fst (assign_all state paths s)) path = Some v) /\
    (forall j path, paths !! j = Some path -> (k <= j)%nat ->
       dbus_value (fst (assign_all state paths s)) path = dbus_value s path) /\
    (forall path, path ∉ paths ->
       _dbusservice (fst (assign_all state paths s)) !! path = _dbusservice s !! path) /\
    (forall path, is_Some (_dbusservice (fst (assign_all state paths s)) !! path) <->
                  is_Some (_dbusservice s !! path)) /\
    _lastUpdate (fst (assign_all state paths s)) = _lastUpdate s /\
    timeouts (fst (assign_all state paths s)) = timeouts s /\
    match snd (assign_all state paths s) with
    | Ok _ => k = length paths
    | Raise e =>
        exists path, paths !! k = Some path /\
          (device_value state path = Raise e \/
           (exists v, device_value state path = Ok v) /\
           _dbusservice s !! path = None /\ e = KeyError path)
    end.
Proof.
  revert s. induction paths as [|p rest IH]; intros s Hnodup.
  - exists 0%nat. cbn. repeat split; try done; intros; lia.
  - apply NoDup_cons in Hnodup as [Hp Hrest]. rewrite assign_all_cons.
    destruct (device_value state p) as [v|e] eqn:Hv.
    2: { exists 0%nat. cbn [fst snd]. split; [intros; lia|].
         repeat split; try done. exists p. split; [done|by left]. }
    destruct (_dbusservice s !! p) as [it|] eqn:Hit.
    2: { exists 0%nat. cbn [fst snd]. split; [intros; lia|].
         repeat split; try done. exists p. split; [done|]. right. eauto. }
    destruct (IH (store p v s) Hrest) as (k & H1 & H2 & H3 & H4 & H5 & H6 & H7).
    exists (S k). split; [|split; [|split; [|split; [|split; [|split]]]]].
    + intros [|j] q Hq Hj.
      * injection Hq as <-. exists v. split; [done|].
        unfold dbus_value. rewrite H3 by done.
        apply dbus_value_store_eq. by rewrite Hit.
      * apply (H1 j q Hq). lia.
    + intros [|j] q Hq Hj; [lia|]. cbn in Hq.
      rewrite (H2 j q Hq) by lia. apply dbus_value_store_ne.
      intros ->. apply Hp. by eapply list_elem_of_lookup_2.
    + intros q Hq. apply not_elem_of_cons in Hq as [Hne Hq].
      rewrite H3 by done. by apply lookup_store_ne.
    + intros q. rewrite H4. apply exported_store.
    + by rewrite H5.
    + by rewrite H6.
    + destruct (snd (assign_all state rest (store p v s))) as [[]|e]; [by rewrite H7|].
      destruct H7 as (q & Hq & Hcase). exists q. split; [done|].
      destruct Hcase as [Hr|(Hval & Hnone & ->)]; [by left|right].
      split; [done|]. split; [|done].
      rewrite lookup_store_ne in Hnone; [done|].
      intros ->. apply Hp. by eapply list_elem_of_lookup_2.
Qed.

Lemma assignments_frame (state : pyval) (s : process) :
  frame s (fst (assign_all state published s)).
Proof.
  destruct (assign_all_spec state published s NoDup_published)
    as (k & _ & _ & H3 & H4 & H5 & H6 & _).
  by split.
Qed.

Lemma assignments_spec (state : pyval) (s : process) :
  exists k : nat,
    (k <= 9)%nat /\
    assigned k state s (fst (assign_all state published s)) /\
    match snd (assign_all state published s) with
    | Ok _ => k = 9%nat
    | Raise e => (k < 9)%nat /\ assignment_raises k state s e
    end.
Proof.
  destruct (assign_all_spec state published s NoDup_published)
    as (k & H1 & H2 & _ & _ & _ & _ & H7).
  exists k.
  destruct (snd (assign_all state published s)) as [[]|e].
  - subst k. split; [done|]. by split.
  - destruct H7 as (path & Hpath & Hcase).
    pose proof (lookup_lt_Some _ _ _ Hpath) as Hlt. change (length published) with 9%nat in Hlt.
    split; [lia|]. split; [by split|]. split; [done|]. by exists path.
Qed.

(** With every assignment made, each published path holds its value. *)
Lemma assigned_all (state : pyval) (s s' : process) (path : string) :
  assigned 9 state s s' -> path ∈ published ->
  exists v, device_value state path = Ok v /\ dbus_value s' path = Some v.
Proof.
  intros [Hnew _] Hp. apply list_elem_of_lookup in Hp as [j Hj].
  apply (Hnew j path Hj).
  pose proof (lookup_lt_Some _ _ _ Hj) as Hlt. exact Hlt.
Qed.

(** With some assignments made, each published path holds its old value or
    its new one. *)
Lemma assigned_old_or_new (k : nat) (state : pyval) (s s' : process) (path : string) :
  assigned k state s s' -> path ∈ published ->
  dbus_value s' path = dbus_value s path \/
  exists v, device_value state path = Ok v /\ dbus_value s' path = Some v.
Proof.
  intros [Hnew Hold] Hp. apply list_elem_of_lookup in Hp as [j Hj].
  destruct (decide (j < k)%nat) as [Hlt|Hge].
  - right. by apply (Hnew j).
  - left. apply (Hold j); [done|lia].
Qed.

(* ===================================================================== *)
(** ** The rest of the [try] block *)
(* ===================================================================== *)

Lemma increment_returned (s s' : process) :
  increment_UpdateIndex s = (s', Ok tt) ->
  exists index next,
    dbus_value s "/UpdateIndex" = Some index /\
    next_index index = Ok next /\
    s' = store "/UpdateIndex" next s.
Proof.
  unfold increment_UpdateIndex. intros H.
  apply getitem_returned in H as (it & Hit & H). cbv beta in H.
  apply eval_returned in H as (next & Hnext & H). cbv beta in H.
  unfold dbus_setitem in H. rewrite Hit in H. injection H as <-.
  exists (value it), next. unfold dbus_value. by rewrite Hit.
Qed.

Lemma increment_raised (s s' : process) (e : exn) :
  increment_UpdateIndex s = (s', Raise e) -> s' = s /\ increment_raises s e.
Proof.
  unfold increment_UpdateIndex, increment_raises. rewrite bind_getitem.
  destruct (_dbusservice s !! "/UpdateIndex"%string) as [it|] eqn:Hit.
  2: { intros [= <- <-]. split; [done|]. by left. }
  rewrite bind_eval.
  change (let? sum := py_add (value it) (PyInt 1) in py_mod sum (PyInt 256))
    with (next_index (value it)).
  destruct (next_index (value it)) as [next|e'] eqn:Hn.
  - unfold dbus_setitem. rewrite Hit. discriminate.
  - intros [= <- <-]. split; [done|]. right. exists (value it).
    split; [|done]. unfold dbus_value. by rewrite Hit.
Qed.

Lemma increment_UpdateIndex_runs (s : process) (index next : pyval) :
  dbus_value s "/UpdateIndex" = Some index ->
  next_index index = Ok next ->
  increment_UpdateIndex s = (store "/UpdateIndex" next s, Ok tt).
Proof.
  unfold dbus_value, increment_UpdateIndex. intros Hi Hnext.
  destruct (_dbusservice s !! "/UpdateIndex"%string) as [it|] eqn:Hit; [|discriminate].
  injection Hi as Hv.
  rewrite bind_getitem, Hit, Hv, bind_eval.
  change (let? sum := py_add index (PyInt 1) in py_mod sum (PyInt 256))
    with (next_index index).
  rewrite Hnext. unfold dbus_setitem. by rewrite Hit.
Qed.

Lemma increment_raises_frame (s s' : process) (e : exn) :
  frame s s' -> increment_raises s' e -> increment_raises s e.
Proof.
  intros Hf. unfold increment_raises.
  rewrite (frame_UpdateIndex _ _ Hf), (frame_others _ _ Hf _ UpdateIndex_not_published).
  done.
Qed.

Lemma harmless_increment (s : process) (e : exn) :
  increment_raises s e -> recoverable e = false.
Proof.
  intros [[_ ->]|(index & _ & Hn)]; [reflexivity|].
  by apply (harmless_next_index index).
Qed.

Lemma harmless_assignment (k : nat) (state : pyval) (s : process) (e : exn) :
  assignment_raises k state s e -> recoverable e = false.
Proof.
  intros (path & _ & [Hr|(_ & _ & ->)]); [|reflexivity].
  by apply (harmless_device_value state path).
Qed.

(** One of the three reads made for [logging.debug], with its formatting,
    off a run that is known to have returned. *)
Ltac logged_read H it Hit F :=
  apply getitem_returned in H as (it & Hit & H); cbv beta in H;
  apply eval_returned in H as ([] & F & H); cbv beta in H.

Lemma update_rest_returned (w : env) (s1 s' : process) :
  update_rest w s1 = (s', Ok tt) ->
  (forall path v, path ∈ logged -> dbus_value s1 path = Some v ->
                  percent_s w v = Ok tt) /\
  exists index next,
    dbus_value s1 "/UpdateIndex" = Some index /\
    next_index index = Ok next /\
    s' = set_lastUpdate (PyFloat (time_time w)) (store "/UpdateIndex" next s1).
Proof.
  unfold update_rest. intros H.
  logged_read H it1 H1 F1. logged_read H it2 H2 F2. logged_read H it3 H3 F3.
  unfold bind in H.
  destruct (increment_UpdateIndex s1) as [s2 [[]|e]] eqn:Hinc; [|discriminate].
  apply increment_returned in Hinc as (index & next & Hi & Hn & ->).
  unfold record_lastUpdate in H. injection H as <-.
  split; [|by exists index, next].
  intros path v Hp Hv. unfold logged in Hp. rewrite !elem_of_cons, elem_of_nil in Hp.
  unfold dbus_value in Hv.
  destruct Hp as [->|[->|[->|[]]]];
    [rewrite H1 in Hv|rewrite H2 in Hv|rewrite H3 in Hv]; by injection Hv as <-.
Qed.

(** One such read off a run of which nothing is known. *)
Ltac logged_read_raised :=
  rewrite bind_getitem;
  match goal with
  | |- context [match _dbusservice ?s !! ?p with _ => _ end] =>
      let it := fresh "it" in
      let Hit := fresh "Hit" in
      let F := fresh "F" in
      destruct (_dbusservice s !! p) as [it|] eqn:Hit;
      [ rewrite bind_eval;
        destruct (percent_s _ (value it)) as [[]|?] eqn:F;
        [ | intros [= <- <-]; split; [done|]; right; left; exists p, (value it);
            split; [unfold logged; rewrite !elem_of_cons; tauto|];
            split; [unfold dbus_value; by rewrite Hit|done] ]
      | intros [= <- <-]; split; [done|]; left; exists p;
        split; [unfold logged; rewrite !elem_of_cons; tauto|done] ]
  end.

Lemma update_rest_raised (w : env) (s1 s' : process) (e : exn) :
  update_rest w s1 = (s', Raise e) ->
  s' = s1 /\
  ((exists path, path ∈ logged /\ _dbusservice s1 !! path = None /\ e = KeyError path) \/
   (exists path v, path ∈ logged /\ dbus_value s1 path = Some v /\
                   percent_s w v = Raise e) \/
   increment_raises s1 e).
Proof.
  unfold update_rest.
  do 3 logged_read_raised.
  unfold bind. destruct (increment_UpdateIndex s1) as [s2 [[]|e2]] eqn:Hinc.
  - unfold record_lastUpdate. discriminate.
  - intros [= <- <-]. apply increment_raised in Hinc as [-> Hr].
    split; [done|]. by right; right.
Qed.

(* ===================================================================== *)
(** ** The [try] block *)
(* ===================================================================== *)

(** A fetch that raises ends the [try] block at once. *)
Lemma update_try_fetch_raises (w : env) (s : process) (e : exn) :
  _getRngBridgeState w = Raise e -> update_try w s = (s, Raise e).
Proof. intros Hf. by rewrite update_try_unfold, Hf. Qed.

(** The state that a successful [try] block leaves. *)
Lemma update_try_success (w : env) (s s' : process) :
  update_try w s = (s', Ok tt) ->
  exists state index next,
    _getRngBridgeState w = Ok state /\
    (forall path, path ∈ published ->
       exists v, device_value state path = Ok v /\ dbus_value s' path = Some v) /\
    dbus_value s "/UpdateIndex" = Some index /\
    next_index index = Ok next /\
    dbus_value s' "/UpdateIndex" = Some next /\
    _lastUpdate s' = PyFloat (time_time w) /\
    timeouts s' = timeouts s /\
    (forall path, is_Some (_dbusservice s' !! path) <-> is_Some (_dbusservice s !! path)) /\
    loggable w state.
Proof.
  rewrite update_try_unfold.
  destruct (_getRngBridgeState w) as [state|e0]; [|discriminate].
  pose proof (assignments_frame state s) as Hfr.
  destruct (assignments_spec state s) as (k & _ & Hass & Hk).
  unfold bind. destruct (assign_all state published s) as [s1 [[]|e1]]; [|discriminate].
  cbn [fst snd] in Hfr, Hass, Hk. subst k. intros Hrest.
  apply update_rest_returned in Hrest as (Hfmt & index & next & Hi & Hn & ->).
  exists state, index, next. split; [done|]. split.
  { intros path Hp. destruct (assigned_all state s s1 path Hass Hp) as (v & Hv & Hs1).
    exists v. split; [done|]. rewrite <- Hs1.
    apply (dbus_value_store_ne "/UpdateIndex" path). intros <-.
    by apply UpdateIndex_not_published. }
  split; [by rewrite <- (frame_UpdateIndex _ _ Hfr)|].
  split; [done|]. split.
  { apply (dbus_value_store_eq "/UpdateIndex" next s1).
    unfold dbus_value in Hi. by destruct (_dbusservice s1 !! "/UpdateIndex"%string). }
  split; [reflexivity|]. split; [apply Hfr|]. split.
  { intros path. cbn [_dbusservice set_lastUpdate].
    rewrite exported_store. apply Hfr. }
  intros path v Hp Hv.
  destruct (assigned_all state s s1 path Hass (logged_published path Hp))
    as (v' & Hv' & Hs1).
  rewrite Hv in Hv'. injection Hv' as <-. by apply (Hfmt path).
Qed.

(** The state that a [try] block leaves when a statement after the fetch
    raises: some of the nine assignments made, in order, and nothing else
    touched; and the statement that raised. *)
Lemma update_try_raised (w : env) (s s' : process) (e : exn) (state : pyval) :
  _getRngBridgeState w = Ok state ->
  update_try w s = (s', Raise e) ->
  frame s s' /\
  exists k : nat,
    (k <= 9)%nat /\
    assigned k state s s' /\
    ((k < 9)%nat -> assignment_raises k state s e) /\
    (k = 9%nat -> logging_raises w state e \/ increment_raises s e).
Proof.
  intros Hst. rewrite update_try_unfold, Hst.
  pose proof (assignments_frame state s) as Hfr.
  destruct (assignments_spec state s) as (k & Hle & Hass & Hk).
  unfold bind. destruct (assign_all state published s) as [s1 [[]|e1]];
    cbn [fst snd] in Hfr, Hass, Hk.
  - subst k. intros Hrest.
    apply update_rest_raised in Hrest as [-> Hcases].
    split; [done|]. exists 9%nat. split; [done|]. split; [done|].
    split; [lia|]. intros _.
    destruct Hcases as [(path & Hp & Hnone & _)|[(path & v & Hp & Hv & Hf)|Hinc]].
    + destruct (assigned_all state s s1 path Hass (logged_published path Hp))
        as (v & _ & Hs1).
      unfold dbus_value in Hs1. by rewrite Hnone in Hs1.
    + left. exists path, v. split; [done|]. split; [|done].
      destruct (assigned_all state s s1 path Hass (logged_published path Hp))
        as (v' & Hv' & Hs1).
      congruence.
    + right. by apply (increment_raises_frame s s1).
  - destruct Hk as [Hlt Hraise]. intros [= <- <-].
    split; [done|]. exists k. split; [done|]. split; [done|].
    split; [done|]. lia.
Qed.

(** A [try] block that raises has only moved published values. *)
Lemma update_try_raised_frame (w : env) (s s' : process) (e : exn) :
  update_try w s = (s', Raise e) -> frame s s'.
Proof.
  intros Hrun. destruct (_getRngBridgeState w) as [state|e0] eqn:Hst.
  - by destruct (update_try_raised w s s' e state Hst Hrun) as [Hfr _].
  - rewrite (update_try_fetch_raises w s e0 Hst) in Hrun. injection Hrun as <- _.
    apply frame_refl.
Qed.

(** The [try] block returns when the state is fetched, its nine expressions
    evaluate, the three logged values can be formatted, the ten paths are
    exported and the counter can be advanced. *)
Lemma update_try_runs (w : env) (s : process) (state index next : pyval) :
  _getRngBridgeState w = Ok state ->
  (forall p, p ∈ published -> exists v, device_value state p = Ok v) ->
  loggable w state ->
  registered s ->
  dbus_value s "/UpdateIndex" = Some index ->
  next_index index = Ok next ->
  snd (update_try w s) = Ok tt.
Proof.
  intros Hst Hvals Hlog Hr Hi Hnext.
  destruct (update_try w s) as [s' [[]|e]] eqn:Hrun; [done|]. exfalso.
  destruct (update_try_raised w s s' e state Hst Hrun)
    as (_ & k & Hle & _ & Hlt & Heq).
  destruct (decide (k = 9%nat)) as [->|Hne].
  - destruct (Heq eq_refl) as [(path & v & Hp & Hv & Hf)|[[Hnone _]|(idx & Hidx & Hn)]].
    + by rewrite (Hlog path v Hp Hv) in Hf.
    + destruct (Hr "/UpdateIndex"%string) as [it Hit]; [apply list_elem_of_here|].
      by rewrite Hit in Hnone.
    + rewrite Hi in Hidx. injection Hidx as <-. by rewrite Hnext in Hn.
  - destruct Hlt as (path & Hpath & [Hraise|(_ & Hnone & _)]); [lia| |].
    + destruct (Hvals path) as [v Hv]; [by eapply list_elem_of_lookup_2|].
      by rewrite Hv in Hraise.
    + destruct (Hr path) as [it Hit];
        [apply list_elem_of_further; by eapply list_elem_of_lookup_2|].
      by rewrite Hit in Hnone.
Qed.

(** Read a path off a chain of writes. *)
Ltac read_store :=
  repeat first
    [ rewrite dbus_value_store_eq by (rewrite ?exported_store; eauto)
    | rewrite dbus_value_store_ne by done ].

(* ===================================================================== *)
(** ** The handlers and the whole callback *)
(* ===================================================================== *)

Lemma next_index_int (i : Z) : next_index (PyInt i) = Ok (PyInt ((i + 1) mod 256)).
Proof. reflexivity. Qed.

Lemma increment_UpdateIndex_int (s : process) (i : Z) :
  dbus_value s "/UpdateIndex" = Some (PyInt i) ->
  increment_UpdateIndex s = (store "/UpdateIndex" (PyInt ((i + 1) mod 256)) s, Ok tt).
Proof.
  unfold dbus_value, increment_UpdateIndex. intros Hi.
  destruct (_dbusservice s !! "/UpdateIndex"%string) as [it|] eqn:Hit; [|discriminate].
  injection Hi as Hv.
  rewrite bind_getitem, Hit, Hv, bind_eval.
  change (let? sum := py_add (PyInt i) (PyInt 1) in py_mod sum (PyInt 256))
    with (next_index (PyInt i)).
  rewrite next_index_int. unfold dbus_setitem. by rewrite Hit.
Qed.

Lemma published_registered (s : process) (p : string) :
  registered s -> p ∈ published -> is_Some (_dbusservice s !! p).
Proof. intros Hr Hp. apply Hr. by apply list_elem_of_further. Qed.

(** The first handler, run where every path is exported and the counter is
    an integer, returns with the defaults in place. *)
Lemma update_zero_returns (s : process) (i : Z) :
  registered s -> dbus_value s "/UpdateIndex" = Some (PyInt i) ->
  exists s', update_zero s = (s', Ok tt) /\
    (forall p, p ∈ published -> dbus_value s' p = Some (default_value p)) /\
    dbus_value s' "/UpdateIndex" = Some (PyInt ((i + 1) mod 256)) /\
    _lastUpdate s' = _lastUpdate s /\
    timeouts s' = timeouts s /\
    registered s'.
Proof.
  intros Hr Hi. unfold update_zero.
  assert (Hex : forall p, p ∈ published -> is_Some (_dbusservice s !! p))
    by (intros p Hp; by apply published_registered).
  pose proof (fun p H => Hex p (proj2 (in_published p) H)) as Hex'.
  do 9 (rewrite bind_setitem;
        match goal with
        | |- context [match _dbusservice ?t !! ?p with _ => _ end] =>
            let Hp := fresh "Hp" in
            assert (Hp : is_Some (_dbusservice t !! p))
              by (rewrite ?exported_store; apply Hex'; tauto);
            destruct Hp as [? ->]
        end).
  rewrite (increment_UpdateIndex_int _ i)
    by (rewrite !dbus_value_store_ne by done; exact Hi).
  eexists. split; [reflexivity|].
  split.
  { intros p Hp. pose proof (Hex p Hp) as Hs. apply in_published in Hp.
    repeat destruct Hp as [->|Hp]; try subst p; read_store; reflexivity. }
  split.
  { apply dbus_value_store_eq. rewrite !exported_store. apply Hr, list_elem_of_here. }
  split; [reflexivity|]. split; [reflexivity|].
  by repeat apply registered_store.
Qed.

(** [_update] in terms of its [try] block and its first handler. *)
Lemma _update_unfold (w : env) (s : process) :
  _update w s =
  match update_try w s with
  | (s', Ok _) => (s', Ok true)
  | (s', Raise e) =>
      if recoverable e then
        match update_zero s' with
        | (s'', Ok _) => (s'', Ok true)
        | (s'', Raise e') => (s'', Raise e')
        end
      else (s', Ok true)
  end.
Proof.
  unfold _update, bind, try_except, update_except, ret.
  destruct (update_try w s) as [s' [[]|e]]; [done|].
  destruct (recoverable e); [|done].
  by destruct (update_zero s') as [s'' [[]|e']].
Qed.

Lemma classify_Success (w : env) (s : process) :
  classify w s = Success -> update_try w s = (fst (update_try w s), Ok tt).
Proof.
  unfold classify. destruct (update_try w s) as [s' [[]|e]]; cbn; [done|].
  by destruct (recoverable e).
Qed.

Lemma classify_Recoverable (w : env) (s : process) (e : exn) :
  classify w s = RecoverableFault e ->
  update_try w s = (fst (update_try w s), Raise e) /\ recoverable e = true.
Proof.
  unfold classify. destruct (update_try w s) as [s' [[]|e']]; cbn; [done|].
  destruct (recoverable e') eqn:He'; [|done]. by intros [= ->].
Qed.

Lemma classify_Unhandled (w : env) (s : process) (e : exn) :
  classify w s = UnhandledFault e ->
  update_try w s = (fst (update_try w s), Raise e) /\ recoverable e = false.
Proof.
  unfold classify. destruct (update_try w s) as [s' [[]|e']]; cbn; [done|].
  destruct (recoverable e') eqn:He'; [done|]. by intros [= ->].
Qed.

(** Where an exception of the first [except] clause comes from: the fetch,
    or, with the nine assignments made, the formatting of a logged value. *)
Lemma recoverable_origin (w : env) (s : process) (e : exn) :
  classify w s = RecoverableFault e ->
  _getRngBridgeState w = Raise e \/
  exists state, _getRngBridgeState w = Ok state /\
    (forall p, p ∈ published -> exists v, device_value state p = Ok v) /\
    logging_raises w state e.
Proof.
  intros Hc. apply classify_Recoverable in Hc as [Hrun He].
  destruct (_getRngBridgeState w) as [state|e0] eqn:Hst.
  - right. exists state. split; [done|].
    destruct (update_try_raised w s _ e state Hst Hrun)
      as (_ & k & Hle & Hass & Hlt & Heq).
    destruct (decide (k = 9%nat)) as [->|Hne].
    + split.
      { intros p Hp. destruct (assigned_all state s _ p Hass Hp) as (v & Hv & _).
        by exists v. }
      destruct (Heq eq_refl) as [Hlog|Hinc]; [done|].
      apply harmless_increment in Hinc. congruence.
    + assert (Hk : (k < 9)%nat) by lia.
      apply Hlt, harmless_assignment in Hk. congruence.
  - left. rewrite (update_try_fetch_raises w s e0 Hst) in Hrun. by injection Hrun as <-.
Qed.

(* ===================================================================== *)
(** ** The successful cycle *)
(* ===================================================================== *)

(** C1. A successful cycle writes each of the nine published properties to
    the value that the fetched state assigns to it, whatever the property
    held before (a value written by a bus client between two cycles
    included), stores [(i + 1) mod 256] in [/UpdateIndex], records the clock
    in [_lastUpdate], and returns [True]. *)
Theorem update_success_publishes (w : env) (s : process) (i : Z) :
  dbus_value s "/UpdateIndex" = Some (PyInt i) ->
  classify w s = Success ->
  exists state,
    _getRngBridgeState w = Ok state /\
    (forall path, path ∈ published ->
       exists v, device_value state path = Ok v /\
                 dbus_value (cycle w s) path = Some v) /\
    dbus_value (cycle w s) "/UpdateIndex" = Some (PyInt ((i + 1) mod 256)) /\
    _lastUpdate (cycle w s) = PyFloat (time_time w) /\
    snd (_update w s) = Ok true.
Proof.
  intros Hi Hc. apply classify_Success in Hc.
  unfold cycle. rewrite _update_unfold, Hc. cbn [fst snd].
  apply update_try_success in Hc
    as (state & index & next & Hst & Hvals & Hidx & Hnext & Hnew & Hlast & _).
  exists state. repeat split; try done.
  rewrite Hi in Hidx. injection Hidx as <-.
  rewrite next_index_int in Hnext. injection Hnext as <-. exact Hnew.
Qed.

(** Scenario D: a bus client has set [/Pv/V] to 99; the next successful
    cycle publishes the device's 40.0 there. *)
Lemma update_success_publishes_witness :
  dbus_value (bus_SetValue "/Pv/V" (PyInt 99) started) "/Pv/V" = Some (PyInt 99) /\
  dbus_value (cycle scenario_A (bus_SetValue "/Pv/V" (PyInt 99) started)) "/Pv/V"
    = Some (PyFloat (f64_of_Z 40)) /\
  exists state,
    _getRngBridgeState scenario_A = Ok state /\
    (forall path, path ∈ published ->
       exists v, device_value state path = Ok v /\
                 dbus_value (cycle scenario_A (bus_SetValue "/Pv/V" (PyInt 99) started)) path
                   = Some v) /\
    dbus_value (cycle scenario_A (bus_SetValue "/Pv/V" (PyInt 99) started)) "/UpdateIndex"
      = Some (PyInt ((0 + 1) mod 256)) /\
    _lastUpdate (cycle scenario_A (bus_SetValue "/Pv/V" (PyInt 99) started))
      = PyFloat (time_time scenario_A) /\
    snd (_update scenario_A (bus_SetValue "/Pv/V" (PyInt 99) started)) = Ok true.
Proof.
  split; [vm_compute; reflexivity|]. split; [vm_compute; reflexivity|].
  apply (update_success_publishes scenario_A
           (bus_SetValue "/Pv/V" (PyInt 99) started) 0);
    vm_compute; reflexivity.
Defined.

(** C2. For a charge-state code [d] in 0..6, a successful cycle publishes
    under [/State] the entry number [d] of [[0,0,3,7,4,5,2]]. *)
Theorem state_table_published (w : env) (s : process) (state : pyval) (d : Z) :
  _getRngBridgeState w = Ok state ->
  sub2 state "c" "st" = Ok (PyInt d) ->
  0 <= d <= 6 ->
  classify w s = Success ->
  dbus_value (cycle w s) "/State"
    = Some (PyInt (nth (Z.to_nat d) [0; 0; 3; 7; 4; 5; 2] 0)) /\
  (d = 0 \/ d = 1 -> dbus_value (cycle w s) "/State" = Some (PyInt 0)) /\
  (d = 2 -> dbus_value (cycle w s) "/State" = Some (PyInt 3)) /\
  (d = 3 -> dbus_value (cycle w s) "/State" = Some (PyInt 7)) /\
  (d = 4 -> dbus_value (cycle w s) "/State" = Some (PyInt 4)) /\
  (d = 5 -> dbus_value (cycle w s) "/State" = Some (PyInt 5)) /\
  (d = 6 -> dbus_value (cycle w s) "/State" = Some (PyInt 2)).
Proof.
  intros Hst Hd Hrange Hc. apply classify_Success in Hc.
  unfold cycle. rewrite _update_unfold, Hc. cbn [fst].
  apply update_try_success in Hc as (state' & _ & _ & Hst' & Hvals & _).
  rewrite Hst in Hst'. injection Hst' as <-.
  destruct (Hvals "/State"%string) as (v & Hv & Hpub).
  { apply in_published. tauto. }
  change (device_value state "/State")
    with (let? st := sub2 state "c" "st" in py_getitem state_map st) in Hv.
  rewrite Hd in Hv. cbn [rbind] in Hv. rewrite Hpub.
  assert (Hcases : d = 0 \/ d = 1 \/ d = 2 \/ d = 3 \/ d = 4 \/ d = 5 \/ d = 6) by lia.
  repeat destruct Hcases as [->|Hcases]; try subst d;
    injection Hv as <-; repeat split; intros; (reflexivity || lia).
Qed.

Lemma state_table_published_witness :
  dbus_value (cycle scenario_A started) "/State" = Some (PyInt 7).
Proof.
  refine (proj1 (state_table_published scenario_A started
                   (scenario_state (PyInt 3)) 3 _ _ _ _));
    (vm_compute; reflexivity) || lia.
Defined.

(* ===================================================================== *)
(** ** Faults *)
(* ===================================================================== *)

(** One cycle whose fetch raises an exception of the first [except] clause. *)
Lemma cycle_recoverable (w : env) (s : process) (e : exn) (i : Z) :
  _getRngBridgeState w = Raise e -> recoverable e = true ->
  registered s -> dbus_value s "/UpdateIndex" = Some (PyInt i) ->
  (forall p, p ∈ published -> dbus_value (cycle w s) p = Some (default_value p)) /\
  dbus_value (cycle w s) "/UpdateIndex" = Some (PyInt ((i + 1) mod 256)) /\
  _lastUpdate (cycle w s) = _lastUpdate s /\
  registered (cycle w s) /\
  snd (_update w s) = Ok true.
Proof.
  intros Hf He Hr Hi. unfold cycle.
  rewrite _update_unfold, (update_try_fetch_raises w s e Hf), He.
  destruct (update_zero_returns s i Hr Hi) as (s' & -> & Hd & Hn & Hl & _ & Hr').
  by cbn [fst snd].
Qed.

(** One cycle that goes through the first handler, wherever the exception
    came from. *)
Lemma cycle_handled (w : env) (s : process) (e : exn) (i : Z) :
  classify w s = RecoverableFault e ->
  registered s -> dbus_value s "/UpdateIndex" = Some (PyInt i) ->
  (forall p, p ∈ published -> dbus_value (cycle w s) p = Some (default_value p)) /\
  dbus_value (cycle w s) "/UpdateIndex" = Some (PyInt ((i + 1) mod 256)) /\
  _lastUpdate (cycle w s) = _lastUpdate s /\
  registered (cycle w s) /\
  snd (_update w s) = Ok true.
Proof.
  intros Hc Hr Hi. apply classify_Recoverable in Hc as [Hrun He].
  pose proof (update_try_raised_frame w s _ e Hrun) as Hfr.
  unfold cycle. rewrite _update_unfold, Hrun, He.
  destruct (update_zero_returns (fst (update_try w s)) i) as (s' & -> & Hd & Hn & Hl & _ & Hr').
  - by apply (frame_registered s).
  - by rewrite (frame_UpdateIndex _ _ Hfr).
  - cbn [fst snd]. split; [done|]. split; [done|]. split; [|done].
    rewrite Hl. apply Hfr.
Qed.

(** One cycle that ends in the second [except] clause. *)
Lemma cycle_unhandled (w : env) (s : process) (e : exn) :
  classify w s = UnhandledFault e ->
  cycle w s = fst (update_try w s) /\
  snd (_update w s) = Ok true /\
  frame s (cycle w s) /\
  (_getRngBridgeState w = Raise e /\ cycle w s = s \/
   exists state, _getRngBridgeState w = Ok state /\
     exists k : nat,
       (k <= 9)%nat /\
       assigned k state s (cycle w s) /\
       ((k < 9)%nat -> assignment_raises k state s e) /\
       (k = 9%nat -> increment_raises s e)).
Proof.
  intros Hc. apply classify_Unhandled in Hc as [Hrun He].
  pose proof (update_try_raised_frame w s _ e Hrun) as Hfr.
  unfold cycle. rewrite _update_unfold, Hrun, He. cbn [fst snd].
  split; [done|]. split; [done|]. split; [done|].
  destruct (_getRngBridgeState w) as [state|e0] eqn:Hst.
  - right. exists state. split; [done|].
    destruct (update_try_raised w s _ e state Hst Hrun)
      as (_ & k & Hle & Hass & Hlt & Heq).
    exists k. split; [done|]. split; [done|]. split; [done|].
    intros Hk. destruct (Heq Hk) as [(path & v & _ & _ & Hf)|Hinc]; [|done].
    apply percent_s_raises in Hf. congruence.
  - left. rewrite (update_try_fetch_raises w s e0 Hst) in Hrun |- *.
    cbn [fst] in Hrun. by injection Hrun as <-.
Qed.

(** The counter after one cycle, by the outcome of the [try] block. *)
Lemma counter_after_cycle (w : env) (s : process) (i : Z) :
  registered s ->
  dbus_value s "/UpdateIndex" = Some (PyInt i) ->
  match classify w s with
  | Success | RecoverableFault _ =>
      dbus_value (cycle w s) "/UpdateIndex" = Some (PyInt ((i + 1) mod 256))
  | UnhandledFault _ =>
      dbus_value (cycle w s) "/UpdateIndex" = Some (PyInt i)
  end.
Proof.
  intros Hr Hi.
  destruct (classify w s) as [|e|e] eqn:Hc.
  - apply classify_Success in Hc.
    unfold cycle. rewrite _update_unfold, Hc. cbn [fst].
    apply update_try_success in Hc
      as (state & index & next & _ & _ & Hidx & Hnext & Hnew & _).
    rewrite Hi in Hidx. injection Hidx as <-.
    rewrite next_index_int in Hnext. injection Hnext as <-. exact Hnew.
  - by destruct (cycle_handled w s e i Hc Hr Hi) as (_ & Hn & _).
  - apply cycle_unhandled in Hc as (_ & _ & Hfr & _).
    by rewrite (frame_UpdateIndex _ _ Hfr).
Qed.

(** C3. A cycle that completes, by success or through the first handler,
    takes [/UpdateIndex] from [i] to [(i + 1) mod 256], a value in 0..255;
    a cycle that ends in the second handler leaves it at [i]. *)
Theorem UpdateIndex_after_cycle (w : env) (s : process) (i : Z) :
  registered s ->
  dbus_value s "/UpdateIndex" = Some (PyInt i) ->
  match classify w s with
  | Success | RecoverableFault _ =>
      dbus_value (cycle w s) "/UpdateIndex" = Some (PyInt ((i + 1) mod 256))
  | UnhandledFault _ =>
      dbus_value (cycle w s) "/UpdateIndex" = Some (PyInt i)
  end /\
  0 <= (i + 1) mod 256 <= 255.
Proof.
  intros Hr Hi. split; [|pose proof (Z.mod_pos_bound (i + 1) 256); lia].
  by apply counter_after_cycle.
Qed.

Lemma UpdateIndex_after_cycle_witness :
  match classify scenario_A started with
  | Success | RecoverableFault _ =>
      dbus_value (cycle scenario_A started) "/UpdateIndex"
        = Some (PyInt ((0 + 1) mod 256))
  | UnhandledFault _ =>
      dbus_value (cycle scenario_A started) "/UpdateIndex" = Some (PyInt 0)
  end /\
  0 <= (0 + 1) mod 256 <= 255.
Proof.
  apply (UpdateIndex_after_cycle scenario_A started 0).
  - intros path Hp. rewrite elem_of_cons, in_published in Hp.
    repeat destruct Hp as [->|Hp]; try subst path; vm_compute; eauto.
  - vm_compute; reflexivity.
Defined.

Lemma run_snoc (evs : list event) (ev : event) (s : process) :
  run (evs ++ [ev]) s = step (run evs s) ev.
Proof. unfold run. by rewrite fold_left_app. Qed.

Lemma run_recoverable (ws : list env) (s : process) (i : Z) :
  Forall fetch_faults ws -> registered s ->
  dbus_value s "/UpdateIndex" = Some (PyInt i) ->
  registered (run (map Tick ws) s) /\
  (exists j, dbus_value (run (map Tick ws) s) "/UpdateIndex" = Some (PyInt j) /\
             j mod 256 = (i + Z.of_nat (length ws)) mod 256) /\
  _lastUpdate (run (map Tick ws) s) = _lastUpdate s.
Proof.
  intros Hws Hr Hi. induction ws as [|w ws IH] using rev_ind.
  - cbn. split; [done|]. split; [|done]. exists i. split; [done|]. f_equal. lia.
  - apply Forall_app in Hws as [Hws Hw]. apply Forall_inv in Hw as (e & Hf & He).
    destruct (IH Hws) as (Hr' & (j & Hj & Hmod) & Hl).
    rewrite map_app. cbn [map]. rewrite run_snoc. cbn [step].
    destruct (cycle_recoverable w _ e j Hf He Hr' Hj) as (_ & Hn & Hl' & Hr'' & _).
    split; [done|]. split; [|congruence].
    eexists. split; [exact Hn|].
    rewrite Z.mod_mod by lia. rewrite length_app, Nat2Z.inj_add. cbn [length].
    rewrite <- Z.add_mod_idemp_l, Hmod, Z.add_mod_idemp_l by lia. f_equal. lia.
Qed.

(** C4. After one or more consecutive cycles whose fetch raised
    [ValueError], a connection error or a timeout, whatever the table held
    before: the nine published properties hold their zero/off defaults (0,
    and [False] for [/Load/State]), [/UpdateIndex] has advanced by one per
    cycle modulo 256, and [_lastUpdate] is what it was. *)
Theorem recoverable_faults_publish_defaults (ws : list env) (s : process) (i : Z) :
  ws <> [] ->
  Forall fetch_faults ws ->
  registered s ->
  dbus_value s "/UpdateIndex" = Some (PyInt i) ->
  (forall p, p ∈ published ->
     dbus_value (run (map Tick ws) s) p = Some (default_value p)) /\
  dbus_value (run (map Tick ws) s) "/Load/State" = Some (PyBool false) /\
  Forall (fun p => dbus_value (run (map Tick ws) s) p = Some (PyInt 0))
    [ "/Pv/V"; "/Yield/Power"; "/Yield/System"; "/Yield/User"; "/State";
      "/Dc/0/Voltage"; "/Dc/0/Current"; "/Load/I" ]%string /\
  dbus_value (run (map Tick ws) s) "/UpdateIndex"
    = Some (PyInt ((i + Z.of_nat (length ws)) mod 256)) /\
  _lastUpdate (run (map Tick ws) s) = _lastUpdate s.
Proof.
  intros Hne Hws Hr Hi.
  destruct (exists_last Hne) as (ws' & w & ->).
  apply Forall_app in Hws as [Hws Hw]. apply Forall_inv in Hw as (e & Hf & He).
  destruct (run_recoverable ws' s i Hws Hr Hi) as (Hr' & (j & Hj & Hmod) & Hl).
  rewrite map_app. cbn [map]. rewrite run_snoc. cbn [step].
  destruct (cycle_recoverable w _ e j Hf He Hr' Hj) as (Hd & Hn & Hl' & _ & _).
  split; [exact Hd|]. split.
  { rewrite Hd by (apply in_published; tauto). reflexivity. }
  split.
  { repeat (apply Forall_cons; split;
            [rewrite Hd by (apply in_published; tauto); reflexivity|]).
    apply Forall_nil_2. }
  split; [|congruence].
  rewrite Hn. do 2 f_equal.
  rewrite length_app, Nat2Z.inj_add. cbn [length].
  rewrite <- Z.add_mod_idemp_l, Hmod, Z.add_mod_idemp_l by lia. f_equal. lia.
Qed.

(** Closed facts, conjunct by conjunct, by evaluation. *)
Ltac by_evaluation :=
  repeat match goal with |- _ /\ _ => split end;
  first [ lia | vm_compute; reflexivity ].

Ltac registered_by_computation :=
  let path := fresh "path" in
  let Hp := fresh "Hp" in
  intros path Hp; rewrite elem_of_cons, in_published in Hp;
  repeat destruct Hp as [->|Hp]; try subst path; vm_compute; eauto.

Lemma registered_started : registered started.
Proof. registered_by_computation. Qed.

Lemma registered_after_A : registered (cycle scenario_A started).
Proof. registered_by_computation. Qed.

(** Scenarios B and C in a row, after the successful cycle of Scenario A. *)
Lemma recoverable_faults_publish_defaults_witness :
  dbus_value (cycle scenario_A started) "/Yield/Power" = Some (PyFloat (f64_of_Z 200)) /\
  dbus_value (run (map Tick [scenario_B; scenario_C]) (cycle scenario_A started))
    "/Yield/Power" = Some (PyInt 0) /\
  dbus_value (run (map Tick [scenario_B; scenario_C]) (cycle scenario_A started))
    "/UpdateIndex" = Some (PyInt 3) /\
  _lastUpdate (run (map Tick [scenario_B; scenario_C]) (cycle scenario_A started))
    = PyFloat (time_time scenario_A).
Proof.
  assert (Hne : [scenario_B; scenario_C] <> []) by discriminate.
  assert (Hws : Forall fetch_faults [scenario_B; scenario_C]).
  { repeat (apply Forall_cons; split; [eexists; split; vm_compute; reflexivity|]).
    apply Forall_nil_2. }
  assert (Hi : dbus_value (cycle scenario_A started) "/UpdateIndex" = Some (PyInt 1))
    by (vm_compute; reflexivity).
  destruct (recoverable_faults_publish_defaults _ _ 1 Hne Hws registered_after_A Hi)
    as (Hd & _ & _ & Hn & Hl).
  split; [vm_compute; reflexivity|].
  split; [apply (Hd "/Yield/Power"%string), in_published; tauto|].
  split; [exact Hn|exact Hl].
Defined.

(** C10. A body that decodes to a falsy JSON value (an empty object, an
    empty array, 0, null, ...) makes the fetch raise [ValueError]; the
    cycle goes through the first handler: the nine properties hold their
    defaults and [/UpdateIndex] advances; it is not a successful cycle. *)
Theorem falsy_json_is_recoverable (w : env) (s : process) (base : string)
    (resp : response) (body : pyval) (i : Z) :
  _getStatusUrl w = Ok base ->
  requests_get w (base +:+ "state") = Ok resp ->
  ok resp = true ->
  json resp = Ok body ->
  py_bool body = false ->
  registered s ->
  dbus_value s "/UpdateIndex" = Some (PyInt i) ->
  _getRngBridgeState w = Raise (ValueError "Converting response to JSON failed") /\
  classify w s = RecoverableFault (ValueError "Converting response to JSON failed") /\
  (forall p, p ∈ published -> dbus_value (cycle w s) p = Some (default_value p)) /\
  dbus_value (cycle w s) "/UpdateIndex" = Some (PyInt ((i + 1) mod 256)) /\
  _lastUpdate (cycle w s) = _lastUpdate s /\
  snd (_update w s) = Ok true.
Proof.
  intros Hurl Hget Hok Hjson Hfalsy Hr Hi.
  assert (Hf : _getRngBridgeState w
               = Raise (ValueError "Converting response to JSON failed")).
  { unfold _getRngBridgeState, _requestData. rewrite Hurl. cbn [rbind].
    rewrite Hget. cbn [rbind]. rewrite Hok. cbn [negb].
    rewrite Hjson. cbn [rbind]. by rewrite Hfalsy. }
  split; [exact Hf|]. split.
  { unfold classify. by rewrite (update_try_fetch_raises w s _ Hf). }
  destruct (cycle_recoverable w s _ i Hf eq_refl Hr Hi) as (Hd & Hn & Hl & _ & Hret).
  by repeat split.
Qed.

(** The falsy JSON values. *)
Lemma falsy_json_values :
  py_bool (PyDict []) = false /\ py_bool (PyList []) = false /\
  py_bool (PyInt 0) = false /\ py_bool PyNone = false /\
  py_bool (PyBool false) = false /\ py_bool (PyStr "") = false /\
  py_bool (PyFloat (S754_zero false)) = false.
Proof. by repeat split. Qed.

Lemma falsy_json_is_recoverable_witness :
  classify (device_answers (PyDict [])) (cycle scenario_A started)
    = RecoverableFault (ValueError "Converting response to JSON failed") /\
  dbus_value (cycle (device_answers (PyDict [])) (cycle scenario_A started)) "/Pv/V"
    = Some (PyInt 0) /\
  dbus_value (cycle (device_answers (PyDict [])) (cycle scenario_A started))
    "/UpdateIndex" = Some (PyInt 2).
Proof.
  destruct (falsy_json_is_recoverable (device_answers (PyDict []))
              (cycle scenario_A started) "http://192.168.2.13/api/"
              {| ok := true; json := Ok (PyDict []) |} (PyDict []) 1)
    as (_ & Hc & Hd & Hn & _);
    try (vm_compute; reflexivity).
  - exact registered_after_A.
  - split; [exact Hc|]. split; [|exact Hn].
    apply (Hd "/Pv/V"%string), in_published. tauto.
Defined.

(* ===================================================================== *)
(** ** Unknown codes and unexpected shapes *)
(* ===================================================================== *)

(** A cycle in whose fetched state the expression of some published path
    fails is neither successful nor handled by the first handler. *)
Lemma failing_expression_unhandled (w : env) (s : process) (state : pyval)
    (path : string) (e0 : exn) :
  _getRngBridgeState w = Ok state ->
  path ∈ published ->
  device_value state path = Raise e0 ->
  exists e, classify w s = UnhandledFault e.
Proof.
  intros Hst Hp Hraise.
  destruct (classify w s) as [|e|e] eqn:Hc.
  - apply classify_Success, update_try_success in Hc
      as (state' & _ & _ & Hst' & Hvals & _).
    rewrite Hst in Hst'. injection Hst' as <-.
    destruct (Hvals path Hp) as (v & Hv & _). congruence.
  - apply recoverable_origin in Hc as [Hf|(state' & Hst' & Hvals & _)]; [congruence|].
    rewrite Hst in Hst'. injection Hst' as <-.
    destruct (Hvals path Hp) as (v & Hv). congruence.
  - by exists e.
Qed.

(** A published path whose expression fails keeps its value. *)
Lemma failing_expression_unwritten (w : env) (s : process) (state : pyval)
    (path : string) (e0 e : exn) :
  _getRngBridgeState w = Ok state ->
  path ∈ published ->
  device_value state path = Raise e0 ->
  classify w s = UnhandledFault e ->
  dbus_value (cycle w s) path = dbus_value s path.
Proof.
  intros Hst Hp Hraise Hc.
  apply cycle_unhandled in Hc
    as (_ & _ & _ & [[Hf _]|(state' & Hst' & k & _ & Hass & _)]).
  - congruence.
  - rewrite Hst in Hst'. injection Hst' as <-.
    destruct (assigned_old_or_new k state s _ path Hass Hp) as [Hold|(v & Hv & _)];
      [done|congruence].
Qed.

(** The lookup in the table, by the range of the code. *)
Lemma state_map_out_of_range (d : Z) :
  7 <= d \/ d < -7 -> py_getitem state_map (PyInt d) = Raise IndexError.
Proof.
  intros Hd. cbn [py_getitem state_map]. unfold seq_index.
  change (Z.of_nat (length _)) with 7.
  destruct (d <? 0) eqn:Hneg.
  - apply Z.ltb_lt in Hneg.
    assert (H1 : (d + 7 <? 0) = true) by (apply Z.ltb_lt; lia).
    by rewrite H1.
  - apply Z.ltb_ge in Hneg.
    assert (H1 : (7 <=? d) = true) by (apply Z.leb_le; lia).
    rewrite H1. by rewrite orb_true_r.
Qed.

Lemma state_map_from_the_end (d : Z) :
  -7 <= d <= -1 ->
  py_getitem state_map (PyInt d)
  = Ok (PyInt (nth (Z.to_nat (d + 7)) [0; 0; 3; 7; 4; 5; 2] 0)) /\
  py_getitem state_map (PyInt d) = py_getitem state_map (PyInt (d + 7)).
Proof.
  intros Hd.
  assert (Hcases : d = -7 \/ d = -6 \/ d = -5 \/ d = -4 \/ d = -3 \/ d = -2 \/ d = -1)
    by lia.
  repeat destruct Hcases as [->|Hcases]; try subst d; split; reflexivity.
Qed.

(** C5, as the code has it. The lookup [state_map[d]] raises [IndexError]
    for every code [d >= 7] and every code [d < -7]; the cycle then ends in
    the second handler and [/State] keeps its value. A code from -7 to -1 is
    no error: it indexes the table from its end, so that the right-hand
    side of [/State] evaluates to the entry [d + 7], and a successful cycle
    publishes that entry. *)
Theorem unknown_code_lookup (d : Z) :
  (7 <= d \/ d < -7 ->
     py_getitem state_map (PyInt d) = Raise IndexError /\
     forall (w : env) (s : process) (state : pyval),
       _getRngBridgeState w = Ok state ->
       sub2 state "c" "st" = Ok (PyInt d) ->
       (exists e, classify w s = UnhandledFault e) /\
       dbus_value (cycle w s) "/State" = dbus_value s "/State") /\
  (-7 <= d <= -1 ->
     py_getitem state_map (PyInt d)
       = Ok (PyInt (nth (Z.to_nat (d + 7)) [0; 0; 3; 7; 4; 5; 2] 0)) /\
     py_getitem state_map (PyInt d) = py_getitem state_map (PyInt (d + 7)) /\
     forall (w : env) (s : process) (state : pyval),
       _getRngBridgeState w = Ok state ->
       sub2 state "c" "st" = Ok (PyInt d) ->
       device_value state "/State"
         = Ok (PyInt (nth (Z.to_nat (d + 7)) [0; 0; 3; 7; 4; 5; 2] 0)) /\
       (classify w s = Success ->
          dbus_value (cycle w s) "/State"
            = Some (PyInt (nth (Z.to_nat (d + 7)) [0; 0; 3; 7; 4; 5; 2] 0)))).
Proof.
  split.
  - intros Hd. pose proof (state_map_out_of_range d Hd) as Hidx.
    split; [exact Hidx|]. intros w s state Hst Hcode.
    assert (Hraise : device_value state "/State" = Raise IndexError).
    { change (device_value state "/State")
        with (let? st := sub2 state "c" "st" in py_getitem state_map st).
      rewrite Hcode. exact Hidx. }
    assert (Hp : "/State"%string ∈ published) by (apply in_published; tauto).
    destruct (failing_expression_unhandled w s state _ _ Hst Hp Hraise) as [e He].
    split; [by exists e|].
    exact (failing_expression_unwritten w s state _ _ e Hst Hp Hraise He).
  - intros Hd. destruct (state_map_from_the_end d Hd) as [Hentry Hsame].
    split; [exact Hentry|]. split; [exact Hsame|].
    intros w s state Hst Hcode.
    assert (Hvalue : device_value state "/State"
                     = Ok (PyInt (nth (Z.to_nat (d + 7)) [0; 0; 3; 7; 4; 5; 2] 0))).
    { change (device_value state "/State")
        with (let? st := sub2 state "c" "st" in py_getitem state_map st).
      rewrite Hcode. exact Hentry. }
    split; [exact Hvalue|].
    intros Hc. apply classify_Success in Hc.
    unfold cycle. rewrite _update_unfold, Hc. cbn [fst].
    apply update_try_success in Hc as (state' & _ & _ & Hst' & Hvals & _).
    rewrite Hst in Hst'. injection Hst' as <-.
    destruct (Hvals "/State"%string) as (v & Hv & Hpub); [apply in_published; tauto|].
    rewrite Hpub. congruence.
Qed.

Lemma unknown_code_lookup_witness :
  (py_getitem state_map (PyInt 7) = Raise IndexError /\
   (exists e, classify (device_answers (scenario_state (PyInt 7))) started
              = UnhandledFault e) /\
   dbus_value (cycle (device_answers (scenario_state (PyInt 7))) started) "/State"
     = dbus_value started "/State") /\
  (py_getitem state_map (PyInt (-2)) = Ok (PyInt 5) /\
   dbus_value (cycle (device_answers (scenario_state (PyInt (-2)))) started) "/State"
     = Some (PyInt 5)).
Proof.
  split.
  - destruct (proj1 (unknown_code_lookup 7)) as [Hidx Hcycle]; [lia|].
    split; [exact Hidx|].
    apply (Hcycle (device_answers (scenario_state (PyInt 7))) started
             (scenario_state (PyInt 7))); vm_compute; reflexivity.
  - destruct (proj2 (unknown_code_lookup (-2))) as (Hentry & _ & Hcycle); [lia|].
    split; [exact Hentry|].
    destruct (Hcycle (device_answers (scenario_state (PyInt (-2)))) started
                (scenario_state (PyInt (-2)))) as (_ & Hpub);
      [vm_compute; reflexivity..|].
    apply Hpub. vm_compute; reflexivity.
Defined.

(** C5 as stated fails at the code -1: the lookup returns the last entry of
    the table, and the cycle is a successful one that publishes it. *)
Lemma negative_code_is_published :
  -1 < 0 /\
  py_getitem state_map (PyInt (-1)) = Ok (PyInt 2) /\
  classify (device_answers (scenario_state (PyInt (-1)))) started = Success /\
  dbus_value (cycle (device_answers (scenario_state (PyInt (-1)))) started) "/State"
    = Some (PyInt 2).
Proof. by_evaluation. Qed.

(** C6, as the code has it. When the body decodes to a truthy value in
    which the expression of a published path fails (a field is missing, or
    has a type the expression rejects), the exception is not one of the
    first handler's: the cycle ends in the second handler, which writes
    nothing. [/UpdateIndex] and [_lastUpdate] keep their values, the
    callback returns [True], and each published path holds what it held
    before or what the state assigns to it; none is zeroed by the cycle. *)
Theorem unexpected_shape_is_unhandled (w : env) (s : process) (state : pyval)
    (path : string) (e0 : exn) :
  _getRngBridgeState w = Ok state ->
  path ∈ published ->
  device_value state path = Raise e0 ->
  exists e,
    classify w s = UnhandledFault e /\
    recoverable e = false /\
    dbus_value (cycle w s) "/UpdateIndex" = dbus_value s "/UpdateIndex" /\
    _lastUpdate (cycle w s) = _lastUpdate s /\
    snd (_update w s) = Ok true /\
    dbus_value (cycle w s) path = dbus_value s path /\
    forall p, p ∈ published ->
      dbus_value (cycle w s) p = dbus_value s p \/
      exists v, device_value state p = Ok v /\ dbus_value (cycle w s) p = Some v.
Proof.
  intros Hst Hp Hraise.
  destruct (failing_expression_unhandled w s state path e0 Hst Hp Hraise) as [e Hc].
  exists e. split; [exact Hc|].
  pose proof (failing_expression_unwritten w s state path e0 e Hst Hp Hraise Hc) as Hkeep.
  pose proof (classify_Unhandled w s e Hc) as [_ He].
  apply cycle_unhandled in Hc
    as (_ & Hret & Hfr & [[Hf _]|(state' & Hst' & k & _ & Hass & _)]).
  { congruence. }
  rewrite Hst in Hst'. injection Hst' as <-.
  split; [exact He|]. split; [by apply frame_UpdateIndex|].
  split; [apply Hfr|]. split; [exact Hret|]. split; [exact Hkeep|].
  intros p Hpub. by apply (assigned_old_or_new k state).
Qed.

Lemma unexpected_shape_is_unhandled_witness :
  exists e,
    classify (device_answers state_without_c) started = UnhandledFault e /\
    recoverable e = false /\
    dbus_value (cycle (device_answers state_without_c) started) "/UpdateIndex"
      = dbus_value started "/UpdateIndex".
Proof.
  destruct (unexpected_shape_is_unhandled (device_answers state_without_c) started
              state_without_c "/State" (KeyError "c"))
    as (e & Hc & He & Hi & _).
  - vm_compute; reflexivity.
  - apply in_published. tauto.
  - vm_compute; reflexivity.
  - exists e. exact (conj Hc (conj He Hi)).
Defined.

(** C6 as stated fails when the object ["c"] is missing: the [KeyError]
    reaches the second handler, [/UpdateIndex] stays at 0 and [/Pv/V] holds
    the fetched 40.0, not 0. With the wrong type, a string where the code is
    wanted, it is a [TypeError] with the same outcome. *)
Lemma missing_field_not_recoverable :
  sub2 state_without_c "c" "st" = Raise (KeyError "c") /\
  classify (device_answers state_without_c) started = UnhandledFault (KeyError "c") /\
  recoverable (KeyError "c") = false /\
  dbus_value started "/UpdateIndex" = Some (PyInt 0) /\
  dbus_value (cycle (device_answers state_without_c) started) "/UpdateIndex"
    = Some (PyInt 0) /\
  dbus_value (cycle (device_answers state_without_c) started) "/Pv/V"
    = Some (PyFloat (f64_of_Z 40)) /\
  classify (device_answers (scenario_state (PyStr "3"))) started
    = UnhandledFault TypeError.
Proof. by_evaluation. Qed.

(** C7, as the code has it. A cycle that ends in the second handler returns
    [True] and leaves [/UpdateIndex], [_lastUpdate], the registered timeouts
    and every path other than the nine published ones as they were. If the
    exception came from the fetch, nothing at all was written. If it came
    later, the assignments made before the raising statement stay and the
    others were never made: for some [k], the first [k] published paths
    (in the order of the [try] block) hold the values the fetched state
    assigns to them and the other published paths hold what they held
    before; the raising statement is the assignment number [k], or, with
    all nine made, the increment of [/UpdateIndex]. *)
Theorem unhandled_fault_effects (w : env) (s : process) (e : exn) :
  classify w s = UnhandledFault e ->
  snd (_update w s) = Ok true /\
  dbus_value (cycle w s) "/UpdateIndex" = dbus_value s "/UpdateIndex" /\
  _lastUpdate (cycle w s) = _lastUpdate s /\
  timeouts (cycle w s) = timeouts s /\
  (forall p, p ∉ published -> _dbusservice (cycle w s) !! p = _dbusservice s !! p) /\
  (_getRngBridgeState w = Raise e -> cycle w s = s) /\
  (forall state, _getRngBridgeState w = Ok state ->
     exists k : nat,
       (k <= 9)%nat /\
       (forall j p, published !! j = Some p -> (j < k)%nat ->
          exists v, device_value state p = Ok v /\
                    dbus_value (cycle w s) p = Some v) /\
       (forall j p, published !! j = Some p -> (k <= j)%nat ->
          dbus_value (cycle w s) p = dbus_value s p) /\
       ((k < 9)%nat -> assignment_raises k state s e) /\
       (k = 9%nat -> increment_raises s e)).
Proof.
  intros Hc.
  apply cycle_unhandled in Hc as (_ & Hret & Hfr & Hcases).
  split; [exact Hret|]. split; [by apply frame_UpdateIndex|].
  split; [apply Hfr|]. split; [apply Hfr|]. split; [apply Hfr|].
  destruct Hcases as [[Hf Hsame]|(state & Hst & k & Hle & [Hnew Hold] & Hlt & Heq)].
  - split; [done|]. intros state Hst. congruence.
  - split; [intros Hf; congruence|].
    intros state' Hst'. rewrite Hst in Hst'. injection Hst' as <-.
    by exists k.
Qed.

Lemma unhandled_fault_effects_witness :
  snd (_update (device_answers state_without_load_current) started) = Ok true /\
  dbus_value (cycle (device_answers state_without_load_current) started) "/UpdateIndex"
    = dbus_value started "/UpdateIndex" /\
  _lastUpdate (cycle (device_answers state_without_load_current) started)
    = _lastUpdate started /\
  exists k : nat,
    (forall j p, published !! j = Some p -> (j < k)%nat ->
       exists v, device_value state_without_load_current p = Ok v /\
                 dbus_value (cycle (device_answers state_without_load_current) started) p
                 = Some v) /\
    (forall j p, published !! j = Some p -> (k <= j)%nat ->
       dbus_value (cycle (device_answers state_without_load_current) started) p
       = dbus_value started p).
Proof.
  destruct (unhandled_fault_effects (device_answers state_without_load_current)
              started (KeyError "cu")) as (Hret & Hi & Hl & _ & _ & _ & Hstate).
  - vm_compute; reflexivity.
  - split; [exact Hret|]. split; [exact Hi|]. split; [exact Hl|].
    destruct (Hstate state_without_load_current) as (k & _ & Hnew & Hold & _);
      [vm_compute; reflexivity|].
    exists k. exact (conj Hnew Hold).
Defined.

(** C7 as stated fails when ["l"] holds no ["cu"]: the last assignment
    raises [KeyError], the cycle ends in the second handler, and the eight
    assignments made before it are kept, [/Pv/V] going from 0 to 40.0. *)
Lemma unhandled_fault_keeps_partial_writes :
  classify (device_answers state_without_load_current) started
    = UnhandledFault (KeyError "cu") /\
  recoverable (KeyError "cu") = false /\
  dbus_value started "/Pv/V" = Some (PyInt 0) /\
  dbus_value (cycle (device_answers state_without_load_current) started) "/Pv/V"
    = Some (PyFloat (f64_of_Z 40)) /\
  dbus_value (cycle (device_answers state_without_load_current) started) "/Load/State"
    = Some (PyBool true) /\
  dbus_value (cycle (device_answers state_without_load_current) started) "/Load/I"
    = Some (PyInt 0).
Proof. by_evaluation. Qed.

(* ===================================================================== *)
(** ** Start-up and the sign-of-life timer *)
(* ===================================================================== *)

Lemma bind_add_path_fresh {B} (path : string) (v : pyval) (fmt : option textformat)
    (wr : bool) (k : unit -> M B) (s : process) :
  _dbusservice s !! path = None ->
  bind (add_path path v fmt wr) k s
  = k tt (set_dbusservice (<[path := Item v fmt wr]> (_dbusservice s)) s).
Proof. intros Hfresh. unfold bind, add_path. by rewrite Hfresh. Qed.

Ltac fresh_path :=
  cbn [_dbusservice]; rewrite ?lookup_insert_ne by done; apply lookup_empty.

Ltac add_fresh_path :=
  rewrite bind_add_path_fresh by fresh_path;
  unfold set_dbusservice; cbn [_dbusservice _lastUpdate timeouts].

(** [__init__], run with the paths of [main] where the configuration holds
    the keys it reads, returns. *)
Lemma init_returns (w : env) (d cn serial : string) (di n : Z) :
  config_get w "DEFAULT" "DeviceInstance" = Ok d ->
  py_int (PyStr d) = Ok di ->
  config_get w "DEFAULT" "CustomName" = Ok cn ->
  config_get w "DEFAULT" "Serial" = Ok serial ->
  _getSignOfLifeInterval w = Ok n ->
  exists s, __init__ w main_paths "RNGBridge" "RNGBridge HTTP JSON service" boot
            = (s, Ok tt) /\
    timeouts s = [(2000, cb_update); (n * 60 * 1000, cb_signOfLife)] /\
    _lastUpdate s = PyInt 0 /\
    dbus_value s "/UpdateIndex" = Some (PyInt 0) /\
    (forall p, p ∈ published -> dbus_value s p = Some (PyInt 0)).
Proof.
  intros Hd Hdi Hcn Hserial Hn. unfold __init__, main_paths, add_paths, boot.
  rewrite bind_eval, Hd. cbn [rbind]. rewrite Hdi.
  rewrite bind_eval, Hcn. cbv zeta.
  unfold bind at 1, new_service at 1.
  unfold set_dbusservice; cbn [_dbusservice _lastUpdate timeouts].
  do 12 add_fresh_path.
  rewrite bind_eval, Hserial.
  do 3 add_fresh_path.
  do 9 (rewrite bind_assoc; add_fresh_path).
  unfold bind at 1, ret at 1.
  unfold bind at 1, init_lastUpdate at 1.
  unfold bind at 1, timeout_add at 1.
  rewrite bind_eval, Hn. unfold timeout_add, set_lastUpdate, add_timeout.
  cbn [_dbusservice _lastUpdate timeouts app].
  eexists. split; [reflexivity|].
  split; [reflexivity|]. split; [reflexivity|].
  split.
  { unfold dbus_value. cbn [_dbusservice].
    rewrite !lookup_insert_ne by done. by rewrite lookup_insert_eq. }
  intros p Hp. apply in_published in Hp.
  unfold dbus_value. cbn [_dbusservice].
  repeat destruct Hp as [->|Hp]; try subst p;
    rewrite ?lookup_insert_ne by done; by rewrite lookup_insert_eq.
Qed.

(** C9, as the code has it. [__init__] registers the sign-of-life timer
    whatever the configured interval [n] is, with a period of
    [n * 60 * 1000] milliseconds, next to the 2000 ms timer of [_update];
    an interval of 0 gives a timer of period 0, not a disabled one. *)
Theorem heartbeat_timer_registered (w : env) (d cn serial : string) (di n : Z) :
  config_get w "DEFAULT" "DeviceInstance" = Ok d ->
  py_int (PyStr d) = Ok di ->
  config_get w "DEFAULT" "CustomName" = Ok cn ->
  config_get w "DEFAULT" "Serial" = Ok serial ->
  _getSignOfLifeInterval w = Ok n ->
  timeouts (main w) = [(2000, cb_update); (n * 60 * 1000, cb_signOfLife)] /\
  ~ heartbeat_disabled (main w).
Proof.
  intros Hd Hdi Hcn Hserial Hn.
  destruct (init_returns w d cn serial di n Hd Hdi Hcn Hserial Hn) as (s & Hrun & Ht & _).
  assert (Hmain : timeouts (main w)
                  = [(2000, cb_update); (n * 60 * 1000, cb_signOfLife)]).
  { unfold main, try_except. by rewrite Hrun. }
  split; [exact Hmain|].
  intros Hoff. apply (Hoff (n * 60 * 1000)). rewrite Hmain.
  apply list_elem_of_further, list_elem_of_here.
Qed.

Lemma heartbeat_timer_registered_witness :
  timeouts (main (configured "5")) = [(2000, cb_update); (300000, cb_signOfLife)].
Proof.
  refine (proj1 (heartbeat_timer_registered (configured "5") "40" "RNGBridge" "0001"
                   40 5 _ _ _ _ _)); vm_compute; reflexivity.
Defined.

(** C9 as stated fails at the interval 0: the timer is registered all the
    same, with period 0. The empty value counts as 0 too. *)
Lemma zero_interval_still_registers :
  _getSignOfLifeInterval (configured "0") = Ok 0 /\
  _getSignOfLifeInterval (configured "") = Ok 0 /\
  timeouts (main (configured "0")) = [(2000, cb_update); (0, cb_signOfLife)] /\
  ~ heartbeat_disabled (main (configured "0")).
Proof.
  split; [vm_compute; reflexivity|]. split; [vm_compute; reflexivity|].
  assert (Ht : timeouts (main (configured "0"))
               = [(2000, cb_update); (0, cb_signOfLife)]) by (vm_compute; reflexivity).
  split; [exact Ht|].
  intros Hoff. apply (Hoff 0). rewrite Ht.
  apply list_elem_of_further, list_elem_of_here.
Qed.

(* ===================================================================== *)
(** ** Stored numbers and their text *)
(* ===================================================================== *)

(** C8. On a successful cycle [/Yield/Power] holds the product [vo * cu] of
    the two fetched values as Python's [*] computes it, and [/Yield/System]
    and [/Yield/User] hold [to / 1000.0] and [ge / 1000.0]; no rounding step
    lies between the operator and the store. The product of two integers is
    the integer product, the product of two floats the binary64 product;
    the raw 12345 gives the double 12.345. Producing the text of a value
    leaves the process, stored values included, as it was. *)
Theorem stored_values_unrounded
    (builtin_round : pyval -> Z -> result pyval) (builtin_str : pyval -> string)
    (w : env) (s : process) (state vo cu to ge : pyval) :
  _getRngBridgeState w = Ok state ->
  sub2 state "p" "vo" = Ok vo ->
  sub2 state "p" "cu" = Ok cu ->
  sub2 state "b" "to" = Ok to ->
  sub2 state "b" "ge" = Ok ge ->
  classify w s = Success ->
  (exists power, py_mul vo cu = Ok power /\
                 dbus_value (cycle w s) "/Yield/Power" = Some power) /\
  (exists y, py_truediv to (PyFloat f64_1000) = Ok y /\
             dbus_value (cycle w s) "/Yield/System" = Some y) /\
  (exists y, py_truediv ge (PyFloat f64_1000) = Ok y /\
             dbus_value (cycle w s) "/Yield/User" = Some y) /\
  (forall a b, py_mul (PyInt a) (PyInt b) = Ok (PyInt (a * b))) /\
  (forall x y, py_mul (PyFloat x) (PyFloat y) = Ok (PyFloat (f64_mul x y))) /\
  (forall a f, float_of_int a = Ok f ->
     py_truediv (PyInt a) (PyFloat f64_1000) = Ok (PyFloat (f64_div f f64_1000))) /\
  py_truediv (PyInt 12345) (PyFloat f64_1000) = Ok (PyFloat f64_12_345) /\
  nearest_to_fraction 6949617174986097 49 12345 1000 /\
  (forall path s0, fst (GetText builtin_round builtin_str path s0) = s0).
Proof.
  intros Hst Hvo Hcu Hto Hge Hc. apply classify_Success in Hc.
  unfold cycle. rewrite _update_unfold, Hc. cbn [fst].
  apply update_try_success in Hc as (state' & _ & _ & Hst' & Hvals & _).
  rewrite Hst in Hst'. injection Hst' as <-.
  split.
  { destruct (Hvals "/Yield/Power"%string) as (v & Hv & Hpub);
      [apply in_published; tauto|].
    change (device_value state "/Yield/Power")
      with (let? vo := sub2 state "p" "vo" in
            let? cu := sub2 state "p" "cu" in py_mul vo cu) in Hv.
    rewrite Hvo, Hcu in Hv. by exists v. }
  split.
  { destruct (Hvals "/Yield/System"%string) as (v & Hv & Hpub);
      [apply in_published; tauto|].
    change (device_value state "/Yield/System")
      with (let? to := sub2 state "b" "to" in py_truediv to (PyFloat f64_1000)) in Hv.
    rewrite Hto in Hv. by exists v. }
  split.
  { destruct (Hvals "/Yield/User"%string) as (v & Hv & Hpub);
      [apply in_published; tauto|].
    change (device_value state "/Yield/User")
      with (let? ge := sub2 state "b" "ge" in py_truediv ge (PyFloat f64_1000)) in Hv.
    rewrite Hge in Hv. by exists v. }
  split; [reflexivity|]. split; [reflexivity|].
  split.
  { intros a f Hf. unfold py_truediv. cbn [as_number to_float]. by rewrite Hf. }
  split; [vm_compute; reflexivity|].
  split; [unfold nearest_to_fraction; vm_compute; discriminate|].
  intros path s0. unfold GetText.
  destruct (_dbusservice s0 !! path) as [it|]; [|reflexivity].
  by destruct (gettextcallback it).
Qed.

(** Scenario A: 40.0 V times 5.0 A is stored as 200.0, 123000 as 123.0. *)
Lemma stored_values_unrounded_witness :
  dbus_value (cycle scenario_A started) "/Yield/Power" = Some (PyFloat (f64_of_Z 200)) /\
  dbus_value (cycle scenario_A started) "/Yield/System" = Some (PyFloat (f64_of_Z 123)).
Proof.
  destruct (stored_values_unrounded (fun v _ => Ok v) (fun _ => EmptyString)
              scenario_A started (scenario_state (PyInt 3))
              (PyFloat (f64_of_Z 40)) (PyFloat (f64_of_Z 5))
              (PyInt 123000) (PyInt 4500))
    as ((power & Hp & Hpower) & (y & Hy & Hsys) & _);
    try (vm_compute; reflexivity).
  split.
  - rewrite Hpower. f_equal. vm_compute in Hp. by injection Hp as <-.
  - rewrite Hsys. f_equal. vm_compute in Hy. by injection Hy as <-.
Defined.

(* ===================================================================== *)
(** ** Well-formed states make successful cycles *)
(* ===================================================================== *)

Lemma is_Ok_true {A} (r : result A) : is_Ok r = true -> exists a, r = Ok a.
Proof. destruct r as [a|e]; [eauto|discriminate]. Qed.

Lemma number_to_float (v : pyval) :
  is_number v = true -> exists n f, as_number v = Some n /\ to_float n = Ok f.
Proof.
  destruct v; try discriminate; cbn.
  - intros Hz. apply is_Ok_true in Hz as [f Hf]. by exists (NInt z), f.
  - intros _. by exists (NFloat f), f.
Qed.

Lemma py_mul_numbers (a b : pyval) :
  is_number a = true -> is_number b = true -> exists v, py_mul a b = Ok v.
Proof.
  intros Ha Hb.
  apply number_to_float in Ha as (x & fx & Hx & Hfx).
  apply number_to_float in Hb as (y & fy & Hy & Hfy).
  unfold py_mul. rewrite Hx, Hy.
  destruct x, y; try (by eexists); rewrite Hfx, Hfy; by eexists.
Qed.

Lemma py_truediv_number (a : pyval) :
  is_number a = true -> exists v, py_truediv a (PyFloat f64_1000) = Ok v.
Proof.
  intros Ha. apply number_to_float in Ha as (x & fx & Hx & Hfx).
  unfold py_truediv. rewrite Hx. cbn [as_number to_float].
  destruct x; rewrite Hfx; by eexists.
Qed.

Lemma state_map_known_code (d : Z) :
  0 <= d <= 6 -> exists v, py_getitem state_map (PyInt d) = Ok v.
Proof.
  intros Hd.
  assert (Hcases : d = 0 \/ d = 1 \/ d = 2 \/ d = 3 \/ d = 4 \/ d = 5 \/ d = 6) by lia.
  repeat destruct Hcases as [->|Hcases]; try subst d; by eexists.
Qed.

(** The right-hand sides, path by path. *)
Lemma device_value_paths (state : pyval) :
  device_value state "/Pv/V" = sub2 state "p" "vo" /\
  device_value state "/Yield/Power"
    = (let? vo := sub2 state "p" "vo" in let? cu := sub2 state "p" "cu" in py_mul vo cu) /\
  device_value state "/State"
    = (let? st := sub2 state "c" "st" in py_getitem state_map st) /\
  device_value state "/Yield/System"
    = (let? to := sub2 state "b" "to" in py_truediv to (PyFloat f64_1000)) /\
  device_value state "/Yield/User"
    = (let? ge := sub2 state "b" "ge" in py_truediv ge (PyFloat f64_1000)) /\
  device_value state "/Dc/0/Voltage" = sub2 state "b" "vo" /\
  device_value state "/Dc/0/Current" = sub2 state "b" "cu" /\
  device_value state "/Load/State" = sub2 state "o" "l" /\
  device_value state "/Load/I" = sub2 state "l" "cu".
Proof. repeat split; reflexivity. Qed.

Lemma well_formed_values (state : pyval) (p : string) :
  well_formed state = true -> p ∈ published -> exists v, device_value state p = Ok v.
Proof.
  intros Hwf Hp. unfold well_formed in Hwf.
  destruct (sub2 state "p" "vo") as [vo|] eqn:Hvo; [|discriminate].
  destruct (sub2 state "p" "cu") as [cu|] eqn:Hcu; [|discriminate].
  destruct (sub2 state "c" "st") as [[| | d | | | |]|] eqn:Hcode; try discriminate.
  destruct (sub2 state "b" "to") as [to|] eqn:Hto; [|discriminate].
  destruct (sub2 state "b" "ge") as [ge|] eqn:Hge; [|discriminate].
  repeat (apply andb_prop in Hwf as [Hwf ?]).
  repeat match goal with H : is_Ok _ = true |- _ => apply is_Ok_true in H as [? ?] end.
  destruct (py_mul_numbers vo cu) as [power Hpower]; [done..|].
  destruct (state_map_known_code d) as [pst Hpst].
  { split; [by apply Z.leb_le|by apply Z.leb_le]. }
  destruct (py_truediv_number to) as [ys Hys]; [done|].
  destruct (py_truediv_number ge) as [yu Hyu]; [done|].
  destruct (device_value_paths state) as (E1 & E2 & E3 & E4 & E5 & E6 & E7 & E8 & E9).
  rewrite Hvo, ?Hcu, ?Hcode, ?Hto, ?Hge in *. cbn [rbind] in *.
  apply in_published in Hp.
  repeat destruct Hp as [->|Hp]; try subst p; eexists; etransitivity; eauto.
Qed.

(** A well-formed state whose logged values can be formatted, fetched where
    every path is exported and the counter is an integer, gives a
    successful cycle. Where the interpreter sets no limit on the digits of
    an integer, every value can be formatted. *)
Lemma well_formed_cycle_succeeds (w : env) (s : process) (state : pyval) (i : Z) :
  _getRngBridgeState w = Ok state ->
  well_formed state = true ->
  loggable w state ->
  registered s ->
  dbus_value s "/UpdateIndex" = Some (PyInt i) ->
  classify w s = Success.
Proof.
  intros Hst Hwf Hlog Hr Hi.
  pose proof (update_try_runs w s state _ _ Hst
                (fun p Hp => well_formed_values state p Hwf Hp) Hlog Hr Hi
                (next_index_int i)) as Hrun.
  unfold classify. by rewrite Hrun.
Qed.

(* ===================================================================== *)
(** ** The states the process reaches *)
(* ===================================================================== *)

Lemma keeps_bind {A B} (I : process -> Prop) (m : M A) (k : A -> M B) :
  keeps I m -> (forall a, keeps I (k a)) -> keeps I (bind m k).
Proof.
  intros Hm Hk s HI. unfold bind. specialize (Hm s HI).
  destruct (m s) as [s1 [a|e]]; [|exact Hm]. by apply Hk.
Qed.

Lemma keeps_pure {A} (I : process -> Prop) (r : result A) : keeps I (eval r).
Proof. by intros s HI. Qed.

Lemma keeps_getitem (I : process -> Prop) (path : string) : keeps I (dbus_getitem path).
Proof. intros s HI. unfold dbus_getitem. by destruct (_ !! _). Qed.

Lemma keeps_setitem (I : process -> Prop) (path : string) (v : pyval) :
  (forall s, I s -> I (store path v s)) -> keeps I (dbus_setitem path v).
Proof.
  intros Hst s HI. unfold dbus_setitem. destruct (_ !! _); [by apply Hst|done].
Qed.

Lemma keeps_try_except {A} (I : process -> Prop) (body : M A) (handler : exn -> M A) :
  keeps I body -> (forall e, keeps I (handler e)) -> keeps I (try_except body handler).
Proof.
  intros Hb Hh s HI. unfold try_except. specialize (Hb s HI).
  destruct (body s) as [s1 [a|e]]; [exact Hb|]. by apply Hh.
Qed.

(** [_update] only ever stores values and sets [_lastUpdate]. *)
Lemma _update_keeps (I : process -> Prop) (w : env) :
  (forall p v s, I s -> I (store p v s)) ->
  (forall v s, I s -> I (set_lastUpdate v s)) ->
  keeps I (_update w).
Proof.
  intros Hst Hlast.
  assert (Hinc : keeps I increment_UpdateIndex).
  { unfold increment_UpdateIndex.
    apply keeps_bind; [apply keeps_getitem|intros index].
    apply keeps_bind; [apply keeps_pure|intros next].
    apply keeps_setitem, Hst. }
  unfold _update. apply keeps_bind; [|by intros ? ? ?].
  apply keeps_try_except.
  - unfold update_try.
    repeat (apply keeps_bind;
            [first [ apply keeps_pure | apply keeps_getitem
                   | apply keeps_setitem, Hst | exact Hinc ]
            | intros ? ]).
    intros s HI. by apply Hlast.
  - intros e. unfold update_except. destruct (recoverable e); [|by intros ? ?].
    unfold update_zero.
    repeat (apply keeps_bind; [apply keeps_setitem, Hst|intros ?]).
    exact Hinc.
Qed.

Lemma same_flags_store (s0 s : process) (p : string) (v : pyval) :
  same_flags s0 s -> same_flags s0 (store p v s).
Proof.
  intros Hs q. rewrite <- Hs. destruct (decide (p = q)) as [->|Hne].
  - rewrite lookup_store_eq. by destruct (_dbusservice s !! q).
  - by rewrite lookup_store_ne.
Qed.

Lemma cycle_same_flags (w : env) (s : process) : same_flags s (cycle w s).
Proof.
  apply (_update_keeps (same_flags s) w).
  - intros p v s1. apply same_flags_store.
  - by intros v s1 Hs1.
  - by intros p.
Qed.

(** A bus client that writes another path does not move the counter. *)
Lemma bus_SetValue_counter (path : string) (v : pyval) (s : process) :
  path ≠ "/UpdateIndex"%string -> counter_ok s -> counter_ok (bus_SetValue path v s).
Proof.
  intros Hne (Hr & i & Hi & Hrange). unfold bus_SetValue.
  destruct (_dbusservice s !! path) as [it|]; [|split; [done|by exists i]].
  destruct (writeable it && _handlechangedvalue path v); [|split; [done|by exists i]].
  split; [by apply registered_store|].
  exists i. by rewrite dbus_value_store_ne.
Qed.

(** Nor does a cycle take it out of 0..255. *)
Lemma cycle_counter (w : env) (s : process) : counter_ok s -> counter_ok (cycle w s).
Proof.
  intros (Hr & i & Hi & Hrange).
  assert (Hr' : registered (cycle w s)).
  { intros p Hp. pose proof (cycle_same_flags w s p) as Hflags.
    destruct (Hr p Hp) as [x Hx]. rewrite Hx in Hflags.
    by destruct (_dbusservice (cycle w s) !! p). }
  split; [exact Hr'|].
  pose proof (counter_after_cycle w s i Hr Hi) as Hnew.
  destruct (classify w s) as [|e|e].
  - exists ((i + 1) mod 256). split; [done|]. pose proof (Z.mod_pos_bound (i + 1) 256); lia.
  - exists ((i + 1) mod 256). split; [done|]. pose proof (Z.mod_pos_bound (i + 1) 256); lia.
  - by exists i.
Qed.

Lemma step_counter (ev : event) (s : process) :
  spares_counter ev = true -> counter_ok s -> counter_ok (step s ev).
Proof.
  destruct ev as [w|path v]; cbn [spares_counter step]; intros Hev Hs.
  - by apply cycle_counter.
  - apply bus_SetValue_counter; [|done]. intros ->. discriminate Hev.
Qed.

Lemma run_counter (evs : list event) (s : process) :
  forallb spares_counter evs = true -> counter_ok s -> counter_ok (run evs s).
Proof.
  revert s. induction evs as [|ev evs IH]; intros s Hevs Hs; [done|].
  cbn [forallb] in Hevs. apply andb_prop in Hevs as [Hev Hevs].
  apply IH; [done|]. by apply step_counter.
Qed.

Lemma init_counter (w : env) (d cn serial : string) (di n : Z) :
  config_get w "DEFAULT" "DeviceInstance" = Ok d ->
  py_int (PyStr d) = Ok di ->
  config_get w "DEFAULT" "CustomName" = Ok cn ->
  config_get w "DEFAULT" "Serial" = Ok serial ->
  _getSignOfLifeInterval w = Ok n ->
  counter_ok (main w).
Proof.
  intros Hd Hdi Hcn Hserial Hn.
  destruct (init_returns w d cn serial di n Hd Hdi Hcn Hserial Hn)
    as (s & Hrun & _ & _ & Hidx & Hpub).
  unfold main, try_except. rewrite Hrun. cbn [fst].
  split.
  - intros p Hp. apply elem_of_cons in Hp as [->|Hp].
    + unfold dbus_value in Hidx. by destruct (_dbusservice s !! "/UpdateIndex"%string).
    + specialize (Hpub p Hp). unfold dbus_value in Hpub.
      by destruct (_dbusservice s !! p).
  - exists 0. split; [done|lia].
Qed.

(** From start-up on, through any interleaving of cycles (in whatever state
    the device and the network are) and writes by bus clients to paths
    other than [/UpdateIndex], the ten paths stay exported and
    [/UpdateIndex] stays an integer from 0 to 255. *)
Lemma reachable_counter (w : env) (d cn serial : string) (di n : Z)
    (evs : list event) :
  config_get w "DEFAULT" "DeviceInstance" = Ok d ->
  py_int (PyStr d) = Ok di ->
  config_get w "DEFAULT" "CustomName" = Ok cn ->
  config_get w "DEFAULT" "Serial" = Ok serial ->
  _getSignOfLifeInterval w = Ok n ->
  forallb spares_counter evs = true ->
  registered (run evs (main w)) /\
  exists i, dbus_value (run evs (main w)) "/UpdateIndex" = Some (PyInt i) /\
            0 <= i <= 255.
Proof.
  intros Hd Hdi Hcn Hserial Hn Hevs.
  exact (run_counter evs (main w) Hevs
           (init_counter w d cn serial di n Hd Hdi Hcn Hserial Hn)).
Qed.

(* ===================================================================== *)
(** ** The fetch *)
(* ===================================================================== *)

Lemma config_get_raises (w : env) (section key : string) (e : exn) :
  config_get w section key = Raise e -> exists k, e = KeyError k.
Proof.
  unfold config_get. destruct (String.eqb section "DEFAULT").
  - destruct (config_defaults w !! key); [discriminate|]. intros [= <-]. eauto.
  - destruct (config_sections w !! section) as [sec|]; [|intros [= <-]; eauto].
    destruct (sec !! key); [discriminate|].
    destruct (config_defaults w !! key); [discriminate|]. intros [= <-]. eauto.
Qed.

(** X2. A response with an error status (a falsy response object) makes
    the fetch raise the builtin [ConnectionError] without looking at the
    body; the cycle goes through the first handler: the nine defaults,
    [/UpdateIndex] advanced, [_lastUpdate] kept, [True] returned. *)
Theorem error_status_is_recoverable (w : env) (s : process) (base : string)
    (resp : response) (i : Z) :
  _getStatusUrl w = Ok base ->
  requests_get w (base +:+ "state") = Ok resp ->
  ok resp = false ->
  registered s ->
  dbus_value s "/UpdateIndex" = Some (PyInt i) ->
  _getRngBridgeState w
    = Raise (ConnectionError ("No response from RNGBridge - " +:+ (base +:+ "state"))) /\
  (forall p, p ∈ published -> dbus_value (cycle w s) p = Some (default_value p)) /\
  dbus_value (cycle w s) "/UpdateIndex" = Some (PyInt ((i + 1) mod 256)) /\
  _lastUpdate (cycle w s) = _lastUpdate s /\
  snd (_update w s) = Ok true.
Proof.
  intros Hurl Hget Hok Hr Hi.
  assert (Hf : _getRngBridgeState w
               = Raise (ConnectionError
                          ("No response from RNGBridge - " +:+ (base +:+ "state")))).
  { unfold _getRngBridgeState, _requestData. rewrite Hurl. cbn [rbind].
    rewrite Hget. cbn [rbind]. by rewrite Hok. }
  split; [exact Hf|].
  destruct (cycle_recoverable w s _ i Hf eq_refl Hr Hi) as (Hd & Hn & Hl & _ & Hret).
  by repeat split.
Qed.

Lemma error_status_is_recoverable_witness :
  dbus_value (cycle scenario_A started) "/Dc/0/Voltage" = Some (PyFloat (f64_of_Z 26)) /\
  dbus_value (cycle error_status (cycle scenario_A started)) "/Dc/0/Voltage"
    = Some (PyInt 0) /\
  dbus_value (cycle error_status (cycle scenario_A started)) "/UpdateIndex"
    = Some (PyInt 2).
Proof.
  destruct (error_status_is_recoverable error_status (cycle scenario_A started)
              "http://192.168.2.13/api/"
              {| ok := false; json := Ok (scenario_state (PyInt 3)) |} 1)
    as (_ & Hd & Hn & _);
    try (vm_compute; reflexivity).
  - exact registered_after_A.
  - split; [vm_compute; reflexivity|]. split; [|exact Hn].
    apply (Hd "/Dc/0/Voltage"%string), in_published. tauto.
Defined.

(** X3. With an [AccessType] other than [OnPremise], [_getStatusUrl] raises
    [ValueError] before any request is made, so both fetches raise it
    whatever the device would answer, and every cycle goes through the
    first handler. *)
Theorem unsupported_access_type (w : env) (s : process) (access : string) (i : Z) :
  config_get w "DEFAULT" "AccessType" = Ok access ->
  access <> "OnPremise"%string ->
  registered s ->
  dbus_value s "/UpdateIndex" = Some (PyInt i) ->
  _getRngBridgeState w
    = Raise (ValueError ("AccessType " +:+ access +:+ " is not supported")) /\
  _getRngBridgeConfig w
    = Raise (ValueError ("AccessType " +:+ access +:+ " is not supported")) /\
  (forall p, p ∈ published -> dbus_value (cycle w s) p = Some (default_value p)) /\
  dbus_value (cycle w s) "/UpdateIndex" = Some (PyInt ((i + 1) mod 256)) /\
  _lastUpdate (cycle w s) = _lastUpdate s /\
  snd (_update w s) = Ok true.
Proof.
  intros Hacc Hne Hr Hi.
  assert (Hurl : _getStatusUrl w
                 = Raise (ValueError ("AccessType " +:+ access +:+ " is not supported"))).
  { unfold _getStatusUrl. rewrite Hacc. cbn [rbind].
    by destruct (String.eqb_spec access "OnPremise"). }
  assert (Hf : _getRngBridgeState w
               = Raise (ValueError ("AccessType " +:+ access +:+ " is not supported")))
    by (unfold _getRngBridgeState; by rewrite Hurl).
  split; [exact Hf|]. split; [unfold _getRngBridgeConfig; by rewrite Hurl|].
  destruct (cycle_recoverable w s _ i Hf eq_refl Hr Hi) as (Hd & Hn & Hl & _ & Hret).
  by repeat split.
Qed.

Lemma unsupported_access_type_witness :
  _getRngBridgeState (accessed "Cloud")
    = Raise (ValueError "AccessType Cloud is not supported") /\
  dbus_value (cycle (accessed "Cloud") (cycle scenario_A started)) "/Pv/V"
    = Some (PyInt 0).
Proof.
  destruct (unsupported_access_type (accessed "Cloud") (cycle scenario_A started)
              "Cloud" 1) as (Hf & _ & Hd & _).
  - vm_compute; reflexivity.
  - discriminate.
  - exact registered_after_A.
  - vm_compute; reflexivity.
  - split; [exact Hf|]. apply (Hd "/Pv/V"%string), in_published. tauto.
Defined.

(** X4. When [config.ini] lacks [AccessType], or says [OnPremise] and
    gives no [Host], [_getStatusUrl] raises [KeyError]; the cycle ends in
    the second handler with the process exactly as it was, nothing zeroed
    and [/UpdateIndex] not advanced, and returns [True]. *)
Theorem missing_config_key_unhandled (w : env) (s : process) (e : exn) :
  config_get w "DEFAULT" "AccessType" = Raise e \/
  (config_get w "DEFAULT" "AccessType" = Ok "OnPremise"%string /\
   config_get w "ONPREMISE" "Host" = Raise e) ->
  (exists key, e = KeyError key) /\
  _getRngBridgeState w = Raise e /\
  classify w s = UnhandledFault e /\
  cycle w s = s /\
  snd (_update w s) = Ok true.
Proof.
  intros Hcfg.
  assert (Hkey : exists key, e = KeyError key).
  { destruct Hcfg as [H|[_ H]]; by apply config_get_raises in H. }
  assert (Hf : _getRngBridgeState w = Raise e).
  { unfold _getRngBridgeState, _getStatusUrl.
    destruct Hcfg as [->|[-> ->]]; reflexivity. }
  assert (He : recoverable e = false) by (destruct Hkey as [key ->]; reflexivity).
  split; [exact Hkey|]. split; [exact Hf|].
  assert (Hc : classify w s = UnhandledFault e).
  { unfold classify. rewrite (update_try_fetch_raises w s e Hf). cbn [snd].
    by rewrite He. }
  split; [exact Hc|].
  unfold cycle. rewrite _update_unfold, (update_try_fetch_raises w s e Hf), He.
  by split.
Qed.

Lemma missing_config_key_unhandled_witness :
  classify (lacking "AccessType") (cycle scenario_A started)
    = UnhandledFault (KeyError "AccessType") /\
  cycle (lacking "AccessType") (cycle scenario_A started) = cycle scenario_A started.
Proof.
  destruct (missing_config_key_unhandled (lacking "AccessType")
              (cycle scenario_A started) (KeyError "AccessType"))
    as (_ & _ & Hc & Hsame & _).
  - left. vm_compute; reflexivity.
  - exact (conj Hc Hsame).
Defined.

(* ===================================================================== *)
(** ** What a cycle leaves alone *)
(* ===================================================================== *)

Lemma _update_keeps_paths (I : process -> Prop) (w : env) :
  (forall p v s, p ∈ cycle_paths -> I s -> I (store p v s)) ->
  (forall v s, I s -> I (set_lastUpdate v s)) ->
  keeps I (_update w).
Proof.
  intros Hst Hlast.
  assert (Hin : forall p, p = "/UpdateIndex"%string \/ p ∈ published -> p ∈ cycle_paths)
    by (intros p [->|Hp]; [apply list_elem_of_here|by apply list_elem_of_further]).
  assert (Hinc : keeps I increment_UpdateIndex).
  { unfold increment_UpdateIndex.
    apply keeps_bind; [apply keeps_getitem|intros index].
    apply keeps_bind; [apply keeps_pure|intros next].
    apply keeps_setitem. intros s1 Hs1. apply Hst; [apply Hin; by left|exact Hs1]. }
  unfold _update. apply keeps_bind; [|by intros ? ? ?].
  apply keeps_try_except.
  - unfold update_try.
    repeat (apply keeps_bind;
            [first [ apply keeps_pure | apply keeps_getitem
                   | apply keeps_setitem; intros s1 Hs1;
                     apply Hst; [apply Hin; right; apply in_published; tauto|exact Hs1]
                   | exact Hinc ]
            | intros ? ]).
    intros s HI. by apply Hlast.
  - intros e. unfold update_except. destruct (recoverable e); [|by intros ? ?].
    unfold update_zero.
    repeat (apply keeps_bind;
            [apply keeps_setitem; intros s1 Hs1;
             apply Hst; [apply Hin; right; apply in_published; tauto|exact Hs1]
            |intros ?]).
    exact Hinc.
Qed.

(** X5. Whatever the world does, a cycle leaves the registered timeouts as
    they are, exports no new path and drops none, keeps the text callback
    and the [writeable] flag of every item, and changes no value outside
    [/UpdateIndex] and the nine published paths. *)
Theorem cycle_touches_only_its_paths (w : env) (s : process) :
  timeouts (cycle w s) = timeouts s /\
  (forall p, p ∉ cycle_paths -> _dbusservice (cycle w s) !! p = _dbusservice s !! p) /\
  (forall p, gettextcallback <$> (_dbusservice (cycle w s) !! p)
             = gettextcallback <$> (_dbusservice s !! p)) /\
  (forall p, writeable <$> (_dbusservice (cycle w s) !! p)
             = writeable <$> (_dbusservice s !! p)) /\
  (forall p, is_Some (_dbusservice (cycle w s) !! p) <-> is_Some (_dbusservice s !! p)).
Proof.
  set (I := fun s' : process =>
    timeouts s' = timeouts s /\
    (forall p, p ∉ cycle_paths -> _dbusservice s' !! p = _dbusservice s !! p) /\
    (forall p, gettextcallback <$> (_dbusservice s' !! p)
               = gettextcallback <$> (_dbusservice s !! p)) /\
    (forall p, writeable <$> (_dbusservice s' !! p)
               = writeable <$> (_dbusservice s !! p))).
  assert (HI : I (cycle w s)).
  { apply (_update_keeps_paths I w).
    - intros p v s1 Hp (Ht & Hout & Hcb & Hwr). repeat split.
      + exact Ht.
      + intros q Hq. rewrite lookup_store_ne; [by apply Hout|]. by intros ->.
      + intros q. rewrite <- Hcb. destruct (decide (p = q)) as [->|Hne].
        * rewrite lookup_store_eq. by destruct (_dbusservice s1 !! q).
        * by rewrite lookup_store_ne.
      + intros q. rewrite <- Hwr. destruct (decide (p = q)) as [->|Hne].
        * rewrite lookup_store_eq. by destruct (_dbusservice s1 !! q).
        * by rewrite lookup_store_ne.
    - by intros v s1 HI.
    - by repeat split. }
  destruct HI as (Ht & Hout & Hcb & Hwr). repeat split; try done.
  - intros Hsome. specialize (Hwr p).
    destruct (_dbusservice s !! p); [done|].
    destruct (_dbusservice (cycle w s) !! p); [discriminate|by destruct Hsome].
  - intros Hsome. specialize (Hwr p).
    destruct (_dbusservice (cycle w s) !! p); [done|].
    destruct (_dbusservice s !! p); [discriminate|by destruct Hsome].
Qed.

(** X6. What a successful cycle leaves under the nine published paths
    depends on the world alone: two successful cycles in the same world,
    started from any two tables, publish the same values. *)
Theorem published_values_forget_history (w : env) (s1 s2 : process) (p : string) :
  classify w s1 = Success ->
  classify w s2 = Success ->
  p ∈ published ->
  dbus_value (cycle w s1) p = dbus_value (cycle w s2) p.
Proof.
  intros H1 H2 Hp.
  apply classify_Success in H1. apply classify_Success in H2.
  unfold cycle. rewrite !_update_unfold, H1, H2. cbn [fst].
  apply update_try_success in H1 as (st1 & _ & _ & Hst1 & Hv1 & _).
  apply update_try_success in H2 as (st2 & _ & _ & Hst2 & Hv2 & _).
  rewrite Hst1 in Hst2. injection Hst2 as <-.
  destruct (Hv1 p Hp) as (v1 & Hd1 & ->). destruct (Hv2 p Hp) as (v2 & Hd2 & ->).
  congruence.
Qed.

Lemma published_values_forget_history_witness :
  dbus_value (cycle scenario_A started) "/Yield/User"
  = dbus_value (cycle scenario_A (cycle scenario_B (cycle scenario_A started)))
      "/Yield/User".
Proof.
  apply (published_values_forget_history scenario_A started
           (cycle scenario_B (cycle scenario_A started)) "/Yield/User").
  - vm_compute; reflexivity.
  - vm_compute; reflexivity.
  - apply in_published. tauto.
Defined.

(* ===================================================================== *)
(** ** When a cycle succeeds *)
(* ===================================================================== *)

(** X7. A cycle is successful exactly when the fetch returns a state in
    which the nine right-hand sides evaluate and the three logged values
    can be formatted, the ten paths of the cycle are exported, and the
    value under [/UpdateIndex] can be incremented and reduced modulo 256. *)
Theorem success_iff (w : env) (s : process) :
  classify w s = Success <->
  exists state index next,
    _getRngBridgeState w = Ok state /\
    (forall p, p ∈ published -> exists v, device_value state p = Ok v) /\
    loggable w state /\
    registered s /\
    dbus_value s "/UpdateIndex" = Some index /\
    next_index index = Ok next.
Proof.
  split.
  - intros Hc. apply classify_Success, update_try_success in Hc
      as (state & index & next & Hst & Hvals & Hidx & Hnext & _ & _ & _ & Hex & Hlog).
    exists state, index, next. split; [done|]. split.
    { intros p Hp. destruct (Hvals p Hp) as (v & Hv & _). by exists v. }
    split; [done|]. split; [|done].
    intros p Hp. apply elem_of_cons in Hp as [->|Hp].
    + unfold dbus_value in Hidx. by destruct (_dbusservice s !! "/UpdateIndex"%string).
    + destruct (Hvals p Hp) as (v & _ & Hv). apply Hex.
      unfold dbus_value in Hv. by destruct (_dbusservice _ !! p).
  - intros (state & index & next & Hst & Hvals & Hlog & Hr & Hidx & Hnext).
    unfold classify. by rewrite (update_try_runs w s state index next).
Qed.

(** X17. When the nine right-hand sides evaluate but one of the three
    logged values cannot be formatted (an integer with more digits than the
    interpreter converts), the [ValueError] is raised inside the [try]
    block after the nine assignments: the cycle goes through the first
    handler, which puts the defaults over the values just written and
    advances [/UpdateIndex]; [_lastUpdate] is kept and [True] returned. *)
Theorem logging_fault_is_recoverable (w : env) (s : process) (state : pyval)
    (e0 : exn) (i : Z) :
  _getRngBridgeState w = Ok state ->
  (forall p, p ∈ published -> exists v, device_value state p = Ok v) ->
  logging_raises w state e0 ->
  registered s ->
  dbus_value s "/UpdateIndex" = Some (PyInt i) ->
  (exists msg, classify w s = RecoverableFault (ValueError msg)) /\
  (forall p, p ∈ published -> dbus_value (cycle w s) p = Some (default_value p)) /\
  dbus_value (cycle w s) "/UpdateIndex" = Some (PyInt ((i + 1) mod 256)) /\
  _lastUpdate (cycle w s) = _lastUpdate s /\
  snd (_update w s) = Ok true.
Proof.
  intros Hst Hvals (path & v & Hp & Hv & Hf) Hr Hi.
  assert (Hc : exists msg, classify w s = RecoverableFault (ValueError msg)).
  { destruct (classify w s) as [|e|e] eqn:Hc.
    - apply classify_Success, update_try_success in Hc
        as (state' & _ & _ & Hst' & _ & _ & _ & _ & _ & _ & _ & Hlog).
      rewrite Hst in Hst'. injection Hst' as <-.
      by rewrite (Hlog path v Hp Hv) in Hf.
    - apply recoverable_origin in Hc as [Hfetch|(state' & _ & _ & q & x & _ & _ & Hx)];
        [congruence|].
      apply py_str_raises in Hx as [msg ->]. by exists msg.
    - exfalso.
      apply cycle_unhandled in Hc
        as (_ & _ & _ & [[Hfetch _]|(state' & Hst' & k & Hle & _ & Hlt & Heq)]);
        [congruence|].
      rewrite Hst in Hst'. injection Hst' as <-.
      destruct (decide (k = 9%nat)) as [->|Hne].
      + destruct (Heq eq_refl) as [[Hnone _]|(idx & Hidx & Hn)].
        * destruct (Hr "/UpdateIndex"%string) as [it Hit]; [apply list_elem_of_here|].
          by rewrite Hit in Hnone.
        * rewrite Hi in Hidx. injection Hidx as <-. by rewrite next_index_int in Hn.
      + destruct Hlt as (q & Hq & [Hraise|(_ & Hnone & _)]); [lia| |].
        * destruct (Hvals q) as [x Hx]; [by eapply list_elem_of_lookup_2|].
          by rewrite Hx in Hraise.
        * destruct (Hr q) as [it Hit];
            [apply list_elem_of_further; by eapply list_elem_of_lookup_2|].
          by rewrite Hit in Hnone. }
  split; [exact Hc|]. destruct Hc as [msg Hc].
  destruct (cycle_handled w s _ i Hc Hr Hi) as (Hd & Hn & Hl & _ & Hret).
  by repeat split.
Qed.

(** An interpreter with a limit of 640 digits, a PV voltage and a PV
    current of 401 digits each: the product is stored, cannot be formatted
    for the log, and the handler puts 0 over it. *)
Lemma logging_fault_is_recoverable_witness :
  dbus_value
    (cycle (limited (Ok {| ok := true; json := Ok state_with_long_power |})) started)
    "/Yield/Power" = Some (PyInt 0) /\
  dbus_value
    (cycle (limited (Ok {| ok := true; json := Ok state_with_long_power |})) started)
    "/UpdateIndex" = Some (PyInt 1).
Proof.
  destruct (logging_fault_is_recoverable
              (limited (Ok {| ok := true; json := Ok state_with_long_power |}))
              started state_with_long_power
              (ValueError ("Exceeds the limit (640 digits) for integer string conversion; "
                           +:+ "use sys.set_int_max_str_digits() to increase the limit"))
              0)
    as (_ & Hd & Hn & _).
  - reflexivity.
  - intros p Hp. apply is_Ok_true. apply in_published in Hp.
    repeat destruct Hp as [->|Hp]; try subst p; vm_compute; reflexivity.
  - exists "/Yield/Power"%string, (PyInt (10 ^ 400 * 10 ^ 400)).
    split; [unfold logged; rewrite !elem_of_cons; tauto|].
    split; [reflexivity|vm_compute; reflexivity].
  - exact registered_started.
  - vm_compute; reflexivity.
  - split; [|exact Hn]. apply (Hd "/Yield/Power"%string), in_published. tauto.
Defined.

(* ===================================================================== *)
(** ** The counter over a run *)
(* ===================================================================== *)

Lemma run_cons (ev : event) (evs : list event) (s : process) :
  run (ev :: evs) s = run evs (step s ev).
Proof. reflexivity. Qed.

Lemma run_counts (evs : list event) (s : process) (i : Z) :
  forallb spares_counter evs = true ->
  counter_ok s ->
  dbus_value s "/UpdateIndex" = Some (PyInt i) ->
  dbus_value (run evs s) "/UpdateIndex"
  = Some (PyInt ((i + completed evs s) mod 256)).
Proof.
  revert s i. induction evs as [|ev evs IH]; intros s i Hevs Hs Hi.
  - cbn. rewrite Hi. do 2 f_equal.
    destruct Hs as (_ & j & Hj & Hrange).
    rewrite Hi in Hj. injection Hj as <-.
    rewrite Z.add_0_r, Z.mod_small; lia.
  - cbn [forallb] in Hevs. apply andb_prop in Hevs as [Hev Hevs].
    pose proof (step_counter ev s Hev Hs) as Hs'.
    rewrite run_cons. destruct ev as [w|path v]; cbn [step completed] in *.
    + pose proof (counter_after_cycle w s i (proj1 Hs) Hi) as Hnext.
      destruct (classify w s) as [|e|e].
      * rewrite (IH _ _ Hevs Hs' Hnext). do 2 f_equal.
        rewrite Z.add_mod_idemp_l by lia.
        apply (f_equal (fun z => z mod 256)). lia.
      * rewrite (IH _ _ Hevs Hs' Hnext). do 2 f_equal.
        rewrite Z.add_mod_idemp_l by lia.
        apply (f_equal (fun z => z mod 256)). lia.
      * by rewrite (IH _ _ Hevs Hs' Hnext).
    + apply (IH _ _ Hevs Hs').
      unfold bus_SetValue.
      destruct (_dbusservice s !! path) as [it|]; [|done].
      destruct (writeable it && _handlechangedvalue path v); [|done].
      rewrite dbus_value_store_ne; [done|]. intros ->. discriminate Hev.
Qed.

(** X8. From start-up on, through any interleaving of cycles and writes by
    bus clients to paths other than [/UpdateIndex] itself, [/UpdateIndex]
    holds the number of cycles that completed, by success or through the
    first handler, modulo 256: cycles that ended in the second handler and
    writes to the other paths do not move it. *)
Theorem UpdateIndex_counts_completed_cycles (w : env) (d cn serial : string)
    (di n : Z) (evs : list event) :
  config_get w "DEFAULT" "DeviceInstance" = Ok d ->
  py_int (PyStr d) = Ok di ->
  config_get w "DEFAULT" "CustomName" = Ok cn ->
  config_get w "DEFAULT" "Serial" = Ok serial ->
  _getSignOfLifeInterval w = Ok n ->
  forallb spares_counter evs = true ->
  dbus_value (run evs (main w)) "/UpdateIndex"
  = Some (PyInt (completed evs (main w) mod 256)).
Proof.
  intros Hd Hdi Hcn Hserial Hn Hevs.
  pose proof (init_counter w d cn serial di n Hd Hdi Hcn Hserial Hn) as Hok.
  destruct (init_returns w d cn serial di n Hd Hdi Hcn Hserial Hn)
    as (s & Hrun & _ & _ & Hidx & _).
  assert (Hmain : main w = s) by (unfold main, try_except; by rewrite Hrun).
  rewrite <- Hmain in Hidx.
  by rewrite (run_counts evs (main w) 0 Hevs Hok Hidx).
Qed.

(** Bulk charging, a time-out, a bus client writing 99 to [/Pv/V], a state
    without ["c"], an empty body: three cycles of the four completed. *)
Lemma UpdateIndex_counts_completed_cycles_witness :
  dbus_value
    (run [Tick scenario_A; Tick scenario_B; BusWrite "/Pv/V" (PyInt 99);
          Tick (device_answers state_without_c); Tick (device_answers (PyDict []))]
         (main scenario_A)) "/UpdateIndex"
  = Some (PyInt 3).
Proof.
  etransitivity.
  - apply (UpdateIndex_counts_completed_cycles scenario_A "40" "RNGBridge" "0001" 40 5);
      vm_compute; reflexivity.
  - vm_compute; reflexivity.
Defined.

(** A cycle run where the ten paths are exported and the counter is an
    integer returns [True], whatever the world does. *)
Lemma update_returns_true (w : env) (s : process) (i : Z) :
  registered s -> dbus_value s "/UpdateIndex" = Some (PyInt i) ->
  snd (_update w s) = Ok true.
Proof.
  intros Hr Hi. destruct (classify w s) as [|e|e] eqn:Hc.
  - apply classify_Success in Hc. by rewrite _update_unfold, Hc.
  - by destruct (cycle_handled w s e i Hc Hr Hi) as (_ & _ & _ & _ & Hret).
  - by apply cycle_unhandled in Hc as (_ & Hret & _).
Qed.

(** X9. From start-up on, through any interleaving of cycles and writes by
    bus clients to paths other than [/UpdateIndex], [_update] returns
    [True] whatever the device and the network do: it never raises and
    never asks to be removed from the main loop. *)
Theorem callbacks_stay_scheduled (w : env) (d cn serial : string) (di n : Z)
    (evs : list event) (w' : env) :
  config_get w "DEFAULT" "DeviceInstance" = Ok d ->
  py_int (PyStr d) = Ok di ->
  config_get w "DEFAULT" "CustomName" = Ok cn ->
  config_get w "DEFAULT" "Serial" = Ok serial ->
  _getSignOfLifeInterval w = Ok n ->
  forallb spares_counter evs = true ->
  snd (_update w' (run evs (main w))) = Ok true.
Proof.
  intros Hd Hdi Hcn Hserial Hn Hevs.
  destruct (reachable_counter w d cn serial di n evs Hd Hdi Hcn Hserial Hn Hevs)
    as (Hr & i & Hi & _).
  by apply (update_returns_true w' _ i).
Qed.

Lemma callbacks_stay_scheduled_witness :
  snd (_update (device_answers state_without_c)
         (run [Tick scenario_B; BusWrite "/State" (PyStr "on")] (main scenario_A)))
  = Ok true.
Proof.
  apply (callbacks_stay_scheduled scenario_A "40" "RNGBridge" "0001" 40 5
           [Tick scenario_B; BusWrite "/State" (PyStr "on")]
           (device_answers state_without_c));
    vm_compute; reflexivity.
Defined.

(* ===================================================================== *)
(** ** Start-up *)
(* ===================================================================== *)

(** [__init__] with the paths of [main], as far as the sign-of-life interval. *)
Lemma init_runs (w : env) (productname connection d cn serial : string) (di : Z) :
  config_get w "DEFAULT" "DeviceInstance" = Ok d ->
  py_int (PyStr d) = Ok di ->
  config_get w "DEFAULT" "CustomName" = Ok cn ->
  config_get w "DEFAULT" "Serial" = Ok serial ->
  __init__ w main_paths productname connection boot =
  match _getSignOfLifeInterval w with
  | Ok n => (initial_process w di cn serial productname connection
               [(2000, cb_update); (n * 60 * 1000, cb_signOfLife)], Ok tt)
  | Raise e => (initial_process w di cn serial productname connection
                  [(2000, cb_update)], Raise e)
  end.
Proof.
  intros Hd Hdi Hcn Hserial. unfold __init__, main_paths, add_paths, boot.
  rewrite bind_eval, Hd. cbn [rbind]. rewrite Hdi.
  rewrite bind_eval, Hcn. cbv zeta.
  unfold bind at 1, new_service at 1.
  unfold set_dbusservice; cbn [_dbusservice _lastUpdate timeouts].
  do 12 add_fresh_path.
  rewrite bind_eval, Hserial.
  do 3 add_fresh_path.
  do 9 (rewrite bind_assoc; add_fresh_path).
  unfold bind at 1, ret at 1.
  unfold bind at 1, init_lastUpdate at 1.
  unfold bind at 1, timeout_add at 1.
  rewrite bind_eval. unfold timeout_add, set_lastUpdate, add_timeout, initial_process.
  cbn [_dbusservice _lastUpdate timeouts app].
  destruct (_getSignOfLifeInterval w) as [n|e]; reflexivity.
Qed.

(** X10. Where [config.ini] holds [DeviceInstance], [CustomName], [Serial]
    and [SignOfLifeLog] in [DEFAULT], [int()] accepts the first and the last
    (an empty [SignOfLifeLog] counting as 0) and the two texts hold no
    [%], [__init__], given the paths of [main], returns. It leaves the
    twenty-four items of [initial_items], none exported twice,
    [_lastUpdate] at 0, and the two timeouts. *)
Theorem init_exports (w : env) (productname connection d cn serial : string)
    (di n : Z) :
  config_get w "DEFAULT" "DeviceInstance" = Ok d ->
  py_int (PyStr d) = Ok di ->
  config_get w "DEFAULT" "CustomName" = Ok cn ->
  plain cn = true ->
  config_get w "DEFAULT" "Serial" = Ok serial ->
  plain serial = true ->
  _getSignOfLifeInterval w = Ok n ->
  __init__ w main_paths productname connection boot
  = (initial_process w di cn serial productname connection
       [(2000, cb_update); (n * 60 * 1000, cb_signOfLife)], Ok tt) /\
  NoDup (map fst (initial_items w di cn serial productname connection)) /\
  length (initial_items w di cn serial productname connection) = 24%nat.
Proof.
  intros Hd Hdi Hcn _ Hserial _ Hn.
  rewrite (init_runs w productname connection d cn serial di Hd Hdi Hcn Hserial), Hn.
  split; [reflexivity|]. split; [|reflexivity].
  apply (bool_decide_unpack _). vm_compute. reflexivity.
Qed.

Lemma init_exports_witness :
  fst (__init__ scenario_A main_paths "RNGBridge" "RNGBridge HTTP JSON service" boot)
  = initial_process scenario_A 40 "RNGBridge" "0001" "RNGBridge"
      "RNGBridge HTTP JSON service" [(2000, cb_update); (5 * 60 * 1000, cb_signOfLife)].
Proof.
  refine (f_equal fst
            (proj1 (init_exports scenario_A "RNGBridge" "RNGBridge HTTP JSON service"
                      "40" "RNGBridge" "0001" 40 5 _ _ _ _ _ _ _)));
    vm_compute; reflexivity.
Defined.

(** X11. When the other keys are in place and [_getSignOfLifeInterval]
    raises ([SignOfLifeLog] missing, or not accepted by [int()]), the
    exception leaves [__init__] at its last statement: by then every item is
    exported and the 2000 ms timeout of [_update] is registered; the
    sign-of-life timeout is not. [main] catches the exception and is left
    with that process. *)
Theorem init_bad_interval (w : env) (d cn serial : string) (di : Z) (e : exn) :
  config_get w "DEFAULT" "DeviceInstance" = Ok d ->
  py_int (PyStr d) = Ok di ->
  config_get w "DEFAULT" "CustomName" = Ok cn ->
  config_get w "DEFAULT" "Serial" = Ok serial ->
  _getSignOfLifeInterval w = Raise e ->
  __init__ w main_paths "RNGBridge" "RNGBridge HTTP JSON service" boot
  = (initial_process w di cn serial "RNGBridge" "RNGBridge HTTP JSON service"
       [(2000, cb_update)], Raise e) /\
  main w = initial_process w di cn serial "RNGBridge" "RNGBridge HTTP JSON service"
             [(2000, cb_update)] /\
  ((exists key, e = KeyError key) \/ (exists msg, e = ValueError msg)).
Proof.
  intros Hd Hdi Hcn Hserial Hn.
  pose proof (init_runs w "RNGBridge" "RNGBridge HTTP JSON service" d cn serial di
                Hd Hdi Hcn Hserial) as Hrun.
  rewrite Hn in Hrun. split; [exact Hrun|]. split.
  - unfold main, try_except. by rewrite Hrun.
  - unfold _getSignOfLifeInterval in Hn.
    destruct (config_get w "DEFAULT" "SignOfLifeLog") as [value|e'] eqn:Hv.
    + right. cbn [rbind] in Hn. destruct (py_bool (PyStr value)); [|discriminate].
      cbn [negb py_int] in Hn. unfold int_of_str in Hn.
      destruct (match strip _ with [] => _ | _ => _ end); [discriminate|].
      injection Hn as <-. eauto.
    + left. cbn [rbind] in Hn. injection Hn as <-. by apply config_get_raises in Hv.
Qed.

Lemma init_bad_interval_witness :
  timeouts (main (configured "five")) = [(2000, cb_update)] /\
  dbus_value (main (configured "five")) "/Pv/V" = Some (PyInt 0).
Proof.
  destruct (init_bad_interval (configured "five") "40" "RNGBridge" "0001" 40
              (ValueError "invalid literal for int() with base 10: 'five'"))
    as (_ & Hmain & _); try (vm_compute; reflexivity).
  rewrite Hmain. split; vm_compute; reflexivity.
Defined.

(* ===================================================================== *)
(** ** Writes by bus clients *)
(* ===================================================================== *)

Lemma same_flags_trans (s1 s2 s3 : process) :
  same_flags s1 s2 -> same_flags s2 s3 -> same_flags s1 s3.
Proof. intros H12 H23 p. by rewrite H23, H12. Qed.

Lemma bus_SetValue_same_flags (path : string) (v : pyval) (s : process) :
  same_flags s (bus_SetValue path v s).
Proof.
  unfold bus_SetValue. destruct (_dbusservice s !! path) as [it|]; [|done].
  destruct (writeable it && _handlechangedvalue path v); [|done].
  by apply same_flags_store.
Qed.

Lemma run_same_flags (evs : list event) (s : process) : same_flags s (run evs s).
Proof.
  revert s. induction evs as [|ev evs IH]; intros s; [done|].
  cbn [run fold_left]. change (fold_left step evs (step s ev)) with (run evs (step s ev)).
  apply (same_flags_trans _ (step s ev)); [|apply IH].
  destruct ev as [w|path v]; [apply cycle_same_flags|apply bus_SetValue_same_flags].
Qed.

(** The nine published items are exported writable at start-up. *)
Lemma initial_writeable (w : env) (di : Z) (cn serial productname connection : string)
    (timers : list (Z * callback)) (p : string) :
  p ∈ published ->
  writeable <$> (_dbusservice
                   (initial_process w di cn serial productname connection timers) !! p)
  = Some true.
Proof.
  intros Hp. apply in_published in Hp.
  repeat destruct Hp as [->|Hp]; try subst p; vm_compute; reflexivity.
Qed.

(** X12. From start-up on, through any interleaving of cycles and writes
    by bus clients, a bus client's write to one of the nine published paths
    is accepted whatever the value, and changes that value only; until the
    next cycle the written value is what the path holds. *)
Theorem bus_write_accepted (w : env) (d cn serial : string) (di n : Z)
    (evs : list event) (p : string) (v : pyval) :
  config_get w "DEFAULT" "DeviceInstance" = Ok d ->
  py_int (PyStr d) = Ok di ->
  config_get w "DEFAULT" "CustomName" = Ok cn ->
  config_get w "DEFAULT" "Serial" = Ok serial ->
  _getSignOfLifeInterval w = Ok n ->
  p ∈ published ->
  dbus_value (bus_SetValue p v (run evs (main w))) p = Some v /\
  (forall q, q <> p ->
     _dbusservice (bus_SetValue p v (run evs (main w))) !! q
     = _dbusservice (run evs (main w)) !! q) /\
  _lastUpdate (bus_SetValue p v (run evs (main w))) = _lastUpdate (run evs (main w)) /\
  timeouts (bus_SetValue p v (run evs (main w))) = timeouts (run evs (main w)).
Proof.
  intros Hd Hdi Hcn Hserial Hn Hp.
  assert (Hmain : main w = initial_process w di cn serial "RNGBridge"
                             "RNGBridge HTTP JSON service"
                             [(2000, cb_update); (n * 60 * 1000, cb_signOfLife)]).
  { unfold main, try_except.
    by rewrite (init_runs w _ _ d cn serial di Hd Hdi Hcn Hserial), Hn. }
  pose proof (run_same_flags evs (main w) p) as Hflag.
  rewrite Hmain in Hflag at 2.
  rewrite (initial_writeable _ _ _ _ _ _ _ p Hp) in Hflag.
  unfold bus_SetValue.
  destruct (_dbusservice (run evs (main w)) !! p) as [it|] eqn:Hit; [|discriminate].
  injection Hflag as ->. cbn [andb _handlechangedvalue].
  split; [apply dbus_value_store_eq; by rewrite Hit|].
  split; [|by split].
  intros q Hq. by apply lookup_store_ne.
Qed.

Lemma bus_write_accepted_witness :
  dbus_value (bus_SetValue "/Load/State" (PyStr "on") (run [Tick scenario_A] (main scenario_A)))
    "/Load/State" = Some (PyStr "on").
Proof.
  refine (proj1 (bus_write_accepted scenario_A "40" "RNGBridge" "0001" 40 5
                   [Tick scenario_A] "/Load/State" (PyStr "on") _ _ _ _ _ _));
    try (vm_compute; reflexivity).
  apply in_published. tauto.
Defined.

(* ===================================================================== *)
(** ** The [paths] argument *)
(* ===================================================================== *)

(** X14. The loop of [__init__] over a [paths] dictionary whose paths are
    pairwise distinct and not yet exported returns, and exports each path
    with its initial value and its text callback, writable; the items
    exported before, [_lastUpdate] and the timeouts are kept. *)
Theorem add_paths_exports (paths : list (string * (pyval * textformat))) (s : process) :
  NoDup (map fst paths) ->
  (forall p, p ∈ map fst paths -> _dbusservice s !! p = None) ->
  add_paths paths s
  = (set_dbusservice (list_to_map (exported_items paths) ∪ _dbusservice s) s, Ok tt).
Proof.
  revert s. induction paths as [|[path [initial fmt]] rest IH]; intros s Hnodup Hfresh.
  - cbn. unfold ret, set_dbusservice. rewrite (left_id_L ∅ (∪)). by destruct s.
  - cbn [add_paths]. cbn [map fst] in Hnodup, Hfresh.
    apply NoDup_cons in Hnodup as [Hnotin Hnodup].
    rewrite bind_add_path_fresh by (apply Hfresh, list_elem_of_here).
    rewrite IH; [|done|].
    + unfold set_dbusservice. cbn [_dbusservice _lastUpdate timeouts].
      do 2 f_equal.
      cbn [exported_items map list_to_map foldr fst snd].
      rewrite <- insert_union_l. symmetry. apply insert_union_r.
      apply not_elem_of_list_to_map_1. unfold exported_items.
      rewrite <- list_fmap_compose.
      by rewrite (list_fmap_ext _ fst rest) by (by intros ? [? [? ?]]).
    + intros p Hp. cbn [_dbusservice set_dbusservice].
      rewrite lookup_insert_ne; [by apply Hfresh, list_elem_of_further|].
      intros ->. by apply Hnotin.
Qed.

Lemma add_paths_exports_witness :
  dbus_value (fst (add_paths main_paths boot)) "/Load/I" = Some (PyInt 0) /\
  (writeable <$> (_dbusservice (fst (add_paths main_paths boot)) !! "/Load/I"%string))
  = Some true.
Proof.
  assert (Hrun : add_paths main_paths boot
                 = (set_dbusservice
                      (list_to_map (exported_items main_paths) ∪ _dbusservice boot) boot,
                    Ok tt)).
  { apply add_paths_exports.
    - apply (bool_decide_unpack _). vm_compute. reflexivity.
    - intros p _. apply lookup_empty. }
  rewrite Hrun. split; vm_compute; reflexivity.
Defined.

(* ===================================================================== *)
(** ** An exception in the first handler *)
(* ===================================================================== *)

(** X15. The first handler assigns to the nine published paths without a
    guard of its own: when the fetch raises an exception of the first
    [except] clause while one of these paths is not exported, the resulting
    [KeyError] leaves [_update], which then returns nothing; the paths
    assigned before the missing one are zeroed already, and [/UpdateIndex]
    is not advanced. *)
Theorem handler_exception_escapes (w : env) (s : process) (e : exn) (p : string) :
  _getRngBridgeState w = Raise e ->
  recoverable e = true ->
  p ∈ published ->
  _dbusservice s !! p = None ->
  exists key,
    snd (_update w s) = Raise (KeyError key) /\
    key ∈ published /\
    _dbusservice s !! key = None /\
    dbus_value (cycle w s) "/UpdateIndex" = dbus_value s "/UpdateIndex".
Proof.
  intros Hf He Hp Hnone.
  unfold cycle. rewrite _update_unfold, (update_try_fetch_raises w s e Hf), He.
  unfold update_zero.
  repeat
    (rewrite bind_setitem;
     match goal with
     | |- context [match _dbusservice ?t !! ?q with _ => _ end] =>
         let Hq := fresh "Hq" in
         destruct (_dbusservice t !! q) eqn:Hq;
         [ apply mk_is_Some in Hq; rewrite ?exported_store in Hq
         | exists q; cbn [fst snd];
           split; [reflexivity|]; split; [apply in_published; tauto|];
           split;
           [ apply eq_None_not_Some; intros Hsome;
             apply eq_None_not_Some in Hq; apply Hq;
             by rewrite ?exported_store
           | by rewrite ?dbus_value_store_ne by done ] ]
     end).
  exfalso. apply in_published in Hp.
  repeat destruct Hp as [->|Hp]; try subst p;
    match goal with H : is_Some (_dbusservice s !! ?q) |- _ =>
      match type of Hnone with _ !! q = None => rewrite Hnone in H; by destruct H end
    end.
Qed.

(** The service built with an empty [paths] dictionary raises at the first
    time-out. *)
Lemma handler_exception_escapes_witness :
  exists key, snd (_update scenario_B bare_service) = Raise (KeyError key).
Proof.
  destruct (handler_exception_escapes scenario_B bare_service RequestsTimeout "/Pv/V")
    as (key & Hraise & _); try (vm_compute; reflexivity).
  - apply in_published. tauto.
  - by exists key.
Defined.

(* ===================================================================== *)
(** ** What the sign of life reports *)
(* ===================================================================== *)

Lemma update_zero_lastUpdate (s : process) :
  _lastUpdate (fst (update_zero s)) = _lastUpdate s.
Proof.
  assert (Hinc : keeps (fun s' => _lastUpdate s' = _lastUpdate s) increment_UpdateIndex).
  { unfold increment_UpdateIndex.
    apply keeps_bind; [apply keeps_getitem|intros index].
    apply keeps_bind; [apply keeps_pure|intros next].
    by apply keeps_setitem. }
  assert (Hk : keeps (fun s' => _lastUpdate s' = _lastUpdate s) update_zero).
  { unfold update_zero.
    repeat (apply keeps_bind; [by apply keeps_setitem|intros ?]).
    exact Hinc. }
  by apply Hk.
Qed.

(** [_lastUpdate] after one cycle, by the outcome of the [try] block. *)
Lemma cycle_lastUpdate (w : env) (s : process) :
  _lastUpdate (cycle w s)
  = match classify w s with
    | Success => PyFloat (time_time w)
    | RecoverableFault _ | UnhandledFault _ => _lastUpdate s
    end.
Proof.
  destruct (classify w s) as [|e|e] eqn:Hc.
  - apply classify_Success in Hc.
    unfold cycle. rewrite _update_unfold, Hc. cbn [fst].
    by apply update_try_success in Hc as (_ & _ & _ & _ & _ & _ & _ & _ & Hl & _).
  - apply classify_Recoverable in Hc as [Hrun He].
    pose proof (update_try_raised_frame w s _ e Hrun) as Hfr.
    unfold cycle. rewrite _update_unfold, Hrun, He.
    pose proof (update_zero_lastUpdate (fst (update_try w s))) as Hl.
    destruct (update_zero (fst (update_try w s))) as [s' [[]|e']]; cbn [fst] in Hl |- *;
      rewrite Hl; apply Hfr.
  - apply cycle_unhandled in Hc as (_ & _ & Hfr & _). apply Hfr.
Qed.

Lemma bus_SetValue_lastUpdate (path : string) (v : pyval) (s : process) :
  _lastUpdate (bus_SetValue path v s) = _lastUpdate s.
Proof.
  unfold bus_SetValue. destruct (_dbusservice s !! path) as [it|]; [|done].
  by destruct (writeable it && _handlechangedvalue path v).
Qed.

Lemma run_lastUpdate (evs : list event) (s : process) :
  _lastUpdate (run evs s) = last_success evs s (_lastUpdate s).
Proof.
  revert s. induction evs as [|ev evs IH]; intros s; [done|].
  rewrite run_cons. destruct ev as [w|path v]; cbn [step last_success].
  - by rewrite IH, cycle_lastUpdate.
  - by rewrite IH, bus_SetValue_lastUpdate.
Qed.

(** X16. From start-up on, through any interleaving of cycles and writes by
    bus clients, [_lastUpdate], which the sign of life logs, is the clock
    reading taken by the most recent cycle whose [try] block ran to its
    end, and the 0 of [__init__] as long as there was none; faulting cycles
    of either kind and bus clients leave it alone. *)
Theorem lastUpdate_is_last_success (w : env) (d cn serial : string) (di n : Z)
    (evs : list event) :
  config_get w "DEFAULT" "DeviceInstance" = Ok d ->
  py_int (PyStr d) = Ok di ->
  config_get w "DEFAULT" "CustomName" = Ok cn ->
  config_get w "DEFAULT" "Serial" = Ok serial ->
  _getSignOfLifeInterval w = Ok n ->
  _lastUpdate (run evs (main w)) = last_success evs (main w) (PyInt 0).
Proof.
  intros Hd Hdi Hcn Hserial Hn.
  rewrite (run_lastUpdate evs (main w)). f_equal.
  unfold main, try_except.
  by rewrite (init_runs w _ _ d cn serial di Hd Hdi Hcn Hserial), Hn.
Qed.

Lemma lastUpdate_is_last_success_witness :
  _lastUpdate (run [Tick scenario_B; Tick scenario_A; BusWrite "/Pv/V" (PyInt 99);
                    Tick scenario_C] (main scenario_A))
  = PyFloat (time_time scenario_A).
Proof.
  etransitivity.
  - apply (lastUpdate_is_last_success scenario_A "40" "RNGBridge" "0001" 40 5);
      vm_compute; reflexivity.
  - vm_compute; reflexivity.
Defined.

Lemma run_registered (evs : list event) (s : process) :
  registered s -> registered (run evs s).
Proof.
  intros Hr p Hp. pose proof (run_same_flags evs s p) as Hflags.
  destruct (Hr p Hp) as [it Hit]. rewrite Hit in Hflags.
  by destruct (_dbusservice (run evs s) !! p).
Qed.

(** [_signOfLife], statement by statement. *)
Lemma _signOfLife_unfold (w : env) (s : process) :
  _signOfLife w s =
  match percent_s w (_lastUpdate s) with
  | Raise e => (s, Raise e)
  | Ok _ =>
      match _dbusservice s !! "/Yield/Power"%string with
      | None => (s, Raise (KeyError "/Yield/Power"))
      | Some it =>
          match percent_s w (value it) with
          | Raise e => (s, Raise e)
          | Ok _ => (s, Ok true)
          end
      end
  end.
Proof.
  unfold _signOfLife, bind, get_lastUpdate, eval, dbus_getitem, ret.
  destruct (percent_s w (_lastUpdate s)) as [[]|e]; [|reflexivity].
  destruct (_dbusservice s !! "/Yield/Power"%string) as [it|]; [|reflexivity].
  by destruct (percent_s w (value it)) as [[]|e].
Qed.

(** X18. [_signOfLife] writes nothing; from start-up on, through any
    interleaving of cycles and writes by bus clients, on an interpreter
    that sets no limit on the digits of an integer it finds
    [/Yield/Power] exported, formats what it logs and returns [True]. *)
Theorem sign_of_life_returns (w : env) (d cn serial : string) (di n : Z)
    (evs : list event) (w' : env) :
  config_get w "DEFAULT" "DeviceInstance" = Ok d ->
  py_int (PyStr d) = Ok di ->
  config_get w "DEFAULT" "CustomName" = Ok cn ->
  config_get w "DEFAULT" "Serial" = Ok serial ->
  _getSignOfLifeInterval w = Ok n ->
  fst (_signOfLife w' (run evs (main w))) = run evs (main w) /\
  (int_max_str_digits w' = 0 ->
   snd (_signOfLife w' (run evs (main w))) = Ok true).
Proof.
  intros Hd Hdi Hcn Hserial Hn.
  pose proof (run_registered evs (main w)
                (proj1 (init_counter w d cn serial di n Hd Hdi Hcn Hserial Hn))) as Hr.
  destruct (Hr "/Yield/Power"%string) as [it Hit].
  { rewrite elem_of_cons, in_published. tauto. }
  rewrite _signOfLife_unfold, Hit. split.
  - destruct (percent_s w' _) as [[]|e]; [|reflexivity].
    by destruct (percent_s w' (value it)) as [[]|e].
  - intros Hlimit.
    assert (Hfmt : forall v, percent_s w' v = Ok tt).
    { intros v. unfold percent_s. rewrite Hlimit. apply py_str_no_limit. }
    by rewrite !Hfmt.
Qed.

Lemma sign_of_life_returns_witness :
  snd (_signOfLife scenario_A
         (run [Tick scenario_A; BusWrite "/Yield/Power" (PyInt (10 ^ 5000))]
              (main scenario_A)))
  = Ok true.
Proof.
  refine (proj2 (sign_of_life_returns scenario_A "40" "RNGBridge" "0001" 40 5
                   [Tick scenario_A; BusWrite "/Yield/Power" (PyInt (10 ^ 5000))]
                   scenario_A _ _ _ _ _) _);
    vm_compute; reflexivity.
Defined.
